(** * fbx2glb: the comparison engine and the clean-up contract

    A shallow embedding of [src/lib/compare.js] (the before/after analysis
    of two inspection reports), of [cleanupTempFile] (the utilities that
    follow the logger in [src/lib/logger.js]) and of the [main] function of
    the command-line entry point, followed by the properties the
    specification states about them and by further properties of the
    report printer, of the persisted comparison record and of the
    clean-up.

    JavaScript numbers are IEEE 754 binary64 values; they are modelled with
    the Standard Library's [spec_float] at precision 53 and maximal exponent
    1024, so additions, subtractions, multiplications and divisions round
    exactly as the engine's do.  Strings are byte strings holding UTF-8. *)

From Stdlib Require Import ZArith List String Ascii Bool Lia.
From Stdlib Require Import SpecFloat DecimalString DecimalPos DecimalN.
From Stdlib Require Import DecimalFacts.
Import ListNotations.

Local Open Scope string_scope.
Local Open Scope Z_scope.

(** ** Binary64 numbers *)

Module Num.

Definition number := spec_float.

Definition prec : Z := 53.
Definition emax : Z := 1024.

(** The Number value of a mathematical integer (round to nearest, ties to
    even). *)
Definition ofZ (z : Z) : number := binary_normalize prec emax z 0 false.
Definition ofNat (n : nat) : number := ofZ (Z.of_nat n).

Definition zero : number := S754_zero false.
Definition hundred : number := ofZ 100.
Definition n1024 : number := ofZ 1024.

Definition add : number -> number -> number := SFadd prec emax.
Definition sub : number -> number -> number := SFsub prec emax.
Definition mul : number -> number -> number := SFmul prec emax.
Definition div : number -> number -> number := SFdiv prec emax.

(** [x < y], [x > y] and [x === y] on numbers; all are false when an
    operand is NaN. *)
Definition ltb (x y : number) : bool := SFltb x y.
Definition gtb (x y : number) : bool := SFltb y x.
Definition eqb (x y : number) : bool := SFeqb x y.

Definition isNaN (x : number) : bool :=
  match x with S754_nan => true | _ => false end.

Definition isZero (x : number) : bool :=
  match x with S754_zero _ => true | _ => false end.

Definition isFinite (x : number) : bool :=
  match x with S754_zero _ | S754_finite _ _ _ => true | _ => false end.

(** Structural equality of two representations. *)
Definition same (x y : number) : bool :=
  match x, y with
  | S754_zero a, S754_zero b => Bool.eqb a b
  | S754_infinity a, S754_infinity b => Bool.eqb a b
  | S754_nan, S754_nan => true
  | S754_finite a m e, S754_finite b m' e' =>
      Bool.eqb a b && Pos.eqb m m' && Z.eqb e e'
  | _, _ => false
  end.

(** The binary64 representation of an integer [0 < V < 2^53]: its 53-bit
    mantissa and exponent. *)
Definition canon (s : bool) (V : Z) : number :=
  let d := Z.log2 V + 1 in
  S754_finite s (Z.to_pos (V * 2 ^ (prec - d))) (d - prec).

(** The binary64 value of an integer of magnitude below 2^53. *)
Definition intF (z : Z) : number :=
  match z with
  | Z0 => S754_zero false
  | Zpos _ => canon false z
  | Zneg p => canon true (Zpos p)
  end.

(** The sign bit of a number; none for NaN. *)
Definition signbit (x : number) : option bool :=
  match x with
  | S754_nan => None
  | S754_zero s | S754_infinity s | S754_finite s _ _ => Some s
  end.

(** A shift record with no bit lost. *)
Definition exact (m : Z) : shr_record :=
  {| shr_m := m; shr_r := false; shr_s := false |}.

(** *** Decimal digits *)

(** The decimal digits of a natural number, ["0"] for zero. *)
Definition digits (n : Z) : string :=
  NilEmpty.string_of_uint (N.to_uint (Z.to_N n)).

Fixpoint zeros (n : nat) : string :=
  match n with
  | O => EmptyString
  | S k => String "0" (zeros k)
  end.

Definition takeStr (n : nat) (s : string) : string := substring 0 n s.
Definition dropStr (n : nat) (s : string) : string :=
  substring n (length s - n) s.

(** *** Number.prototype.toFixed *)

(** [roundScaled m e f]: the integer [n] for which [n / 10^f] is closest
    to [m * 2^e], the larger one when two are equally close. *)
Definition roundScaled (m : positive) (e : Z) (f : nat) : Z :=
  let p := Z.pos m * 10 ^ Z.of_nat f in
  if 0 <=? e then p * 2 ^ e
  else (2 * p + 2 ^ (- e)) / 2 ^ (- e + 1).

(** Steps 11.b and 11.c of toFixed: the digits of [n] with a decimal
    point before the last [f] of them. *)
Definition pointed (n : Z) (f : nat) : string :=
  let m := digits n in
  match f with
  | O => m
  | _ =>
      let m' := if Nat.leb (length m) f
                then zeros (f + 1 - length m) ++ m else m in
      let k := length m' in
      takeStr (k - f) m' ++ "." ++ dropStr (k - f) m'
  end.

(** [atLeast1e21 m e] is [m * 2^e >= 10^21]. *)
Definition atLeast1e21 (m : positive) (e : Z) : bool :=
  if 0 <=? e then 10 ^ 21 <=? Z.pos m * 2 ^ e
  else 10 ^ 21 * 2 ^ (- e) <=? Z.pos m.

(** Number::toString of a finite value [x >= 10^21], whose exact value is
    the integer [X]: the shortest digit string [s] of [k] digits such that
    [s * 10^(n-k)] converts back to [x], in exponent notation. *)
Definition decimalLength (X : Z) : Z := Z.of_nat (length (digits X)).

Definition candidate (x : number) (X : Z) (d k : Z) : option (Z * Z) :=
  let scale := 10 ^ (d - k) in
  let lo := X / scale in
  let hi := lo + 1 in
  let okLo := (10 ^ (k - 1) <=? lo) && same (ofZ (lo * scale)) x in
  let okHi := same (ofZ (hi * scale)) x in
  let norm s := if s =? 10 ^ k then (1, d + 1) else (s, d) in
  match okLo, okHi with
  | true, false => Some (lo, d)
  | false, true => Some (norm hi)
  | true, true =>
      let dl := X - lo * scale in
      let dh := hi * scale - X in
      if dl <? dh then Some (lo, d)
      else if dh <? dl then Some (norm hi)
      else if Z.even lo then Some (lo, d) else Some (norm hi)
  | false, false => None
  end.

Fixpoint shortest (x : number) (X : Z) (d : Z) (k : Z) (fuel : nat)
  : Z * Z :=
  match fuel with
  | O => (X / 10 ^ (d - 17), d)
  | S fuel' =>
      match candidate x X d k with
      | Some r => r
      | None => shortest x X d (k + 1) fuel'
      end
  end.

Definition exponential (x : number) (X : Z) : string :=
  let '(s, n) := shortest x X (decimalLength X) 1 17 in
  let ds := digits s in
  let mant :=
    match ds with
    | String c EmptyString => ds
    | String c rest => String c ("." ++ rest)
    | EmptyString => ds
    end in
  mant ++ "e+" ++ digits (n - 1).

(** The integer part of [m * 2^e]. *)
Definition integerPart (m : positive) (e : Z) : Z :=
  if 0 <=? e then Z.pos m * 2 ^ e else Z.pos m / 2 ^ (- e).

(** [x.toFixed(f)] for [0 <= f <= 100]. *)
Definition toFixed (x : number) (f : nat) : string :=
  match x with
  | S754_nan => "NaN"
  | S754_infinity false => "Infinity"
  | S754_infinity true => "-Infinity"
  | S754_zero _ => pointed 0 f
  | S754_finite s m e =>
      (if s then "-" else EmptyString) ++
      (if atLeast1e21 m e
       then exponential (S754_finite false m e) (integerPart m e)
       else pointed (roundScaled m e f) f)
  end.

(** *** Number::toString on integers *)

(** The exact value of [m * 2^e] when it is an integer. *)
Definition integerValue (m : positive) (e : Z) : option Z :=
  if 0 <=? e then Some (Z.pos m * 2 ^ e)
  else if Z.pos m mod 2 ^ (- e) =? 0 then Some (Z.pos m / 2 ^ (- e))
  else None.

(** Number::toString of an integer [2^53 <= X < 10^21]: the shortest digit
    string that converts back to [x], followed by zeros up to the length of
    [X]. *)
Definition padded (x : number) (X : Z) : string :=
  let '(s, n) := shortest x X (decimalLength X) 1 17 in
  let ds := digits s in
  ds ++ zeros (Z.to_nat n - length ds).

(** The string of a number inside a template literal; [None] for a finite
    number with a fractional part, whose shortest digit string is not
    modelled.  Below 2^53 every integer is a number of its own, and the
    shortest digit string that converts back is that of the integer. *)
Definition numberToString (x : number) : option string :=
  match x with
  | S754_nan => Some "NaN"
  | S754_infinity false => Some "Infinity"
  | S754_infinity true => Some "-Infinity"
  | S754_zero _ => Some "0"
  | S754_finite s m e =>
      match integerValue m e with
      | Some X =>
          Some ((if s then "-" else EmptyString) ++
                (if atLeast1e21 m e
                 then exponential (S754_finite false m e) X
                 else if X <? 2 ^ 53 then digits X
                 else padded (S754_finite false m e) X))
      | None => None
      end
  end.

End Num.

Import Num.

(** ** JavaScript values *)

(** The values [JSON.parse] can produce, plus [undefined].  An object is
    the list of its properties; a property is read at its first binding. *)
#[warnings="-register-all"]
Inductive value : Type :=
| VUndefined
| VNull
| VBool (b : bool)
| VNum (x : number)
| VStr (s : string)
| VArr (items : list value)
| VObj (fields : list (string * value)).

(** The result of evaluating an expression: a value, a raised [TypeError],
    or [Unmodelled] when the evaluation needs a coercion this development
    does not define (text to number, object to primitive, reference
    identity of two objects).  No theorem below relies on [Unmodelled]. *)
Inductive outcome (A : Type) : Type :=
| Ok (a : A)
| TypeError
| Unmodelled.

Arguments Ok {A} a.
Arguments TypeError {A}.
Arguments Unmodelled {A}.

Definition bind {A B : Type} (m : outcome A) (k : A -> outcome B)
  : outcome B :=
  match m with
  | Ok a => k a
  | TypeError => TypeError
  | Unmodelled => Unmodelled
  end.

Notation "x <- m ;; k" := (bind m (fun x => k))
  (at level 61, m at next level, right associativity).

Module JS.

Fixpoint lookup (k : string) (fs : list (string * value)) : option value :=
  match fs with
  | [] => None
  | (k', v) :: rest => if String.eqb k k' then Some v else lookup k rest
  end.

Definition field (k : string) (fs : list (string * value)) : value :=
  match lookup k fs with
  | Some v => v
  | None => VUndefined
  end.

(** The number of UTF-16 code units of a UTF-8 byte string. *)
Definition utf16Units (c : ascii) : nat :=
  let n := nat_of_ascii c in
  if Nat.ltb n 128 then 1%nat
  else if Nat.ltb n 192 then 0%nat
  else if Nat.ltb n 240 then 1%nat
  else 2%nat.

Fixpoint utf16Length (s : string) : nat :=
  match s with
  | EmptyString => 0%nat
  | String c rest => (utf16Units c + utf16Length rest)%nat
  end.

(** ToBoolean. *)
Definition truthy (v : value) : bool :=
  match v with
  | VUndefined | VNull => false
  | VBool b => b
  | VNum x => negb (isZero x || isNaN x)
  | VStr s => negb (String.eqb s EmptyString)
  | VArr _ | VObj _ => true
  end.

(** [v.k] for a property name [k] that no prototype defines. *)
Definition member (v : value) (k : string) : outcome value :=
  match v with
  | VUndefined | VNull => TypeError
  | VObj fs => Ok (field k fs)
  | VArr l =>
      Ok (if String.eqb k "length" then VNum (ofNat (List.length l))
          else VUndefined)
  | VStr s =>
      Ok (if String.eqb k "length" then VNum (ofNat (utf16Length s))
          else VUndefined)
  | VBool _ | VNum _ => Ok VUndefined
  end.

(** [v?.k]. *)
Definition optMember (v : value) (k : string) : outcome value :=
  match v with
  | VUndefined | VNull => Ok VUndefined
  | _ => member v k
  end.

(** [v[0]]. *)
Definition first (v : value) : outcome value :=
  match v with
  | VUndefined | VNull => TypeError
  | VArr l => Ok (nth 0 l VUndefined)
  | VObj fs => Ok (field "0" fs)
  | VStr s =>
      if String.eqb s EmptyString then Ok VUndefined else Unmodelled
  | VBool _ | VNum _ => Ok VUndefined
  end.

(** ToNumber on the primitives other than strings. *)
Definition toNumber (v : value) : outcome number :=
  match v with
  | VUndefined => Ok S754_nan
  | VNull => Ok zero
  | VBool b => Ok (if b then ofZ 1 else zero)
  | VNum x => Ok x
  | VStr _ | VArr _ | VObj _ => Unmodelled
  end.

Definition arith (op : number -> number -> number) (a b : value)
  : outcome number :=
  x <- toNumber a ;; y <- toNumber b ;; Ok (op x y).

(** [a + b], [a - b], [a / b], [a * b], [a > b], [a < b]. *)
Definition plus := arith add.
Definition minus := arith sub.
Definition over := arith div.
Definition times := arith mul.

Definition gt (a b : value) : outcome bool :=
  x <- toNumber a ;; y <- toNumber b ;; Ok (gtb x y).
Definition lt (a b : value) : outcome bool :=
  x <- toNumber a ;; y <- toNumber b ;; Ok (ltb x y).

(** [a === b]. *)
Definition strictEq (a b : value) : outcome bool :=
  match a, b with
  | VUndefined, VUndefined => Ok true
  | VNull, VNull => Ok true
  | VBool x, VBool y => Ok (Bool.eqb x y)
  | VNum x, VNum y => Ok (Num.eqb x y)
  | VStr x, VStr y => Ok (String.eqb x y)
  | VArr _, VArr _ | VArr _, VObj _ | VObj _, VArr _ | VObj _, VObj _ =>
      Unmodelled
  | _, _ => Ok false
  end.

(** [a || b], with [b] evaluated only when [a] is falsy. *)
Definition orElse (a : value) (b : outcome value) : outcome value :=
  if truthy a then Ok a else b.

(** The string a template literal inserts for [v]. *)
Definition toString (v : value) : outcome string :=
  match v with
  | VUndefined => Ok "undefined"
  | VNull => Ok "null"
  | VBool b => Ok (if b then "true" else "false")
  | VStr s => Ok s
  | VNum x =>
      match numberToString x with
      | Some s => Ok s
      | None => Unmodelled
      end
  | VArr _ | VObj _ => Unmodelled
  end.

Definition isArray (v : value) : bool :=
  match v with VArr _ => true | _ => false end.

(** *** Array methods; a receiver that is not an array has no such
    method, and calling it raises. *)

Fixpoint foldM {A : Type} (f : A -> value -> outcome A) (l : list value)
  (acc : A) : outcome A :=
  match l with
  | [] => Ok acc
  | x :: rest => acc' <- f acc x ;; foldM f rest acc'
  end.

(** [v.reduce(f, init)]. *)
Definition reduce {A : Type} (f : A -> value -> outcome A) (init : A)
  (v : value) : outcome A :=
  match v with
  | VArr l => foldM f l init
  | _ => TypeError
  end.

Fixpoint filterM (p : value -> outcome value) (l : list value)
  : outcome (list value) :=
  match l with
  | [] => Ok []
  | x :: rest =>
      b <- p x ;;
      kept <- filterM p rest ;;
      Ok (if truthy b then x :: kept else kept)
  end.

(** [v.forEach(f)] for a callback that updates one captured variable,
    whose value is threaded through the calls. *)
Definition forEach {A : Type} (f : A -> value -> outcome A) (init : A)
  (v : value) : outcome A :=
  match v with
  | VArr l => foldM f l init
  | _ => TypeError
  end.

(** [v.filter(p)]. *)
Definition filter (p : value -> outcome value) (v : value)
  : outcome (list value) :=
  match v with
  | VArr l => filterM p l
  | _ => TypeError
  end.

Fixpoint someM (p : value -> outcome value) (l : list value)
  : outcome bool :=
  match l with
  | [] => Ok false
  | x :: rest =>
      b <- p x ;;
      if truthy b then Ok true else someM p rest
  end.

(** [v?.some(p)]: [undefined] when [v] is nullish. *)
Definition optSome (p : value -> outcome value) (v : value)
  : outcome value :=
  match v with
  | VUndefined | VNull => Ok VUndefined
  | VArr l => b <- someM p l ;; Ok (VBool b)
  | _ => TypeError
  end.

(** [v.startsWith(prefix)]. *)
Definition startsWith (prefix : string) (v : value) : outcome value :=
  match v with
  | VStr s => Ok (VBool (String.prefix prefix s))
  | _ => TypeError
  end.

(** [s.includes(t)] on strings. *)
Fixpoint includes (t s : string) : bool :=
  String.prefix t s ||
  match s with
  | EmptyString => false
  | String _ rest => includes t rest
  end.

End JS.

Import JS.

(** ** The comparison engine ([src/lib/compare.js]) *)

Record VertexAnalysis := {
  v_before : value;
  v_after : value;
  v_diff : number;
  v_percent : string
}.

Record UVAnalysis := {
  uv_before : number;
  uv_after : number;
  uv_totalMeshes : value;
  uv_change : string
}.

Record GeometryAnalysis := {
  g_before : value;
  g_after : value;
  g_beforeMB : string;
  g_afterMB : string;
  g_diff : number;
  g_diffMB : string;
  g_percent : string
}.

Record MaterialAnalysis := {
  m_before : value;
  m_after : value;
  m_diff : number;
  m_reason : string
}.

Record AnimationAnalysis := {
  a_before : value;
  a_after : value;
  a_preserved : bool
}.

Record TextureAnalysis := {
  t_before : number;
  t_after : number;
  t_hasTextures : bool;
  t_ktx2Status : string
}.

Record Analysis := {
  vertices : VertexAnalysis;
  uv : UVAnalysis;
  geometry : GeometryAnalysis;
  materials : MaterialAnalysis;
  animations : AnimationAnalysis;
  textures : TextureAnalysis;
  highlights : list string
}.

(** *** Helper functions *)

(** [inspect.section?.properties]. *)
Definition properties (section : string) (inspect : value) : outcome value :=
  s <- member inspect section ;; optMember s "properties".

(** [inspect.section?.properties?.length || 0]. *)
Definition propertiesLength (section : string) (inspect : value)
  : outcome value :=
  p <- properties section inspect ;;
  n <- optMember p "length" ;;
  orElse n (Ok (VNum zero)).

(** [(sum, mesh) => sum + (mesh.key || 0)]. *)
Definition addField (key : string) (sum mesh : value) : outcome value :=
  v <- member mesh key ;;
  w <- orElse v (Ok (VNum zero)) ;;
  r <- plus sum w ;;
  Ok (VNum r).

Definition getTotalVertices (inspect : value) : outcome value :=
  p <- properties "meshes" inspect ;;
  if negb (truthy p) then Ok (VNum zero)
  else reduce (addField "vertices") (VNum zero) p.

(** [mesh => mesh.attributes?.some(attr => attr.startsWith('TEXCOORD'))]. *)
Definition hasUV (mesh : value) : outcome value :=
  a <- member mesh "attributes" ;;
  optSome (startsWith "TEXCOORD") a.

Definition countMeshesWithUV (inspect : value) : outcome number :=
  p <- properties "meshes" inspect ;;
  if negb (truthy p) then Ok zero
  else
    kept <- filter hasUV p ;;
    Ok (ofNat (List.length kept)).

Definition getMeshCount (inspect : value) : outcome value :=
  propertiesLength "meshes" inspect.

Definition getTotalGeometrySize (inspect : value) : outcome value :=
  p <- properties "meshes" inspect ;;
  if negb (truthy p) then Ok (VNum zero)
  else reduce (addField "size") (VNum zero) p.

Definition getMaterialCount (inspect : value) : outcome value :=
  propertiesLength "materials" inspect.

(** [v.length] for a value known to be an array. *)
Definition arrayLength (v : value) : number :=
  match v with
  | VArr l => ofNat (List.length l)
  | _ => zero
  end.

(** The body of the [forEach] callback of [countTextures], as a function of
    the running [count]. *)
Definition addTextures (count : number) (material : value) : outcome number :=
  t <- member material "textures" ;;
  if truthy t && isArray t
  then Ok (add count (arrayLength t))
  else Ok count.

Definition countTextures (inspect : value) : outcome number :=
  tp <- properties "textures" inspect ;;
  if truthy tp && isArray tp
  then Ok (arrayLength tp)
  else
    mp <- properties "materials" inspect ;;
    if truthy mp then forEach addTextures zero mp
    else Ok zero.

Definition getUploadVertexCount (inspect : value) : outcome value :=
  p <- properties "scenes" inspect ;;
  nonEmpty <- (if truthy p
               then n <- member p "length" ;; gt n (VNum zero)
               else Ok false) ;;
  if (nonEmpty : bool)
  then
    scene <- first p ;;
    u <- member scene "uploadVertexCount" ;;
    orElse u (Ok (VNum zero))
  else Ok (VNum zero).

(** *** The analyzers *)

(** [before > 0 ? ((diff / before) * 100).toFixed(1) : '0.0']. *)
Definition percentOf (diff : number) (before : value) : outcome string :=
  positive <- gt before (VNum zero) ;;
  if (positive : bool)
  then
    r <- over (VNum diff) before ;;
    Ok (toFixed (mul r hundred) 1)
  else Ok "0.0".

Definition analyzeVertices (before after : value) : outcome VertexAnalysis :=
  ub <- getUploadVertexCount before ;;
  beforeVertices <- orElse ub (getTotalVertices before) ;;
  ua <- getUploadVertexCount after ;;
  afterVertices <- orElse ua (getTotalVertices after) ;;
  diff <- minus afterVertices beforeVertices ;;
  percent <- percentOf diff beforeVertices ;;
  Ok {| v_before := beforeVertices;
        v_after := afterVertices;
        v_diff := diff;
        v_percent := percent ++ "%" |}.

Definition analyzeUV (before after : value) : outcome UVAnalysis :=
  beforeUVCount <- countMeshesWithUV before ;;
  afterUVCount <- countMeshesWithUV after ;;
  totalMeshes <- getMeshCount before ;;
  let change :=
    if gtb beforeUVCount zero && Num.eqb afterUVCount zero
    then "100% 删除"
    else if gtb beforeUVCount zero && ltb afterUVCount beforeUVCount
    then
      let deleted := sub beforeUVCount afterUVCount in
      toFixed (mul (div deleted beforeUVCount) hundred) 1 ++ "% 删除"
    else if gtb afterUVCount beforeUVCount
    then
      toFixed (mul (div (sub afterUVCount beforeUVCount) beforeUVCount)
                 hundred) 1 ++ "% 增加"
    else "0%" in
  Ok {| uv_before := beforeUVCount;
        uv_after := afterUVCount;
        uv_totalMeshes := totalMeshes;
        uv_change := change |}.

(** [(x / 1024 / 1024).toFixed(2)]. *)
Definition megabytes (x : value) : outcome string :=
  k <- over x (VNum n1024) ;;
  Ok (toFixed (div k n1024) 2).

Definition analyzeGeometry (before after : value) : outcome GeometryAnalysis :=
  beforeSize <- getTotalGeometrySize before ;;
  afterSize <- getTotalGeometrySize after ;;
  diff <- minus afterSize beforeSize ;;
  percent <- percentOf diff beforeSize ;;
  beforeMB <- megabytes beforeSize ;;
  afterMB <- megabytes afterSize ;;
  diffMB <- megabytes (VNum diff) ;;
  Ok {| g_before := beforeSize;
        g_after := afterSize;
        g_beforeMB := beforeMB;
        g_afterMB := afterMB;
        g_diff := diff;
        g_diffMB := diffMB;
        g_percent := percent ++ "%" |}.

Definition analyzeMaterials (before after : value) : outcome MaterialAnalysis :=
  beforeCount <- getMaterialCount before ;;
  afterCount <- getMaterialCount after ;;
  diff <- minus afterCount beforeCount ;;
  let reason :=
    if ltb diff zero then "（dedup）"
    else if gtb diff zero then "（增加）"
    else EmptyString in
  Ok {| m_before := beforeCount;
        m_after := afterCount;
        m_diff := diff;
        m_reason := reason |}.

Definition analyzeAnimations (before after : value)
  : outcome AnimationAnalysis :=
  beforeAnimations <- propertiesLength "animations" before ;;
  afterAnimations <- propertiesLength "animations" after ;;
  same <- strictEq beforeAnimations afterAnimations ;;
  preserved <- (if (same : bool) then gt beforeAnimations (VNum zero)
                else Ok false) ;;
  Ok {| a_before := beforeAnimations;
        a_after := afterAnimations;
        a_preserved := preserved |}.

Definition analyzeTextures (before after options : value)
  : outcome TextureAnalysis :=
  beforeTextures <- countTextures before ;;
  afterTextures <- countTextures after ;;
  let hasTextures := gtb beforeTextures zero || gtb afterTextures zero in
  ktx2 <- member options "ktx2" ;;
  let ktx2Status :=
    if truthy ktx2
    then (if hasTextures then "已应用" else "不适用（无贴图模型）")
    else (if hasTextures then "未启用" else "不适用（无贴图模型）") in
  Ok {| t_before := beforeTextures;
        t_after := afterTextures;
        t_hasTextures := hasTextures;
        t_ktx2Status := ktx2Status |}.

Definition msgUV : string := "体积下降主要来自 prune 删除无用 UV".
Definition msgDraco : string := "Draco 几何压缩已应用".
Definition msgKTX2 : string := "KTX2 贴图压缩已应用".

(** [`材质通过 dedup 从 ${before} 减少到 ${after}`]. *)
Definition msgDedup (before after : string) : string :=
  "材质通过 dedup 从 " ++ before ++ " 减少到 " ++ after.

(** [highlights.push(s)]. *)
Definition push (highlights : list string) (s : string) : list string :=
  (highlights ++ [s])%list.

(** [generateHighlights(analysis, options)]; of [analysis] it reads the
    [uv], [materials] and [textures] records. *)
Definition generateHighlights (uvA : UVAnalysis) (matA : MaterialAnalysis)
  (texA : TextureAnalysis) (options : value) : outcome (list string) :=
  let highlights : list string := [] in
  let highlights :=
    if includes "删除" (uv_change uvA)
    then push highlights msgUV else highlights in
  highlights <-
    (if ltb (m_diff matA) zero
     then
       b <- JS.toString (m_before matA) ;;
       a <- JS.toString (m_after matA) ;;
       Ok (push highlights (msgDedup b a))
     else Ok highlights) ;;
  draco <- member options "draco" ;;
  let highlights :=
    if truthy draco then push highlights msgDraco else highlights in
  ktx2 <- member options "ktx2" ;;
  let highlights :=
    if truthy ktx2 && t_hasTextures texA
    then push highlights msgKTX2 else highlights in
  Ok highlights.

(** [analyzeComparison(beforeInspect, afterInspect, options = {})]: the
    default applies when [options] is [undefined]. *)
Definition analyzeComparison (beforeInspect afterInspect options : value)
  : outcome Analysis :=
  let options :=
    match options with VUndefined => VObj [] | _ => options end in
  vs <- analyzeVertices beforeInspect afterInspect ;;
  us <- analyzeUV beforeInspect afterInspect ;;
  gs <- analyzeGeometry beforeInspect afterInspect ;;
  ms <- analyzeMaterials beforeInspect afterInspect ;;
  ans <- analyzeAnimations beforeInspect afterInspect ;;
  ts <- analyzeTextures beforeInspect afterInspect options ;;
  hs <- generateHighlights us ms ts options ;;
  Ok {| vertices := vs;
        uv := us;
        geometry := gs;
        materials := ms;
        animations := ans;
        textures := ts;
        highlights := hs |}.


(** *** The report printer *)

(** [chalk.green(text)] and the like wrap [text] in terminal escape codes
    when colours are enabled and return it unchanged when they are not; the
    model keeps the text. *)
Definition chalk (style : string) (text : string) : string := text.

(** The animation block of [printComparisonReport]: the line it logs. *)
Definition printAnimations (a : AnimationAnalysis) : outcome string :=
  some <- gt (a_before a) (VNum zero) ;;
  if (some : bool)
  then
    animStatus <-
      (if a_preserved a then Ok (chalk "green" "完整保留")
       else
         n <- JS.toString (a_after a) ;;
         d <- JS.toString (a_before a) ;;
         Ok (chalk "yellow" ("部分保留（" ++ n ++ "/" ++ d ++ "）"))) ;;
    Ok ("动画" ++ animStatus)
  else Ok ("动画：" ++ chalk "gray" "无动画数据").

(** [printComparisonReport(analysis)]: the lines it logs, one entry for
    each call of [console.log], when every interpolated value has a
    modelled string.  [paint style text] stands for [chalk.style(text)]
    and [parseFloat] for the global function of that name, of which
    [Parse.parseFloat] below is the definition. *)
Section Printer.

Variable paint : string -> string -> string.
Variable parseFloat : string -> number.

(** A line feed. *)
Definition nl : string := String (ascii_of_nat 10) EmptyString.

(** [Math.abs(x)]. *)
Definition abs (x : number) : number := SFabs x.

(** The literal [0.1]. *)
Definition tenth : number := div (ofZ 1) (ofZ 10).

Definition vertexChange (v : VertexAnalysis) : string :=
  let vertexPercent := parseFloat (v_percent v) in
  if ltb (abs vertexPercent) tenth
  then paint "gray" "0% 变化"
  else if gtb (v_diff v) zero
  then paint "yellow" (v_percent v ++ " 增加")
  else paint "green" (v_percent v ++ " 减少").

Definition uvChangeText (u : UVAnalysis) : string :=
  if includes "删除" (uv_change u)
  then paint "green" (uv_change u)
  else if includes "增加" (uv_change u)
  then paint "yellow" (uv_change u)
  else paint "gray" (uv_change u).

Definition geometryChange (g : GeometryAnalysis) : string :=
  if String.prefix "-" (g_percent g)
  then paint "green" (g_percent g)
  else if String.prefix "+" (g_percent g)
  then paint "yellow" (g_percent g)
  else paint "gray" (g_percent g).

Definition materialText (m : MaterialAnalysis) : outcome string :=
  if Num.eqb (m_diff m) zero
  then
    b <- JS.toString (m_before m) ;;
    a <- JS.toString (m_after m) ;;
    Ok (b ++ " → " ++ a ++ "（无变化）")
  else
    b <- JS.toString (m_before m) ;;
    a <- JS.toString (m_after m) ;;
    Ok (b ++ " → " ++ a ++ paint "cyan" (m_reason m)).

Definition animationLine (a : AnimationAnalysis) : outcome string :=
  some <- gt (a_before a) (VNum zero) ;;
  if (some : bool)
  then
    animStatus <-
      (if a_preserved a then Ok (paint "green" "完整保留")
       else
         n <- JS.toString (a_after a) ;;
         d <- JS.toString (a_before a) ;;
         Ok (paint "yellow" ("部分保留（" ++ n ++ "/" ++ d ++ "）"))) ;;
    Ok ("动画" ++ animStatus)
  else Ok ("动画：" ++ paint "gray" "无动画数据").

Definition textureLine (t : TextureAnalysis) : string :=
  if negb (t_hasTextures t)
  then paint "gray" "无贴图模型，KTX2 不适用"
  else
    let textureStatus :=
      if includes "已应用" (t_ktx2Status t)
      then paint "green" (t_ktx2Status t)
      else paint "yellow" (t_ktx2Status t) in
    "KTX2 贴图压缩：" ++ textureStatus.

Definition highlightLines (hs : list string) : list string :=
  match hs with
  | [] => []
  | _ :: _ =>
      paint "cyan" (nl ++ "👉 优化重点：") ::
      map (fun highlight => paint "white" ("   • " ++ highlight)) hs
  end.

Definition printComparisonReport (analysis : Analysis)
  : outcome (list string) :=
  let title := paint "cyan" (nl ++ "📊 本次 FBX → GLB 优化中：" ++ nl) in
  let vertexLine := "顶点数：" ++ vertexChange (vertices analysis) in
  let uvLine := "UV 属性：" ++ uvChangeText (uv analysis) in
  let geometryLine := "几何体体积：" ++ geometryChange (geometry analysis) in
  material <- materialText (materials analysis) ;;
  animation <- animationLine (animations analysis) ;;
  let materialLine := "材质数量：" ++ material in
  Ok (List.app
        [title; vertexLine; uvLine; geometryLine; materialLine; animation;
         textureLine (textures analysis)]
        (List.app (highlightLines (highlights analysis)) [EmptyString])).

End Printer.

(** *** The persisted comparison record *)

(** [typeof v === 'number'] and [typeof v === 'object']. *)
Definition typeofNumber (v : value) : bool :=
  match v with
  | VNum _ => true
  | _ => false
  end.

Definition typeofObject (v : value) : bool :=
  match v with
  | VNull | VArr _ | VObj _ => true
  | _ => false
  end.

(** [object[k] = v] on the properties of an object: an existing property
    keeps its place, a new one comes last. *)
Fixpoint assign (k : string) (v : value) (fs : list (string * value))
  : list (string * value) :=
  match fs with
  | [] => [(k, v)]
  | (k', v') :: rest =>
      if String.eqb k k' then (k', v) :: rest
      else (k', v') :: assign k v rest
  end.

(** The object [comparison] while it is built. *)
Record Comparison := {
  c_summary : list (string * value);
  c_details : list (string * value)
}.

(** [before > 0 ? ((diff / before) * 100).toFixed(2) : 0], inserted in
    [`${percent}%`]. *)
Definition percentChange (diff : number) (before : value) : outcome string :=
  positive <- gt before (VNum zero) ;;
  percent <-
    (if (positive : bool)
     then r <- over (VNum diff) before ;; Ok (VStr (toFixed (mul r hundred) 2))
     else Ok (VNum zero)) ;;
  text <- JS.toString percent ;;
  Ok (text ++ "%").

(** The callback of [keys.forEach], as a function of the object built so
    far. *)
Definition compareKey (before after : value) (comparison : Comparison)
  (key : string) : outcome Comparison :=
  b <- member before key ;;
  both <- (if truthy b then a <- member after key ;; Ok (truthy a)
           else Ok false) ;;
  if (both : bool)
  then
    beforeVal <- member before key ;;
    afterVal <- member after key ;;
    if typeofNumber beforeVal && typeofNumber afterVal
    then
      diff <- minus afterVal beforeVal ;;
      text <- percentChange diff beforeVal ;;
      Ok {| c_summary :=
              assign key
                (VObj [("before", beforeVal); ("after", afterVal);
                       ("difference", VNum diff);
                       ("percentChange", VStr text)])
                (c_summary comparison);
            c_details := c_details comparison |}
    else if typeofObject beforeVal && typeofObject afterVal
    then
      Ok {| c_summary := c_summary comparison;
            c_details :=
              assign key (VObj [("before", beforeVal); ("after", afterVal)])
                (c_details comparison) |}
    else Ok comparison
  else Ok comparison.

Fixpoint forEachKey (f : Comparison -> string -> outcome Comparison)
  (keys : list string) (comparison : Comparison) : outcome Comparison :=
  match keys with
  | [] => Ok comparison
  | key :: rest => c <- f comparison key ;; forEachKey f rest c
  end.

Definition keys : list string := ["meshes"; "geometry"; "buffers"; "materials"].

(** [v.byteLength || 0]. *)
Definition byteLength (v : value) : outcome value :=
  l <- member v "byteLength" ;; orElse l (Ok (VNum zero)).

(** The block that adds [summary.bufferSize]. *)
Definition compareBuffers (before after : value) (comparison : Comparison)
  : outcome Comparison :=
  bb <- member before "buffers" ;;
  both <-
    (if truthy bb
     then
       ab <- member after "buffers" ;;
       Ok (truthy ab && typeofObject bb && typeofObject ab)
     else Ok false) ;;
  if (both : bool)
  then
    bb <- member before "buffers" ;;
    beforeSize <- byteLength bb ;;
    ab <- member after "buffers" ;;
    afterSize <- byteLength ab ;;
    sizeDiff <- minus afterSize beforeSize ;;
    text <- percentChange sizeDiff beforeSize ;;
    beforeMB <- megabytes beforeSize ;;
    afterMB <- megabytes afterSize ;;
    diffMB <- megabytes (VNum sizeDiff) ;;
    Ok {| c_summary :=
            assign "bufferSize"
              (VObj [("before", VStr (beforeMB ++ " MB"));
                     ("after", VStr (afterMB ++ " MB"));
                     ("difference", VStr (diffMB ++ " MB"));
                     ("percentChange", VStr text)])
              (c_summary comparison);
          c_details := c_details comparison |}
  else Ok comparison.

Definition generateComparison (before after : value) : outcome value :=
  let comparison := {| c_summary := []; c_details := [] |} in
  comparison <- forEachKey (compareKey before after) keys comparison ;;
  comparison <- compareBuffers before after comparison ;;
  Ok (VObj [("summary", VObj (c_summary comparison));
            ("details", VObj (c_details comparison))]).

(** ** Inspection reports as the specification describes them *)

Module Shape.

(** [inspect.section.properties], [undefined] when a link is missing. *)
Definition propsOf (section : string) (inspect : value) : value :=
  match inspect with
  | VObj fs =>
      match field section fs with
      | VObj ss => field "properties" ss
      | _ => VUndefined
      end
  | _ => VUndefined
  end.

Definition items (v : value) : list value :=
  match v with
  | VArr l => l
  | _ => []
  end.

Definition fieldOf (k : string) (v : value) : value :=
  match v with
  | VObj fs => field k fs
  | _ => VUndefined
  end.

(** The number a count field holds, zero when it is absent. *)
Definition countOf (v : value) : number :=
  match v with
  | VNum x => if isZero x || isNaN x then zero else x
  | _ => zero
  end.

Definition nullish (v : value) : bool :=
  match v with
  | VUndefined | VNull => true
  | _ => false
  end.

(** JSON numbers are finite binary64 values. *)
Definition isNumber (v : value) : bool :=
  match v with
  | VNum x => isFinite x && valid_binary prec emax x
  | _ => false
  end.

Definition isString (v : value) : bool :=
  match v with
  | VStr _ => true
  | _ => false
  end.

Definition isObject (v : value) : bool :=
  match v with
  | VObj _ => true
  | _ => false
  end.

(** An array holds fewer than 2^32 elements. *)
Definition arrayOf (elem : value -> bool) (v : value) : bool :=
  match v with
  | VArr l => forallb elem l && (Z.of_nat (List.length l) <? 2 ^ 32)
  | _ => false
  end.

(** A count is a number, or is absent (or another falsy value). *)
Definition count (v : value) : bool :=
  match v with
  | VNum _ => isNumber v
  | _ => negb (truthy v)
  end.

(** A list is absent (or falsy) or an array. *)
Definition listOf (elem : value -> bool) (v : value) : bool :=
  negb (truthy v) || arrayOf elem v.

Definition wfMesh (m : value) : bool :=
  match m with
  | VObj fs =>
      count (field "vertices" fs) && count (field "size" fs) &&
      (nullish (field "attributes" fs) ||
       arrayOf isString (field "attributes" fs))
  | _ => false
  end.

Definition wfMaterial (m : value) : bool :=
  match m with
  | VObj fs =>
      negb (isArray (field "textures" fs)) ||
      arrayOf (fun _ => true) (field "textures" fs)
  | _ => false
  end.

Definition wfScene (s : value) : bool :=
  match s with
  | VObj fs => count (field "uploadVertexCount" fs)
  | _ => false
  end.

(** Only the first scene is read. *)
Definition wfScenes (v : value) : bool :=
  negb (truthy v) ||
  match v with
  | VArr [] => true
  | VArr (s :: rest) =>
      wfScene s && (Z.of_nat (List.length (s :: rest)) <? 2 ^ 32)
  | _ => false
  end.

Definition wfTextures (v : value) : bool :=
  negb (isArray v) || arrayOf (fun _ => true) v.

(** An inspection report: an object whose sections [meshes], [materials],
    [animations], [scenes] and [textures] may each be missing. *)
Definition wfInspect (i : value) : bool :=
  isObject i &&
  listOf wfMesh (propsOf "meshes" i) &&
  listOf wfMaterial (propsOf "materials" i) &&
  listOf (fun _ => true) (propsOf "animations" i) &&
  wfScenes (propsOf "scenes" i) &&
  wfTextures (propsOf "textures" i).

(** *** The reports the analysis accepts

    The conditions under which no extractor raises; they are weaker than
    those of an inspection report. *)

(** A number, or a falsy value such as a missing field. *)
Definition numberOrFalsy (v : value) : bool :=
  typeofNumber v || negb (truthy v).

Definition stringsOf (v : value) : bool :=
  match v with
  | VArr l => forallb isString l
  | _ => false
  end.

(** A mesh record: [vertices] and [size] are numbers or falsy,
    [attributes] is nullish or an array of strings. *)
Definition okMesh (m : value) : bool :=
  match m with
  | VObj fs =>
      numberOrFalsy (field "vertices" fs) &&
      numberOrFalsy (field "size" fs) &&
      (nullish (field "attributes" fs) || stringsOf (field "attributes" fs))
  | _ => false
  end.

(** [meshes.properties]: falsy, or an array of mesh records. *)
Definition okMeshes (p : value) : bool :=
  negb (truthy p) ||
  match p with
  | VArr l => forallb okMesh l
  | _ => false
  end.

(** [materials.properties]: falsy, or an array of records. *)
Definition okMaterials (p : value) : bool := listOf isObject p.

(** [scenes.properties]: falsy, or an array that is empty or whose first
    element is a record with [uploadVertexCount] a number or falsy. *)
Definition okScenes (p : value) : bool :=
  negb (truthy p) ||
  match p with
  | VArr [] => true
  | VArr (VObj fs :: _) => numberOrFalsy (field "uploadVertexCount" fs)
  | _ => false
  end.

(** [animations.properties]: any value; a record found there has a
    [length] field that is a number or falsy. *)
Definition okAnimations (p : value) : bool :=
  match p with
  | VObj fs => numberOrFalsy (field "length" fs)
  | _ => true
  end.

(** The reports on which the analysis returns; [textures.properties] may
    be any value. *)
Definition accepted (i : value) : bool :=
  isObject i &&
  okMeshes (propsOf "meshes" i) &&
  okMaterials (propsOf "materials" i) &&
  okScenes (propsOf "scenes" i) &&
  okAnimations (propsOf "animations" i).

(** The options [generateReport] passes: [{draco, ktx2}]. *)
Definition config (draco ktx2 : bool) : value :=
  VObj [("draco", VBool draco); ("ktx2", VBool ktx2)].

(** *** The metrics, in the specification's words *)

Definition meshes (i : value) : list value := items (propsOf "meshes" i).

(** The sum of a per-mesh count over the meshes. *)
Definition total (key : string) (ms : list value) : number :=
  fold_left (fun sum m => add sum (countOf (fieldOf key m))) ms zero.

(** The per-mesh counts, and the sum of a list of integers. *)
Definition counts (key : string) (ms : list value) : list number :=
  map (fun m => countOf (fieldOf key m)) ms.

Definition sumZ (zs : list Z) : Z := fold_right Z.add 0 zs.

(** [scenes.uploadVertexCount] when present. *)
Definition uploadVertexCount (i : value) : option number :=
  match propsOf "scenes" i with
  | VArr (s :: _) =>
      match fieldOf "uploadVertexCount" s with
      | VNum x => Some x
      | _ => None
      end
  | _ => None
  end.

(** The vertex metric: the aggregate when present and non-zero, the sum
    of the per-mesh vertex counts otherwise. *)
Definition vertexMetric (i : value) : number :=
  match uploadVertexCount i with
  | Some x => if isZero x then total "vertices" (meshes i) else x
  | None => total "vertices" (meshes i)
  end.

Definition geometrySize (i : value) : number :=
  total "size" (meshes i).

(** [before > 0 ? diff / before * 100 : 0], with one decimal and a [%]. *)
Definition percentText (diff before : number) : string :=
  (if gtb before zero then toFixed (mul (div diff before) hundred) 1
   else "0.0") ++ "%".

(** [(x / 1024 / 1024)] with two decimals. *)
Definition megabyteText (x : number) : string :=
  toFixed (div (div x n1024) n1024) 2.

(** A mesh possesses a texture-coordinate attribute. *)
Definition texcoord (a : value) : bool :=
  match a with
  | VStr s => String.prefix "TEXCOORD" s
  | _ => false
  end.

Definition meshHasUV (m : value) : bool :=
  existsb texcoord (items (fieldOf "attributes" m)).

Definition uvCount (i : value) : nat :=
  List.length (List.filter meshHasUV (meshes i)).

(** The change text of the UV metric as a function of the two counts. *)
Definition uvChange (b a : nat) : string :=
  if Nat.ltb 0 b && Nat.eqb a 0 then "100% 删除"
  else if Nat.ltb a b
  then toFixed (mul (div (ofNat (b - a)) (ofNat b)) hundred) 1 ++ "% 删除"
  else if Nat.ltb b a
  then toFixed (mul (div (ofNat (a - b)) (ofNat b)) hundred) 1 ++ "% 增加"
  else "0%".

(** The highlight list: four rules, in order, each adding at most one
    message. *)
Definition ruleUV (uvBefore uvAfter : nat) : list string :=
  if Nat.ltb uvAfter uvBefore then [msgUV] else [].

Definition ruleDedup (matBefore matAfter : nat) : list string :=
  if Nat.ltb matAfter matBefore
  then [msgDedup (digits (Z.of_nat matBefore)) (digits (Z.of_nat matAfter))]
  else [].

Definition ruleDraco (draco : bool) : list string :=
  if draco then [msgDraco] else [].

Definition ruleKTX2 (ktx2 hasTextures : bool) : list string :=
  if ktx2 && hasTextures then [msgKTX2] else [].

Definition materialCount (i : value) : nat :=
  List.length (items (propsOf "materials" i)).

Definition animationCount (i : value) : nat :=
  List.length (items (propsOf "animations" i)).

(** The texture count: the registry's length when the registry is
    available, else the sum of the per-material reference counts. *)
Definition textureLists (ms : list value) : list (list value) :=
  flat_map (fun m => match fieldOf "textures" m with
                     | VArr l => [l]
                     | _ => []
                     end) ms.

(** The number of texture references of the materials. *)
Definition textureRefs (ms : list value) : nat :=
  list_sum (map (@List.length value) (textureLists ms)).

Definition textureCount (i : value) : number :=
  match propsOf "textures" i with
  | VArr l => ofNat (List.length l)
  | _ =>
      fold_left (fun c l => add c (ofNat (List.length l)))
        (textureLists (items (propsOf "materials" i))) zero
  end.

(** The sign of a number; none for NaN. *)
Definition numSign (x : number) : option Z :=
  match x with
  | S754_nan => None
  | S754_zero _ => Some 0
  | S754_infinity s | S754_finite s _ _ => Some (if s then -1 else 1)
  end.

(** Character classes of the strings the engine builds. *)
Fixpoint allChars (P : ascii -> bool) (s : string) : bool :=
  match s with
  | EmptyString => true
  | String c rest => P c && allChars P rest
  end.

Definition isDigit (c : ascii) : bool :=
  let n := nat_of_ascii c in Nat.leb 48 n && Nat.leb n 57.

Definition isAscii (c : ascii) : bool := Nat.ltb (nat_of_ascii c) 128.

Definition headDigit (s : string) : bool :=
  match s with
  | EmptyString => false
  | String c _ => isDigit c
  end.

Definition nonzeroDigit (c : ascii) : bool :=
  let n := nat_of_ascii c in Nat.leb 49 n && Nat.leb n 57.

Fixpoint hasNonzeroDigit (s : string) : bool :=
  match s with
  | EmptyString => false
  | String c rest => nonzeroDigit c || hasNonzeroDigit rest
  end.

(** The sign of the number a percent string such as ["-12.5%"] denotes;
    none for ["NaN%"]. *)
Definition percentSign (p : string) : option Z :=
  if String.prefix "NaN" p then None
  else if String.prefix "-" p
  then Some (if String.prefix "-Infinity" p || hasNonzeroDigit p
             then -1 else 0)
  else Some (if String.prefix "Infinity" p || hasNonzeroDigit p
             then 1 else 0).

End Shape.

(** ** The clean-up of the transient file and the orchestrator *)

Module Pipeline.

(** The file system: the paths that exist, and those among them whose
    removal fails (a directory, a file in use, missing permissions). *)
Record FileSystem := {
  files : list string;
  locked : list string
}.

(** The state of the process: the file system, the console output, and the
    module-level variable [spinner] of the entry point ([None] while it is
    unassigned). *)
Record World := {
  fs : FileSystem;
  console : list string;
  spinner : option string
}.

(** A call returns a value or throws an [Error] with a message. *)
Inductive completion (A : Type) : Type :=
| Returned (a : A)
| Threw (message : string).

Arguments Returned {A} a.
Arguments Threw {A} message.

(** Effectful code: a state transformer that may throw; the effects made
    before a throw persist. *)
Definition M (A : Type) : Type := World -> completion A * World.

Definition ret {A : Type} (a : A) : M A := fun w => (Returned a, w).

Definition seq {A B : Type} (m : M A) (k : A -> M B) : M B :=
  fun w =>
    match m w with
    | (Returned a, w') => k a w'
    | (Threw e, w') => (Threw e, w')
    end.

(** [try { body } catch (e) { handler }]. *)
Definition tryCatch {A : Type} (body : M A) (handler : string -> M A)
  : M A :=
  fun w =>
    match body w with
    | (Returned a, w') => (Returned a, w')
    | (Threw e, w') => handler e w'
    end.

Notation "x <~ m ;; k" := (seq m (fun x => k))
  (at level 61, m at next level, right associativity).
Notation "m ;;; k" := (seq m (fun _ => k))
  (at level 61, right associativity).

Definition mem (p : string) (l : list string) : bool :=
  existsb (String.eqb p) l.

Definition remove (p : string) (l : list string) : list string :=
  List.filter (fun p' => negb (String.eqb p p')) l.

(** [fs.existsSync(path)] never throws. *)
Definition existsSync (path : string) : M bool :=
  fun w => (Returned (mem path (files (fs w))), w).

(** [fs.unlinkSync(path)] throws when the path is absent or cannot be
    removed. *)
Definition unlinkSync (path : string) : M unit :=
  fun w =>
    if negb (mem path (files (fs w))) then (Threw "ENOENT", w)
    else if mem path (locked (fs w)) then (Threw "EPERM", w)
    else
      (Returned tt,
       {| fs := {| files := remove path (files (fs w));
                   locked := locked (fs w) |};
          console := console w;
          spinner := spinner w |}).

(** [cleanupTempFile] of the utilities. *)
Definition cleanupTempFile (filePath : string) : M bool :=
  present <~ existsSync filePath ;;
  if (present : bool)
  then tryCatch (unlinkSync filePath ;;; ret true) (fun e => ret false)
  else ret false.

(** [spinner = s]. *)
Definition assignSpinner (s : string) : M unit :=
  fun w =>
    (Returned tt,
     {| fs := fs w; console := console w; spinner := Some s |}).

(** The command-line entry point.  The stages of the transform and report
    modules call the converter and the transform library; they are taken
    as arbitrary effectful operations that may throw.  The two console
    calls that open the [catch] block ([spinner.fail] and [showError]) are
    taken as operations that do not throw. *)
Section Main.

Variables Document NodeIO Inspect Options : Type.

Variable inputFBX outputGLB tempGLB beforeFile : string.
Variable options : Options.
Variable basename : string -> string.

Variable showBanner : M unit.
Variable showConfig : string -> string -> Options -> M unit.
Variable convertFBXToGLB : string -> string -> M unit.
Variable logFileInfo : string -> string -> M unit.
Variable initGLTFTransform : M NodeIO.
Variable readGLBDocument : NodeIO -> string -> M Document.
Variable oraStart : string -> M string.
Variable spinnerSucceed : string -> M unit.
Variable inspectDocument : Document -> M Inspect.
Variable saveInspectData : Inspect -> string -> M unit.
Variable optimizeScene : Document -> M unit.
Variable applyCompression : Document -> Options -> M unit.
Variable writeGLB : NodeIO -> Document -> string -> M unit.
Variable logInfo : string -> string -> M unit.
Variable generateReport :
  Document -> string -> Inspect -> Options -> M unit.
Variable showSummary : string -> string -> M unit.

Variable spinnerFail : string -> World -> World.
Variable showError : string -> World -> World.

Definition exitCode := Z.

(** The [try] block of [main], up to [process.exit(0)]. *)
Definition stages : M exitCode :=
  showBanner ;;;
  showConfig inputFBX outputGLB options ;;;
  convertFBXToGLB inputFBX tempGLB ;;;
  logFileInfo tempGLB "临时 GLB" ;;;
  io <~ initGLTFTransform ;;
  document <~ readGLBDocument io tempGLB ;;
  started <~ oraStart "正在分析优化前数据..." ;;
  assignSpinner started ;;;
  beforeInspect <~ inspectDocument document ;;
  saveInspectData beforeInspect beforeFile ;;;
  spinnerSucceed "优化前数据分析完成" ;;;
  logFileInfo beforeFile "优化前数据" ;;;
  optimizeScene document ;;;
  applyCompression document options ;;;
  writeGLB io document outputGLB ;;;
  logFileInfo outputGLB "输出 GLB" ;;;
  cleaned <~ cleanupTempFile tempGLB ;;
  (if (cleaned : bool)
   then logInfo "临时文件已清理" (basename tempGLB)
   else ret tt) ;;;
  generateReport document outputGLB beforeInspect options ;;;
  showSummary inputFBX outputGLB ;;;
  ret 0.

(** [if (spinner) spinner.fail('处理失败'); showError(err);]. *)
Definition reportFailure (err : string) (w : World) : World :=
  showError err
    match spinner w with
    | Some _ => spinnerFail "处理失败" w
    | None => w
    end.

(** The [catch] block of [main], up to [process.exit(1)]. *)
Definition recover (err : string) : M exitCode :=
  (fun w => (Returned tt, reportFailure err w)) ;;;
  cleanupTempFile tempGLB ;;;
  ret 1.

Definition main : M exitCode := tryCatch stages recover.

End Main.

End Pipeline.


(** ** Sample reports *)

Module Samples.

(** A per-mesh record as [inspect] writes it. *)
Definition mesh (vertexCount byteSize : Z) (attributes : list string)
  : value :=
  VObj [("name", VStr "mesh");
        ("mode", VStr "TRIANGLES");
        ("vertices", VNum (ofZ vertexCount));
        ("attributes", VArr (map VStr attributes));
        ("size", VNum (ofZ byteSize))].

Definition material (textureSlots : list string) : value :=
  VObj [("name", VStr "material");
        ("textures", VArr (map VStr textureSlots))].

Definition scene (uploadVertexCount : Z) : value :=
  VObj [("name", VStr "scene");
        ("uploadVertexCount", VNum (ofZ uploadVertexCount))].

Definition section (records : list value) : value :=
  VObj [("properties", VArr records)].

Definition report (scenes meshes materials textures animations : list value)
  : value :=
  VObj [("scenes", section scenes);
        ("meshes", section meshes);
        ("materials", section materials);
        ("textures", section textures);
        ("animations", section animations)].

(** One mesh without texture coordinates, and the same mesh with them. *)
Definition bare : value :=
  report [] [mesh 120 4096 ["POSITION"; "NORMAL"]] [] [] [].

Definition textured : value :=
  report [] [mesh 120 4096 ["POSITION"; "NORMAL"; "TEXCOORD_0"]] [] [] [].

(** Three meshes, all with texture coordinates, and the three meshes after
    pruning removed them. *)
Definition threeTextured : value :=
  report []
    [mesh 24 800 ["POSITION"; "TEXCOORD_0"];
     mesh 36 1200 ["POSITION"; "TEXCOORD_0"];
     mesh 48 1600 ["POSITION"; "TEXCOORD_0"; "TEXCOORD_1"]] [] [] [].

Definition threePruned : value :=
  report []
    [mesh 24 600 ["POSITION"]; mesh 36 900 ["POSITION"];
     mesh 48 1200 ["POSITION"]] [] [] [].

(** Ten thousand vertices, and one more. *)
Definition tenThousand : value :=
  report [] [mesh 10000 240000 ["POSITION"]] [] [] [].

Definition tenThousandOne : value :=
  report [] [mesh 10001 240024 ["POSITION"]] [] [] [].

(** A report with the aggregate vertex count (which differs from the sum
    1000 + 500 of its meshes) and one without the [scenes] section. *)
Definition withAggregate : value :=
  report [scene 1200]
    [mesh 1000 24000 ["POSITION"]; mesh 500 12000 ["POSITION"]]
    [material ["baseColorTexture"]; material []] [] [].

Definition withoutAggregate : value :=
  VObj [("meshes",
         section [mesh 900 21600 ["POSITION"]; mesh 500 12000 ["POSITION"]]);
        ("materials", section [material ["baseColorTexture"]])].

(** A report whose mesh records are keyed by name instead of listed. *)
Definition keyedMeshes : value :=
  VObj [("meshes",
         VObj [("properties",
                VObj [("body", mesh 100 2400 ["POSITION"])])])].

(** A report whose one mesh names its attribute as a text, not as a list
    of texts. *)
Definition textAttribute : value :=
  VObj [("meshes",
         section [VObj [("vertices", VNum (ofZ 3));
                        ("attributes", VStr "TEXCOORD_0")]])].

(** A report whose animations are keyed by name, whose texture registry is
    a number, and whose one mesh has no attributes and an unknown size. *)
Definition keyedAnimations : value :=
  VObj [("meshes",
         section [VObj [("vertices", VNum (ofZ 3)); ("size", VNull)]]);
        ("animations",
         VObj [("properties", VObj [("walk", VObj []); ("run", VObj [])])]);
        ("textures", VObj [("properties", VNum (ofZ 2))]);
        ("scenes", VStr "none")].

(** Four materials before deduplication, two after. *)
Definition fourMaterials : value :=
  report [] [mesh 1000 24000 ["POSITION"]]
    [material []; material []; material []; material []] [] [].

Definition twoMaterials : value :=
  report [] [mesh 1000 24000 ["POSITION"]] [material []; material []] [] [].

(** Two animation tracks before, one after. *)
Definition twoTracks : value :=
  report [] [mesh 100 2400 ["POSITION"]] [] [] [VObj []; VObj []].

Definition oneTrack : value :=
  report [] [mesh 100 2400 ["POSITION"]] [] [] [VObj []].

End Samples.

(** ** The persisted comparison record, entry by entry *)

Module Persisted.

Import Shape.

(** An object or an array. *)
Definition isStructure (v : value) : bool :=
  match v with
  | VArr _ | VObj _ => true
  | _ => false
  end.

(** The percentage of a summary entry: two decimals, and ["0%"] when the
    before value is not positive. *)
Definition percentChangeText (diff before : number) : string :=
  (if gtb before zero then toFixed (mul (div diff before) hundred) 2
   else "0") ++ "%".

(** The summary entry of a key that holds the numbers [x] and [y]. *)
Definition numberEntry (x y : number) : value :=
  VObj [("before", VNum x); ("after", VNum y);
        ("difference", VNum (sub y x));
        ("percentChange", VStr (percentChangeText (sub y x) x))].

(** The summary entry of a key, if it has one. *)
Definition summaryEntry (b a : value) : option value :=
  match b, a with
  | VNum x, VNum y =>
      if truthy (VNum x) && truthy (VNum y) then Some (numberEntry x y)
      else None
  | _, _ => None
  end.

(** The details entry of a key, if it has one. *)
Definition detailsEntry (b a : value) : option value :=
  if isStructure b && isStructure a
  then Some (VObj [("before", b); ("after", a)])
  else None.

(** The byte length a buffer section declares, zero when it declares
    none. *)
Definition sizeOf (buffers : value) : number :=
  countOf (fieldOf "byteLength" buffers).

(** The entry [bufferSize] of the summary, if there is one. *)
Definition sizeEntry (b a : value) : option value :=
  if isStructure b && isStructure a
  then
    let x := sizeOf b in
    let y := sizeOf a in
    Some (VObj [("before", VStr (megabyteText x ++ " MB"));
                ("after", VStr (megabyteText y ++ " MB"));
                ("difference", VStr (megabyteText (sub y x) ++ " MB"));
                ("percentChange", VStr (percentChangeText (sub y x) x))])
  else None.

(** The byte length of the section [buffers] of a report, when the section
    is an object, is a number or is missing. *)
Definition sized (fs : list (string * value)) : bool :=
  let l := fieldOf "byteLength" (field "buffers" fs) in
  typeofNumber l || negb (truthy l).

Definition isKey (k : string) : bool := existsb (String.eqb k) keys.

(** [object[k] = e] when there is an entry [e]. *)
Definition assignEntry (k : string) (e : option value)
  (fs : list (string * value)) : list (string * value) :=
  match e with
  | Some v => assign k v fs
  | None => fs
  end.

End Persisted.

(** ** The global function [parseFloat] *)

Module Parse.

Import Shape.

Definition byte (c : ascii) : nat := nat_of_ascii c.

(** White space and line terminators, in UTF-8: the one-byte characters
    U+0009 to U+000D and U+0020; U+00A0; and U+1680, U+2000 to U+200A,
    U+2028, U+2029, U+202F, U+205F, U+3000 and U+FEFF. *)
Definition space1 (c : ascii) : bool :=
  (Nat.leb 9 (byte c) && Nat.leb (byte c) 13) || Nat.eqb (byte c) 32.

Definition space2 (c1 c2 : ascii) : bool :=
  Nat.eqb (byte c1) 194 && Nat.eqb (byte c2) 160.

Definition space3 (c1 c2 c3 : ascii) : bool :=
  (Nat.eqb (byte c1) 225 && Nat.eqb (byte c2) 154 && Nat.eqb (byte c3) 128) ||
  (Nat.eqb (byte c1) 226 && Nat.eqb (byte c2) 128 &&
   ((Nat.leb 128 (byte c3) && Nat.leb (byte c3) 138) ||
    Nat.eqb (byte c3) 168 || Nat.eqb (byte c3) 169 ||
    Nat.eqb (byte c3) 175)) ||
  (Nat.eqb (byte c1) 226 && Nat.eqb (byte c2) 129 && Nat.eqb (byte c3) 159) ||
  (Nat.eqb (byte c1) 227 && Nat.eqb (byte c2) 128 && Nat.eqb (byte c3) 128) ||
  (Nat.eqb (byte c1) 239 && Nat.eqb (byte c2) 187 && Nat.eqb (byte c3) 191).

(** TrimString(s, start). *)
Fixpoint trimStart (s : string) : string :=
  match s with
  | EmptyString => s
  | String c1 rest1 =>
      if space1 c1 then trimStart rest1
      else
        match rest1 with
        | EmptyString => s
        | String c2 rest2 =>
            if space2 c1 c2 then trimStart rest2
            else
              match rest2 with
              | EmptyString => s
              | String c3 rest3 =>
                  if space3 c1 c2 c3 then trimStart rest3 else s
              end
        end
  end.

(** The longest prefix of decimal digits, and what follows it. *)
Fixpoint digitsOf (s : string) : string * string :=
  match s with
  | EmptyString => (EmptyString, EmptyString)
  | String c rest =>
      if isDigit c
      then let (ds, r) := digitsOf rest in (String c ds, r)
      else (EmptyString, s)
  end.

(** The number a string of decimal digits denotes. *)
Fixpoint decimalFrom (s : string) (acc : Z) : Z :=
  match s with
  | EmptyString => acc
  | String c rest => decimalFrom rest (10 * acc + Z.of_nat (byte c - 48))
  end.

Definition decimal (s : string) : Z := decimalFrom s 0.

Definition isEmpty (s : string) : bool :=
  match s with
  | EmptyString => true
  | String _ _ => false
  end.

(** The value of the ExponentPart at the head of [r], 0 when there is
    none: an [e] or [E], an optional sign and at least one digit. *)
Definition exponentPart (r : string) : Z :=
  match r with
  | EmptyString => 0
  | String c r1 =>
      if Ascii.eqb c "e" || Ascii.eqb c "E"
      then
        let '(sign, r2) :=
          match r1 with
          | EmptyString => (1, r1)
          | String c' t =>
              if Ascii.eqb c' "+" then (1, t)
              else if Ascii.eqb c' "-" then (-1, t)
              else (1, r1)
          end in
        let (ds, _) := digitsOf r2 in
        if isEmpty ds then 0 else sign * decimal ds
      else 0
  end.

(** The Number value of [M * 10^E] for a natural number [M]: the nearest
    binary64 value (ties to even) of the exact product or quotient, also
    beyond 20 significant digits, where the language leaves the last digit
    to the implementation.  [SFdiv] rounds the exact quotient of its two
    operands, whose mantissas need not fit 53 bits. *)
Definition roundDecimal (M E : Z) : number :=
  if M =? 0 then zero
  else if 0 <=? E then ofZ (M * 10 ^ E)
  else SFdiv prec emax (S754_finite false (Z.to_pos M) 0)
         (S754_finite false (Z.to_pos (10 ^ (- E))) 0).

(** The value of the longest prefix of [u] that is a
    StrUnsignedDecimalLiteral, if there is one. *)
Definition unsignedLiteral (u : string) : option number :=
  if String.prefix "Infinity" u then Some (S754_infinity false)
  else
    let (ip, r1) := digitsOf u in
    let '(fp, r2) :=
      match r1 with
      | EmptyString => (EmptyString, r1)
      | String c r =>
          if Ascii.eqb c "." && (negb (isEmpty ip) || headDigit r)
          then digitsOf r
          else (EmptyString, r1)
      end in
    if isEmpty ip && isEmpty fp then None
    else
      Some (roundDecimal (decimal (ip ++ fp))
              (exponentPart r2 - Z.of_nat (String.length fp))).

(** [parseFloat(input)] for a string [input]. *)
Definition parseFloat (input : string) : number :=
  let trimmed := trimStart input in
  let '(negative, u) :=
    match trimmed with
    | EmptyString => (false, trimmed)
    | String c rest =>
        if Ascii.eqb c "-" then (true, rest)
        else if Ascii.eqb c "+" then (false, rest)
        else (false, trimmed)
    end in
  match unsignedLiteral u with
  | Some v => if (negative : bool) then SFopp v else v
  | None => S754_nan
  end.

End Parse.

(** ** Sample inputs of the persisted record *)

Module RecordSamples.

Import Samples.

(** Two statistics objects with numeric counts, a buffer section and a
    list of materials. *)
Definition statsBefore : list (string * value) :=
  [("meshes", VNum (ofZ 12));
   ("geometry", VNum (ofZ 4096));
   ("buffers", VObj [("byteLength", VNum (ofZ 2097152))]);
   ("materials", section [material []; material []])].

Definition statsAfter : list (string * value) :=
  [("meshes", VNum (ofZ 9));
   ("geometry", VNum zero);
   ("buffers", VObj [("byteLength", VNum (ofZ 1048576))]);
   ("materials", section [material []])].

End RecordSamples.

(** * Properties *)

(** ** Binary64 arithmetic on integers *)

Module NumFacts.

Lemma digits2_log2 (p : positive) :
  Z.pos (digits2_pos p) = Z.log2 (Z.pos p) + 1.
Proof.
  assert (H : forall q, digits2_pos q = Pos.size q)
    by (induction q; simpl; congruence).
  destruct p as [p|p|]; simpl; try reflexivity; rewrite H; lia.
Qed.

Lemma iter_pos_iter {A : Type} (f : A -> A) (p : positive) (x : A) :
  iter_pos f p x = Pos.iter f x p.
Proof.
  revert x. induction p as [p IH|p IH|]; intro x; simpl.
  - rewrite !IH, !Pos.iter_swap. reflexivity.
  - rewrite !IH. reflexivity.
  - reflexivity.
Qed.

Lemma pos_iter_xO (m d : positive) :
  Z.pos (Pos.iter xO m d) = Z.pos m * 2 ^ Z.pos d.
Proof.
  rewrite (Pos.iter_swap_gen _ _ Z.pos xO (Z.mul 2)) by reflexivity.
  revert m. induction d using Pos.peano_ind; intro m.
  - simpl. lia.
  - rewrite Pos.iter_succ, IHd, Pos2Z.inj_succ, Z.pow_succ_r by lia. lia.
Qed.

Lemma shr_1_even (k : Z) : 0 < k -> shr_1 (exact (2 * k)) = exact k.
Proof.
  intro H. destruct k; try lia. reflexivity.
Qed.

Lemma shr_exact (k : Z) (n : positive) :
  0 < k -> Pos.iter shr_1 (exact (k * 2 ^ Z.pos n)) n = exact k.
Proof.
  intro H. revert k H. induction n using Pos.peano_ind; intros k H.
  - cbn [Pos.iter]. replace (k * 2 ^ 1) with (2 * k) by lia.
    now apply shr_1_even.
  - rewrite Pos.iter_succ.
    replace (k * 2 ^ Z.pos (Pos.succ n)) with ((2 * k) * 2 ^ Z.pos n).
    + rewrite IHn by lia. now apply shr_1_even.
    + rewrite Pos2Z.inj_succ, Z.pow_succ_r by lia. lia.
Qed.

Ltac rnd := cbn [shr_m shr_r shr_s shr_record_of_loc loc_of_shr_record
                   round_nearest_even Zdigits2 fst snd].

Lemma leb_true (a b : Z) : a <= b -> (a <=? b) = true.
Proof. apply Z.leb_le. Qed.

Lemma binary_round_exact (s : bool) (M : positive) (e V : Z) :
  0 < V < 2 ^ 53 -> e <= 0 -> Z.pos M = V * 2 ^ (- e) ->
  binary_round prec emax s M e = canon s V.
Proof.
  intros HV He HM.
  assert (Hp : prec = 53) by reflexivity.
  assert (Hx : emax = 1024) by reflexivity.
  assert (Hd : 0 <= Z.log2 V < 53).
  { split. apply Z.log2_nonneg. apply Z.log2_lt_pow2; lia. }
  assert (HdM : Z.pos (digits2_pos M) = Z.log2 V + 1 - e).
  { rewrite digits2_log2, HM, Z.log2_mul_pow2 by lia. lia. }
  assert (Hfexp : forall x, 1 <= x -> fexp prec emax x = x - prec).
  { intros x Hx'. unfold fexp, emin. lia. }
  unfold binary_round, canon.
  set (d := Z.log2 V + 1) in *.
  assert (HK0 : 0 < V * 2 ^ (prec - d)).
  { apply Z.mul_pos_pos; [lia|]. apply Z.pow_pos_nonneg; lia. }
  assert (Hdig : Zdigits2 (V * 2 ^ (prec - d)) = prec).
  { destruct (V * 2 ^ (prec - d)) as [|k|k] eqn:Hk; try lia.
    cbn [Zdigits2].
    rewrite digits2_log2, <- Hk, Z.log2_mul_pow2 by lia.
    unfold d. lia. }
  unfold shl_align. rewrite HdM, Hfexp by lia.
  destruct (d - e + e - prec - e) as [|n|n] eqn:Hn.
  - (* already aligned *)
    unfold binary_round_aux, shr_fexp, shr. rnd.
    rewrite HdM, Hfexp by lia.
    replace (d - e + e - prec - e) with 0 by lia. rnd.
    rewrite HdM, Hfexp by lia.
    replace (d - e + e - prec - e) with 0 by lia. rnd.
    rewrite leb_true by lia.
    f_equal; [|lia].
    rewrite <- (Pos2Z.id M) at 1. rewrite HM.
    do 3 f_equal. lia.
  - (* the low bits shifted out are all zero *)
    assert (HK : Z.pos M = (V * 2 ^ (prec - d)) * 2 ^ Z.pos n).
    { rewrite HM, <- Z.mul_assoc, <- Z.pow_add_r by lia.
      do 2 f_equal. lia. }
    unfold binary_round_aux, shr_fexp, shr. rnd.
    rewrite HdM, Hfexp by lia.
    replace (d - e + e - prec - e) with (Z.pos n) by lia. rnd.
    rewrite iter_pos_iter.
    change {| shr_m := Z.pos M; shr_r := false; shr_s := false |}
      with (exact (Z.pos M)).
    rewrite HK, shr_exact by assumption.
    unfold exact. rnd. rewrite Hdig, Hfexp by lia.
    replace (prec + (e + Z.pos n) - prec - (e + Z.pos n)) with 0 by lia.
    rnd.
    destruct (V * 2 ^ (prec - d)) as [|k|k] eqn:Hk; try lia.
    rewrite leb_true by lia.
    f_equal. lia.
  - (* shift left up to 53 bits *)
    assert (HM' : Z.pos (Pos.iter xO M n) = V * 2 ^ (prec - d)).
    { rewrite pos_iter_xO, HM, <- Z.mul_assoc, <- Z.pow_add_r
        by lia.
      do 2 f_equal. lia. }
    rnd. unfold binary_round_aux, shr_fexp, shr. rnd.
    change (Z.pos (digits2_pos (Pos.iter xO M n)))
      with (Zdigits2 (Z.pos (Pos.iter xO M n))).
    rewrite HM', Hdig, Hfexp by lia.
    replace (prec + (d - e + e - prec) - prec - (d - e + e - prec)) with 0
      by lia.
    rnd. rewrite <- HM' at 1. rnd.
    change (Z.pos (digits2_pos (Pos.iter xO M n)))
      with (Zdigits2 (Z.pos (Pos.iter xO M n))).
    rewrite HM', Hdig, Hfexp by lia.
    replace (prec + (d - e + e - prec) - prec - (d - e + e - prec)) with 0
      by lia.
    rnd. rewrite <- HM' at 1. rnd.
    rewrite leb_true by lia.
    f_equal; [|lia]. rewrite <- HM'. reflexivity.
Qed.

Lemma normalize_exact (M e V : Z) :
  e <= 0 -> Z.abs V < 2 ^ 53 -> M = V * 2 ^ (- e) ->
  binary_normalize prec emax M e false = intF V.
Proof.
  intros He Hb HV.
  assert (H2 : 0 < 2 ^ (- e)) by (apply Z.pow_pos_nonneg; lia).
  destruct M as [|M|M]; cbn [binary_normalize].
  - assert (V = 0) by nia. subst V. reflexivity.
  - assert (0 < V) by nia.
    rewrite (binary_round_exact false M e V); [|lia|lia|lia].
    destruct V; try lia. reflexivity.
  - assert (V < 0) by nia.
    rewrite (binary_round_exact true M e (- V)); [|lia|lia|lia].
    destruct V; try lia. reflexivity.
Qed.

Lemma ofZ_exact (z : Z) : Z.abs z < 2 ^ 53 -> ofZ z = intF z.
Proof.
  intro H. unfold ofZ. apply normalize_exact; lia.
Qed.

Lemma canon_mantissa (V : Z) :
  0 < V < 2 ^ 53 ->
  Z.pos (Z.to_pos (V * 2 ^ (prec - (Z.log2 V + 1)))) =
  V * 2 ^ (prec - (Z.log2 V + 1)).
Proof.
  intro H. assert (Hp : prec = 53) by reflexivity.
  assert (Z.log2 V < 53) by (apply Z.log2_lt_pow2; lia).
  pose proof (Z.log2_nonneg V).
  apply Z2Pos.id. apply Z.mul_pos_pos; [lia|]. apply Z.pow_pos_nonneg; lia.
Qed.

Lemma compare_canon (a b : Z) :
  0 < a < 2 ^ 53 -> 0 < b < 2 ^ 53 ->
  SFcompare (canon false a) (canon false b) = Some (a ?= b).
Proof.
  intros Ha Hb. assert (Hp : prec = 53) by reflexivity.
  unfold canon. cbn [SFcompare]. f_equal.
  pose proof (Z.log2_spec a ltac:(lia)) as Sa.
  pose proof (Z.log2_spec b ltac:(lia)) as Sb.
  pose proof (Z.log2_nonneg a). pose proof (Z.log2_nonneg b).
  destruct (Z.compare_spec (Z.log2 a + 1 - prec) (Z.log2 b + 1 - prec))
    as [E|E|E].
  - assert (El : Z.log2 a = Z.log2 b) by lia.
    change (Pos.compare_cont Eq) with Pos.compare.
    rewrite Pos2Z.inj_compare, !canon_mantissa by lia.
    rewrite El. symmetry. apply Zmult_compare_compat_r.
    apply Z.lt_gt. apply Z.pow_pos_nonneg; [lia|].
    assert (Z.log2 b < 53) by (apply Z.log2_lt_pow2; lia). lia.
  - symmetry. apply Z.compare_lt_iff.
    assert (2 ^ Z.succ (Z.log2 a) <= 2 ^ Z.log2 b)
      by (apply Z.pow_le_mono_r; lia).
    lia.
  - symmetry. apply Z.compare_gt_iff.
    assert (2 ^ Z.succ (Z.log2 b) <= 2 ^ Z.log2 a)
      by (apply Z.pow_le_mono_r; lia).
    lia.
Qed.

Lemma compare_intF (a b : Z) :
  0 <= a < 2 ^ 53 -> 0 <= b < 2 ^ 53 ->
  SFcompare (intF a) (intF b) = Some (a ?= b).
Proof.
  intros Ha Hb.
  destruct a as [|a|a], b as [|b|b]; try lia; try reflexivity.
  apply compare_canon; lia.
Qed.

Lemma shl_align_fst (m : positive) (e ez : Z) :
  ez <= e -> Z.pos (fst (shl_align m e ez)) = Z.pos m * 2 ^ (e - ez).
Proof.
  intro H. unfold shl_align.
  destruct (ez - e) as [|d|d] eqn:E; cbn [fst]; try lia.
  - replace (e - ez) with 0 by lia. lia.
  - rewrite pos_iter_xO. do 2 f_equal. lia.
Qed.

Lemma canon_aligned (V ez : Z) :
  0 < V < 2 ^ 53 -> ez <= Z.log2 V + 1 - prec ->
  Z.pos (Z.to_pos (V * 2 ^ (prec - (Z.log2 V + 1)))) *
  2 ^ (Z.log2 V + 1 - prec - ez) = V * 2 ^ (- ez).
Proof.
  intros HV He. assert (Hp : prec = 53) by reflexivity.
  assert (Z.log2 V < 53) by (apply Z.log2_lt_pow2; lia).
  pose proof (Z.log2_nonneg V).
  rewrite canon_mantissa by assumption.
  rewrite <- Z.mul_assoc, <- Z.pow_add_r by lia.
  do 2 f_equal. lia.
Qed.

(** The aligned mantissa of a canonical integer. *)
Lemma aligned (V ez : Z) :
  0 < V < 2 ^ 53 -> ez <= Z.log2 V + 1 - prec ->
  Z.pos (fst (shl_align
                (Z.to_pos (V * 2 ^ (prec - (Z.log2 V + 1))))
                (Z.log2 V + 1 - prec) ez))
  = V * 2 ^ (- ez).
Proof.
  intros HV He. rewrite shl_align_fst by exact He.
  now apply canon_aligned.
Qed.

Lemma sub_exact (a b : Z) :
  0 <= a < 2 ^ 53 -> 0 <= b < 2 ^ 53 ->
  SFsub prec emax (intF a) (intF b) = intF (a - b).
Proof.
  intros Ha Hb. assert (Hp : prec = 53) by reflexivity.
  destruct a as [|a|a], b as [|b|b]; try lia; try reflexivity.
  unfold intF at 1 2. unfold canon.
  cbn [SFsub cond_Zopp].
  assert (Z.log2 (Z.pos a) < 53) by (apply Z.log2_lt_pow2; lia).
  assert (Z.log2 (Z.pos b) < 53) by (apply Z.log2_lt_pow2; lia).
  apply normalize_exact; [lia | lia |].
  rewrite !aligned by lia. lia.
Qed.

Lemma add_exact (a b : Z) :
  0 <= a -> 0 <= b -> a + b < 2 ^ 53 ->
  SFadd prec emax (intF a) (intF b) = intF (a + b).
Proof.
  intros Ha Hb Hab. assert (Hp : prec = 53) by reflexivity.
  destruct a as [|a|a], b as [|b|b]; try lia; try reflexivity.
  unfold intF at 1 2. unfold canon.
  cbn [SFadd cond_Zopp].
  assert (Z.log2 (Z.pos a) < 53) by (apply Z.log2_lt_pow2; lia).
  assert (Z.log2 (Z.pos b) < 53) by (apply Z.log2_lt_pow2; lia).
  apply normalize_exact; [lia | lia |].
  rewrite !aligned by lia. lia.
Qed.

Lemma shr_1_nonneg (mrs : shr_record) :
  0 <= shr_m mrs -> 0 <= shr_m (shr_1 mrs).
Proof.
  destruct mrs as [m r t]. cbn [shr_m]. intro H.
  destruct m as [|[p|p|]|p]; cbn [shr_1 shr_m]; lia.
Qed.

Lemma iter_shr_nonneg (p : positive) (mrs : shr_record) :
  0 <= shr_m mrs -> 0 <= shr_m (iter_pos shr_1 p mrs).
Proof.
  rewrite iter_pos_iter. intro H.
  apply Pos.iter_invariant; [|exact H].
  intros x Hx. now apply shr_1_nonneg.
Qed.

Lemma shr_fexp_nonneg (m e : Z) (l : location) :
  0 <= m -> 0 <= shr_m (fst (shr_fexp prec emax m e l)).
Proof.
  intro H. unfold shr_fexp, shr.
  assert (H0 : 0 <= shr_m (shr_record_of_loc m l))
    by (destruct l as [|[]]; exact H).
  destruct (fexp prec emax (Zdigits2 m + e) - e); cbn [fst]; try exact H0.
  now apply iter_shr_nonneg.
Qed.

Lemma round_nearest_even_nonneg (m : Z) (l : location) :
  0 <= m -> 0 <= round_nearest_even m l.
Proof.
  intro H. destruct l as [|[]]; cbn [round_nearest_even]; try lia.
  destruct (Z.even m); lia.
Qed.

(** Rounding a non-negative mantissa keeps the sign and never yields NaN. *)
Lemma round_aux_signbit (s : bool) (m e : Z) (l : location) :
  0 <= m -> signbit (binary_round_aux prec emax s m e l) = Some s.
Proof.
  intro H. unfold binary_round_aux.
  pose proof (shr_fexp_nonneg m e l H) as H1.
  destruct (shr_fexp prec emax m e l) as [mrs e1]. cbn [fst] in H1.
  pose proof (shr_fexp_nonneg
                (round_nearest_even (shr_m mrs) (loc_of_shr_record mrs))
                e1 loc_Exact
                (round_nearest_even_nonneg _ _ H1)) as H2.
  destruct (shr_fexp prec emax _ e1 loc_Exact) as [mrs2 e2].
  cbn [fst] in H2.
  destruct (shr_m mrs2) as [|q|q]; try lia; try reflexivity.
  destruct (e2 <=? emax - prec); reflexivity.
Qed.

Lemma div_signbit (x y : number) (s : bool) (m : positive) (e : Z) :
  y = S754_finite false m e -> signbit x = Some s ->
  signbit (div x y) = Some s.
Proof.
  intros -> Hx. destruct x as [sx|sx| |sx mx ex]; try discriminate;
    injection Hx as <-; unfold div; cbn [SFdiv signbit];
    rewrite ?xorb_false_r; try reflexivity.
  unfold SFdiv_core_binary.
  set (m' := match _ with Z.pos _ => _ | _ => _ end).
  destruct (Z.div_eucl m' (Z.pos m)) as [qq rr] eqn:E.
  apply round_aux_signbit.
  assert (Hq : qq = m' / Z.pos m) by (unfold Z.div; now rewrite E).
  rewrite Hq. apply Z.div_pos; [|lia].
  subst m'. destruct (ex - e - _) eqn:E'; try lia.
  apply Z.shiftl_nonneg. lia.
Qed.

Lemma mul_signbit (x y : number) (s : bool) (m : positive) (e : Z) :
  y = S754_finite false m e -> signbit x = Some s ->
  signbit (mul x y) = Some s.
Proof.
  intros -> Hx. destruct x as [sx|sx| |sx mx ex]; try discriminate;
    injection Hx as <-; unfold mul; cbn [SFmul signbit];
    rewrite ?xorb_false_r; try reflexivity.
  apply round_aux_signbit. lia.
Qed.

Lemma hundred_finite : exists m e, hundred = S754_finite false m e.
Proof. eexists. eexists. vm_compute. reflexivity. Qed.

(** [x - x] is [+0] for every finite [x]. *)
Lemma sub_diag (x : number) : isFinite x = true -> sub x x = zero.
Proof.
  destruct x as [s|s| |s m e]; try discriminate; intros _.
  - destruct s; reflexivity.
  - unfold sub. cbn [SFsub]. rewrite Z.min_id.
    unfold shl_align.
    match goal with
    | |- context [match ?t with Z.neg _ => _ | _ => _ end] =>
        replace t with 0 by lia
    end.
    cbn [fst].
    match goal with
    | |- binary_normalize _ _ ?t _ _ = _ => replace t with 0 by lia
    end.
    reflexivity.
Qed.

Lemma ltb_irrefl (x : number) : ltb x x = false.
Proof.
  unfold ltb, SFltb.
  destruct x as [s|s| |s m e]; cbn [SFcompare]; try reflexivity.
  - destruct s; reflexivity.
  - destruct s; rewrite Z.compare_refl;
      change (Pos.compare_cont Eq m m) with (Pos.compare m m);
      rewrite Pos.compare_refl; reflexivity.
Qed.

(** Sums of non-negative integers below 2^53 are exact. *)
Lemma add_ofZ (a b : Z) :
  0 <= a -> 0 <= b -> a + b < 2 ^ 53 -> add (ofZ a) (ofZ b) = ofZ (a + b).
Proof.
  intros Ha Hb Hab. rewrite !ofZ_exact by lia. apply add_exact; lia.
Qed.

Lemma sum_exact (zs : list Z) :
  Forall (fun z => 0 <= z) zs ->
  forall acc, 0 <= acc -> acc + fold_right Z.add 0 zs < 2 ^ 53 ->
    fold_left add (map ofZ zs) (ofZ acc) =
    ofZ (acc + fold_right Z.add 0 zs).
Proof.
  induction 1 as [|z zs Hz Hzs IH]; intros acc Ha Hs; cbn [map fold_left
    fold_right] in *.
  - now rewrite Z.add_0_r.
  - assert (0 <= fold_right Z.add 0 zs).
    { clear -Hzs. induction Hzs; cbn [fold_right]; lia. }
    rewrite add_ofZ, IH by lia. f_equal. lia.
Qed.

(** The integer [toFixed] prints is the nearest one to the scaled exact
    value, the larger one in a tie. *)
Lemma roundScaled_nearest (m : positive) (e : Z) (f : nat) :
  e < 0 ->
  (2 * roundScaled m e f - 1) * 2 ^ (- e)
  <= 2 * (Z.pos m * 10 ^ Z.of_nat f)
  < (2 * roundScaled m e f + 1) * 2 ^ (- e).
Proof.
  intro He. unfold roundScaled.
  replace (0 <=? e) with false by (symmetry; apply Z.leb_gt; exact He).
  set (p := Z.pos m * 10 ^ Z.of_nat f).
  assert (HP : 0 < 2 ^ (- e)) by (apply Z.pow_pos_nonneg; lia).
  replace (2 ^ (- e + 1)) with (2 * 2 ^ (- e))
    by (rewrite Z.pow_add_r by lia; lia).
  set (P := 2 ^ (- e)) in *.
  pose proof (Z.div_mod (2 * p + P) (2 * P) ltac:(lia)) as D.
  pose proof (Z.mod_pos_bound (2 * p + P) (2 * P) ltac:(lia)) as B.
  nia.
Qed.

Lemma roundScaled_integer (m : positive) (e : Z) (f : nat) :
  0 <= e -> roundScaled m e f = Z.pos m * 2 ^ e * 10 ^ Z.of_nat f.
Proof.
  intro He. unfold roundScaled.
  replace (0 <=? e) with true by (symmetry; apply Z.leb_le; exact He).
  lia.
Qed.

(** Values of [toFixed] that the language reference documents. *)
Example toFixed_documented :
  toFixed (div (ofZ 235) (ofZ 100)) 1 = "2.4" /\
  toFixed (div (ofZ 255) (ofZ 100)) 1 = "2.5" /\
  toFixed (div (ofZ (-234)) (ofZ 100)) 1 = "-2.3" /\
  toFixed (div (ofZ 1005) (ofZ 1000)) 2 = "1.00" /\
  toFixed (div (ofZ 25) (ofZ 10)) 0 = "3" /\
  toFixed (div (ofZ 1) (ofZ 1000000)) 7 = "0.0000010" /\
  toFixed (ofZ (10 ^ 21)) 1 = "1e+21" /\
  toFixed (mul (ofZ 602) (ofZ (10 ^ 21))) 2 = "6.02e+23" /\
  toFixed (ofZ (2 ^ 70)) 1 = "1.1805916207174113e+21" /\
  toFixed (div (ofZ 1) zero) 1 = "Infinity" /\
  toFixed (div zero zero) 1 = "NaN" /\
  toFixed (mul (div (ofZ 1) (ofZ 3)) hundred) 1 = "33.3" /\
  toFixed (mul (div (ofZ (-1)) (ofZ 10000)) hundred) 1 = "-0.0".
Proof. repeat split; vm_compute; reflexivity. Qed.

(** Integers in a template literal: exact digits up to 2^53, the shortest
    digits that convert back, padded with zeros, up to 10^21, exponent
    notation from there on. *)
Example numberToString_integers :
  numberToString (ofZ 4294967295) = Some "4294967295" /\
  numberToString (ofZ (2 ^ 53 - 1)) = Some "9007199254740991" /\
  numberToString (ofZ (2 ^ 53)) = Some "9007199254740992" /\
  numberToString (ofZ (2 ^ 62)) = Some "4611686018427388000" /\
  numberToString (ofZ (2 ^ 64)) = Some "18446744073709552000" /\
  numberToString (ofZ (- 2 ^ 63)) = Some "-9223372036854776000" /\
  numberToString (ofZ 123456789012345678901) =
    Some "123456789012345680000" /\
  numberToString (ofZ (10 ^ 21)) = Some "1e+21" /\
  numberToString (ofZ (2 ^ 70)) = Some "1.1805916207174113e+21" /\
  numberToString (div (ofZ 1) (ofZ 2)) = None.
Proof. repeat split; vm_compute; reflexivity. Qed.

End NumFacts.

(** ** The strings of [toFixed] and the highlight messages *)

Module StrFacts.

Import Shape.

Lemma length_app (a b : string) :
  String.length (a ++ b) = (String.length a + String.length b)%nat.
Proof. induction a as [|c a IH]; simpl; [reflexivity | now rewrite IH]. Qed.

Lemma allChars_app (P : ascii -> bool) (a b : string) :
  allChars P (a ++ b) = allChars P a && allChars P b.
Proof.
  induction a as [|c a IH]; simpl; [reflexivity|].
  now rewrite IH, andb_assoc.
Qed.

Lemma allChars_substring (P : ascii -> bool) (s : string) :
  allChars P s = true ->
  forall n m, allChars P (substring n m s) = true.
Proof.
  induction s as [|c s IH]; intros H n m.
  - destruct n, m; reflexivity.
  - simpl in H. apply andb_prop in H as [Hc Hs].
    destruct n as [|n].
    + destruct m as [|m]; [reflexivity|]. simpl. now rewrite Hc, IH.
    + simpl. now apply IH.
Qed.

Lemma allChars_weaken (P Q : ascii -> bool) (s : string) :
  (forall c, P c = true -> Q c = true) ->
  allChars P s = true -> allChars Q s = true.
Proof.
  intro HPQ. induction s as [|c s IH]; simpl; [reflexivity|].
  intro H. apply andb_prop in H as [Hc Hs].
  now rewrite (HPQ _ Hc), IH.
Qed.

Lemma digit_ascii (c : ascii) : isDigit c = true -> isAscii c = true.
Proof.
  unfold isDigit, isAscii. intro H. apply andb_prop in H as [_ H].
  apply Nat.leb_le in H. apply Nat.ltb_lt. lia.
Qed.

Lemma uint_digits (d : Decimal.uint) :
  allChars isDigit (NilEmpty.string_of_uint d) = true.
Proof. induction d; simpl; try reflexivity; exact IHd. Qed.

Lemma uint_head (d : Decimal.uint) :
  d <> Decimal.Nil -> headDigit (NilEmpty.string_of_uint d) = true.
Proof. destruct d; intro H; try reflexivity. now elim H. Qed.

Lemma to_uint_nonnil (n : N) : N.to_uint n <> Decimal.Nil.
Proof.
  destruct n as [|p]; [discriminate|].
  apply DecimalPos.Unsigned.to_uint_nonnil.
Qed.

Lemma digits_all (n : Z) : allChars isDigit (digits n) = true.
Proof. apply uint_digits. Qed.

Lemma digits_head (n : Z) : headDigit (digits n) = true.
Proof. apply uint_head, to_uint_nonnil. Qed.

Lemma digits_ascii (n : Z) : allChars isAscii (digits n) = true.
Proof.
  apply (allChars_weaken isDigit); [apply digit_ascii | apply digits_all].
Qed.

Lemma head_length (s : string) :
  headDigit s = true -> (1 <= String.length s)%nat.
Proof. destruct s; simpl; [discriminate | lia]. Qed.

Lemma zeros_length (n : nat) : String.length (zeros n) = n.
Proof. induction n; simpl; congruence. Qed.

Lemma zeros_ascii (n : nat) : allChars isAscii (zeros n) = true.
Proof. induction n; simpl; [reflexivity | exact IHn]. Qed.

Lemma head_substring (s : string) (m : nat) :
  headDigit s = true -> headDigit (substring 0 (S m) s) = true.
Proof. destruct s; simpl; [discriminate | trivial]. Qed.

Lemma head_app (a b : string) :
  headDigit a = true -> headDigit (a ++ b) = true.
Proof. destruct a; simpl; [discriminate | trivial]. Qed.

Lemma pointed_head (n : Z) (f : nat) : headDigit (pointed n f) = true.
Proof.
  unfold pointed. destruct f as [|f]; [apply digits_head|].
  pose proof (digits_head n) as Hd. pose proof (head_length _ Hd) as Hl.
  set (m := digits n) in *.
  set (m' := if Nat.leb (String.length m) (S f) then _ else m).
  assert (Hm' : headDigit m' = true /\ (S f < String.length m')%nat).
  { subst m'. destruct (Nat.leb_spec (String.length m) (S f)) as [L|L].
    - split.
      + replace (S f + 1 - String.length m)%nat
          with (S (S f - String.length m))%nat by lia. reflexivity.
      + rewrite length_app, zeros_length. lia.
    - split; [exact Hd | lia]. }
  destruct Hm' as [H1 H2].
  apply head_app. unfold takeStr.
  replace (String.length m' - S f)%nat
    with (S (String.length m' - S (S f)))%nat by lia.
  now apply head_substring.
Qed.

Lemma pointed_ascii (n : Z) (f : nat) : allChars isAscii (pointed n f) = true.
Proof.
  unfold pointed. destruct f as [|f]; [apply digits_ascii|].
  set (m' := if Nat.leb _ _ then _ else _).
  assert (Hm' : allChars isAscii m' = true).
  { subst m'. destruct (Nat.leb _ _).
    - now rewrite allChars_app, zeros_ascii, digits_ascii.
    - apply digits_ascii. }
  unfold takeStr, dropStr.
  rewrite !allChars_app, !allChars_substring by exact Hm'. reflexivity.
Qed.

Lemma exponential_head (x : number) (X : Z) :
  headDigit (exponential x X) = true.
Proof.
  unfold exponential. destruct (shortest _ _ _ _ _) as [s n].
  pose proof (digits_head s) as H.
  destruct (digits s) as [|c [|c' r]]; simpl in *; try discriminate; exact H.
Qed.

Lemma exponential_ascii (x : number) (X : Z) :
  allChars isAscii (exponential x X) = true.
Proof.
  unfold exponential. destruct (shortest _ _ _ _ _) as [s n].
  pose proof (digits_ascii s) as H.
  rewrite !allChars_app, digits_ascii.
  destruct (digits s) as [|c [|c' r]]; simpl in *;
    rewrite ?andb_true_r; try reflexivity; try exact H.
  apply andb_prop in H as [-> H]. simpl. exact H.
Qed.

Lemma toFixed_ascii (x : number) (f : nat) :
  allChars isAscii (toFixed x f) = true.
Proof.
  destruct x as [s|s| |s m e]; cbn [toFixed].
  - apply pointed_ascii.
  - destruct s; reflexivity.
  - reflexivity.
  - rewrite allChars_app.
    destruct (atLeast1e21 m e);
      rewrite ?exponential_ascii, ?pointed_ascii; destruct s; reflexivity.
Qed.

(** The text of a non-negative finite number starts with a digit. *)
Lemma toFixed_head (m : positive) (e : Z) (f : nat) :
  headDigit (toFixed (S754_finite false m e) f) = true.
Proof.
  cbn [toFixed]. destruct (atLeast1e21 m e);
    [apply exponential_head | apply pointed_head].
Qed.

(** *** Searching for the removal marker *)

Lemma includes_app_r (t a b : string) :
  includes t b = true -> includes t (a ++ b) = true.
Proof.
  intro H. induction a as [|c a IH]; [exact H|].
  simpl. rewrite IH. apply orb_true_r.
Qed.

Lemma includes_ascii (s tail : string) :
  allChars isAscii s = true ->
  includes "删除" (s ++ tail) = includes "删除" tail.
Proof.
  induction s as [|c s IH]; intro H; [reflexivity|].
  simpl in H. apply andb_prop in H as [Hc Hs].
  change (String c s ++ tail) with (String c (s ++ tail)).
  cbn [includes]. rewrite (IH Hs).
  replace (String.prefix "删除" (String c (s ++ tail))) with false;
    [reflexivity|].
  cbn [String.prefix].
  destruct (ascii_dec _ c) as [E|E]; [|reflexivity].
  subst c. discriminate Hc.
Qed.

Lemma removed_marker (s : string) : includes "删除" (s ++ "% 删除") = true.
Proof. apply includes_app_r. reflexivity. Qed.

Lemma added_marker (x : number) :
  includes "删除" (toFixed x 1 ++ "% 增加") = false.
Proof. rewrite includes_ascii by apply toFixed_ascii. reflexivity. Qed.

(** *** The sign a percent text denotes *)

Lemma percentSign_head (s : string) :
  headDigit s = true ->
  percentSign (s ++ "%") = Some 1 \/ percentSign (s ++ "%") = Some 0.
Proof.
  destruct s as [|c s]; [discriminate|]. cbn [headDigit]. intro H.
  unfold percentSign.
  change (String c s ++ "%") with (String c (s ++ "%")).
  cbn [String.prefix].
  destruct (ascii_dec "N" c) as [E|_]; [subst c; discriminate H|].
  destruct (ascii_dec "-" c) as [E|_]; [subst c; discriminate H|].
  destruct (_ || _); auto.
Qed.

Lemma percentSign_minus (s : string) :
  percentSign ("-" ++ s) = Some (-1) \/ percentSign ("-" ++ s) = Some 0.
Proof.
  unfold percentSign. change ("-" ++ s) with (String "-" s).
  cbn [String.prefix].
  destruct (ascii_dec "N" "-") as [E|_]; [discriminate E|].
  destruct (ascii_dec "-" "-") as [_|N]; [|now elim N].
  replace (String.prefix EmptyString s) with true
    by (destruct s; reflexivity).
  destruct (_ || _); auto.
Qed.

(** The sign of the text of [x] is the sign of [x], or zero when [x] rounds
    to zero. *)
Lemma percentSign_toFixed (x : number) :
  percentSign (toFixed x 1 ++ "%") = numSign x \/
  percentSign (toFixed x 1 ++ "%") = Some 0.
Proof.
  destruct x as [s|s| |s m e].
  - right. reflexivity.
  - left. destruct s; reflexivity.
  - left. reflexivity.
  - destruct s.
    + cbn [toFixed numSign append].
      destruct (percentSign_minus
                  ((if atLeast1e21 m e
                    then exponential (S754_finite false m e)
                           (integerPart m e)
                    else pointed (roundScaled m e 1) 1) ++ "%")); auto.
    + cbn [numSign].
      destruct (percentSign_head _ (toFixed_head m e 1)); auto.
Qed.

End StrFacts.

(** ** Evaluation of the helpers on well-formed reports *)

Module EvalFacts.

Import Shape NumFacts.

Lemma properties_obj (section : string) (fs : list (string * value)) :
  properties section (VObj fs) = Ok (propsOf section (VObj fs)).
Proof.
  unfold properties, propsOf. cbn [member bind].
  destruct (field section fs); reflexivity.
Qed.

Lemma wf_object (i : value) :
  isObject i = true -> exists fs, i = VObj fs.
Proof. destruct i; try discriminate. intros _. now eexists. Qed.

Lemma ofNat_exact (n : nat) :
  Z.of_nat n < 2 ^ 53 -> ofNat n = intF (Z.of_nat n).
Proof. intro H. apply ofZ_exact. lia. Qed.

Lemma ofNat_truthy (n : nat) :
  Z.of_nat n < 2 ^ 53 -> truthy (VNum (ofNat n)) = negb (Nat.eqb n 0).
Proof.
  intro H. rewrite ofNat_exact by exact H.
  destruct n as [|n]; [reflexivity|].
  destruct (Z.of_nat (S n)) eqn:E; try lia. reflexivity.
Qed.

Lemma ofNat_or_zero (n : nat) :
  Z.of_nat n < 2 ^ 53 ->
  orElse (VNum (ofNat n)) (Ok (VNum zero)) = Ok (VNum (ofNat n)).
Proof.
  intro H. unfold orElse. rewrite ofNat_truthy by exact H.
  destruct n; reflexivity.
Qed.

Lemma arrayOf_inv (P : value -> bool) (v : value) :
  arrayOf P v = true ->
  exists l,
    v = VArr l /\ forallb P l = true /\ Z.of_nat (List.length l) < 2 ^ 32.
Proof.
  destruct v; try discriminate. cbn [arrayOf]. intro H.
  apply andb_prop in H as [H1 H2]. apply Z.ltb_lt in H2. eauto.
Qed.

Lemma listOf_inv (P : value -> bool) (v : value) :
  listOf P v = true ->
  (truthy v = false /\ items v = []) \/
  (exists l, v = VArr l /\ forallb P l = true /\
             Z.of_nat (List.length l) < 2 ^ 32).
Proof.
  unfold listOf. intro H. apply orb_prop in H as [H|H].
  - left. apply negb_true_iff in H. split; [exact H|].
    destruct v; try reflexivity. discriminate.
  - right. now apply arrayOf_inv.
Qed.

Lemma falsy_length (v : value) :
  truthy v = false ->
  (n <- optMember v "length" ;; orElse n (Ok (VNum zero))) = Ok (VNum zero).
Proof.
  destruct v as [| |b|x|s|l|fs]; cbn [truthy]; intro H; try discriminate;
    try reflexivity.
  apply negb_false_iff, String.eqb_eq in H. subst s. reflexivity.
Qed.

Lemma propertiesLength_wf (P : value -> bool) (section : string) (i : value) :
  isObject i = true -> listOf P (propsOf section i) = true ->
  propertiesLength section i =
  Ok (VNum (ofNat (List.length (items (propsOf section i))))).
Proof.
  intros Hi Hl. destruct (wf_object i Hi) as [fs ->].
  unfold propertiesLength. rewrite properties_obj. cbn [bind].
  destruct (listOf_inv _ _ Hl) as [[Hf Hn]|[l [E [_ Hb]]]].
  - rewrite Hn. now apply falsy_length.
  - rewrite E. cbn [optMember member bind items String.eqb Ascii.eqb Bool.eqb].
    apply ofNat_or_zero. lia.
Qed.

Lemma orElse_count (v : value) :
  count v = true -> orElse v (Ok (VNum zero)) = Ok (VNum (countOf v)).
Proof.
  unfold orElse, count.
  destruct v as [| |b|x|s|l|fs]; cbn [truthy countOf isNumber]; intro H;
    try reflexivity; try discriminate.
  - destruct b; [discriminate | reflexivity].
  - destruct (isZero x || isNaN x); reflexivity.
  - destruct (String.eqb s EmptyString); [reflexivity | discriminate].
Qed.

Lemma wfMesh_inv (m : value) :
  wfMesh m = true ->
  exists fs, m = VObj fs /\
    count (field "vertices" fs) = true /\ count (field "size" fs) = true /\
    (nullish (field "attributes" fs) = true \/
     arrayOf isString (field "attributes" fs) = true).
Proof.
  destruct m; try discriminate. cbn [wfMesh]. intro H.
  apply andb_prop in H as [H H3]. apply andb_prop in H as [H1 H2].
  apply orb_prop in H3. eauto 6.
Qed.

Lemma addField_wf (key : string) (acc : number) (m : value) :
  count (fieldOf key m) = true -> isObject m = true ->
  addField key (VNum acc) m = Ok (VNum (add acc (countOf (fieldOf key m)))).
Proof.
  intros Hc Ho. destruct (wf_object m Ho) as [fs ->].
  unfold addField. cbn [member bind fieldOf] in *.
  rewrite (orElse_count _ Hc). reflexivity.
Qed.

Lemma sum_wf (key : string) (l : list value) :
  forallb (fun m => isObject m && count (fieldOf key m)) l = true ->
  forall acc,
    foldM (addField key) l (VNum acc) =
    Ok (VNum (fold_left (fun sum m => add sum (countOf (fieldOf key m)))
                l acc)).
Proof.
  induction l as [|m l IH]; intros H acc; [reflexivity|].
  cbn [forallb] in H. apply andb_prop in H as [Hm Hl].
  apply andb_prop in Hm as [Ho Hc].
  cbn [foldM fold_left]. rewrite addField_wf by assumption.
  cbn [bind]. now apply IH.
Qed.

Lemma meshes_fields (key : string) (l : list value) :
  key = "vertices" \/ key = "size" ->
  forallb wfMesh l = true ->
  forallb (fun m => isObject m && count (fieldOf key m)) l = true.
Proof.
  intros Hk H. apply forallb_forall. intros m Hm.
  rewrite forallb_forall in H. specialize (H m Hm).
  destruct (wfMesh_inv m H) as [fs [-> [Hv [Hs _]]]].
  destruct Hk as [-> | ->]; cbn [isObject fieldOf andb]; assumption.
Qed.

Lemma total_wf (key : string) (i : value) :
  key = "vertices" \/ key = "size" ->
  isObject i = true -> listOf wfMesh (propsOf "meshes" i) = true ->
  (p <- properties "meshes" i ;;
   if negb (truthy p) then Ok (VNum zero)
   else reduce (addField key) (VNum zero) p) =
  Ok (VNum (total key (meshes i))).
Proof.
  intros Hk Hi Hl. destruct (wf_object i Hi) as [fs ->].
  rewrite properties_obj. cbn [bind]. unfold meshes.
  destruct (listOf_inv _ _ Hl) as [[Hf Hn]|[l [E [Hall _]]]].
  - rewrite Hf, Hn. reflexivity.
  - rewrite E. cbn [truthy negb reduce items]. unfold total.
    apply sum_wf. now apply meshes_fields.
Qed.

Lemma getTotalVertices_wf (i : value) :
  isObject i = true -> listOf wfMesh (propsOf "meshes" i) = true ->
  getTotalVertices i = Ok (VNum (total "vertices" (meshes i))).
Proof. apply total_wf. now left. Qed.

Lemma getTotalGeometrySize_wf (i : value) :
  isObject i = true -> listOf wfMesh (propsOf "meshes" i) = true ->
  getTotalGeometrySize i = Ok (VNum (geometrySize i)).
Proof. apply total_wf. now right. Qed.

Lemma some_strings (l : list value) :
  forallb isString l = true ->
  someM (startsWith "TEXCOORD") l = Ok (existsb texcoord l).
Proof.
  induction l as [|a l IH]; intro H; [reflexivity|].
  cbn [forallb] in H. apply andb_prop in H as [Ha Hl].
  destruct a; try discriminate.
  cbn [someM startsWith bind truthy existsb texcoord].
  destruct (String.prefix "TEXCOORD" s); [reflexivity|]. now apply IH.
Qed.

Lemma hasUV_wf (m : value) :
  wfMesh m = true ->
  exists b, hasUV m = Ok b /\ truthy b = meshHasUV m.
Proof.
  intro H. destruct (wfMesh_inv m H) as [fs [-> [_ [_ Ha]]]].
  unfold hasUV, meshHasUV. cbn [member bind fieldOf].
  destruct Ha as [Ha|Ha].
  - destruct (field "attributes" fs); try discriminate;
      exists VUndefined; split; reflexivity.
  - destruct (arrayOf_inv _ _ Ha) as [l [-> [Hs _]]].
    exists (VBool (existsb texcoord l)).
    cbn [optSome items]. rewrite some_strings by exact Hs.
    split; reflexivity.
Qed.

Lemma filter_wf (l : list value) :
  forallb wfMesh l = true ->
  filterM hasUV l = Ok (List.filter meshHasUV l).
Proof.
  induction l as [|m l IH]; intro H; [reflexivity|].
  cbn [forallb] in H. apply andb_prop in H as [Hm Hl].
  destruct (hasUV_wf m Hm) as [b [Hb Ht]].
  cbn [filterM List.filter]. rewrite Hb. cbn [bind].
  rewrite (IH Hl). cbn [bind]. rewrite Ht. reflexivity.
Qed.

Lemma countMeshesWithUV_wf (i : value) :
  isObject i = true -> listOf wfMesh (propsOf "meshes" i) = true ->
  countMeshesWithUV i = Ok (ofNat (uvCount i)).
Proof.
  intros Hi Hl. destruct (wf_object i Hi) as [fs ->].
  unfold countMeshesWithUV, uvCount, meshes.
  rewrite properties_obj. cbn [bind].
  destruct (listOf_inv _ _ Hl) as [[Hf Hn]|[l [E [Hall _]]]].
  - rewrite Hf, Hn. reflexivity.
  - rewrite E. cbn [truthy negb JS.filter items].
    rewrite filter_wf by exact Hall. reflexivity.
Qed.

Lemma uvCount_bound (i : value) :
  listOf wfMesh (propsOf "meshes" i) = true -> Z.of_nat (uvCount i) < 2 ^ 32.
Proof.
  intro Hl. unfold uvCount, meshes.
  destruct (listOf_inv _ _ Hl) as [[Hf Hn]|[l [E [_ Hb]]]].
  - rewrite Hn. cbn. lia.
  - rewrite E. cbn [items].
    pose proof (List.filter_length_le meshHasUV l). lia.
Qed.

Lemma wfMaterial_inv (m : value) :
  wfMaterial m = true -> exists fs, m = VObj fs.
Proof. destruct m; try discriminate. now eexists. Qed.

Lemma textures_wf (l : list value) :
  forallb wfMaterial l = true ->
  forall acc,
    foldM addTextures l acc =
    Ok (fold_left (fun c t => add c (ofNat (List.length t)))
          (textureLists l) acc).
Proof.
  induction l as [|m l IH]; intros H acc; [reflexivity|].
  cbn [forallb] in H. apply andb_prop in H as [Hm Hl].
  destruct (wfMaterial_inv m Hm) as [fs ->].
  cbn [foldM]. unfold addTextures at 1. cbn [member bind].
  unfold textureLists. cbn [flat_map fieldOf]. fold (textureLists l).
  destruct (field "textures" fs) as [| |b|x|s|t|gs];
    cbn [truthy isArray andb app bind arrayLength];
    rewrite ?andb_false_r; cbn [bind fold_left]; now apply IH.
Qed.

Lemma countTextures_wf (i : value) :
  isObject i = true -> listOf wfMaterial (propsOf "materials" i) = true ->
  countTextures i = Ok (textureCount i).
Proof.
  intros Hi Hl. destruct (wf_object i Hi) as [fs ->].
  unfold countTextures, textureCount.
  rewrite properties_obj. cbn [bind].
  destruct (propsOf "textures" (VObj fs)) as [| |b|x|s|t|gs] eqn:Et;
    cbn [truthy isArray andb arrayLength]; rewrite ?andb_false_r;
    try reflexivity;
    rewrite properties_obj; cbn [bind];
    (destruct (listOf_inv _ _ Hl) as [[Hf Hn]|[l [E [Hall _]]]];
     [ rewrite Hf, Hn; reflexivity
     | rewrite E; cbn [truthy forEach items]; now apply textures_wf ]).
Qed.

(** *** Counts as binary64 numbers *)

Lemma intF_compare_zero (d : Z) :
  SFcompare (intF d) zero = Some (d ?= 0).
Proof. destruct d; reflexivity. Qed.

Lemma ltb_ofNat (a b : nat) :
  Z.of_nat a < 2 ^ 53 -> Z.of_nat b < 2 ^ 53 ->
  ltb (ofNat a) (ofNat b) = Nat.ltb a b.
Proof.
  intros Ha Hb. unfold ltb, SFltb.
  rewrite !ofNat_exact, compare_intF by lia.
  destruct (Z.compare_spec (Z.of_nat a) (Z.of_nat b)) as [E|E|E];
    destruct (Nat.ltb_spec a b) as [L|L]; try reflexivity; lia.
Qed.

Lemma eqb_ofNat (a b : nat) :
  Z.of_nat a < 2 ^ 53 -> Z.of_nat b < 2 ^ 53 ->
  Num.eqb (ofNat a) (ofNat b) = Nat.eqb a b.
Proof.
  intros Ha Hb. unfold Num.eqb, SFeqb.
  rewrite !ofNat_exact, compare_intF by lia.
  destruct (Z.compare_spec (Z.of_nat a) (Z.of_nat b)) as [E|E|E];
    destruct (Nat.eqb_spec a b) as [L|L]; try reflexivity; lia.
Qed.

Lemma gtb_ofNat_zero (a : nat) :
  Z.of_nat a < 2 ^ 53 -> gtb (ofNat a) zero = Nat.ltb 0 a.
Proof. intro H. apply (ltb_ofNat 0 a); [reflexivity | exact H]. Qed.

Lemma eqb_ofNat_zero (a : nat) :
  Z.of_nat a < 2 ^ 53 -> Num.eqb (ofNat a) zero = Nat.eqb a 0.
Proof. intro H. apply (eqb_ofNat a 0); [exact H | reflexivity]. Qed.

Lemma sub_ofNat (a b : nat) :
  Z.of_nat a < 2 ^ 53 -> Z.of_nat b < 2 ^ 53 ->
  sub (ofNat a) (ofNat b) = intF (Z.of_nat a - Z.of_nat b).
Proof.
  intros Ha Hb. rewrite !ofNat_exact by lia. apply sub_exact; lia.
Qed.

Lemma sub_ofNat_le (a b : nat) :
  Z.of_nat a < 2 ^ 53 -> (b <= a)%nat ->
  sub (ofNat a) (ofNat b) = ofNat (a - b).
Proof.
  intros Ha Hb. rewrite sub_ofNat, ofNat_exact by lia.
  f_equal. lia.
Qed.

Lemma ltb_intF_zero (d : Z) : ltb (intF d) zero = (d <? 0).
Proof. destruct d; reflexivity. Qed.

Lemma gtb_intF_zero (d : Z) : gtb (intF d) zero = (0 <? d).
Proof. destruct d; reflexivity. Qed.

(** *** Sums of counts *)

Lemma total_counts (key : string) (ms : list value) :
  total key ms = fold_left add (counts key ms) zero.
Proof.
  unfold total, counts. generalize zero.
  induction ms as [|m ms IH]; intro acc; [reflexivity|].
  cbn [fold_left map]. apply IH.
Qed.

(** When the per-mesh counts are non-negative integers whose sum is below
    2^53, the total is their sum. *)
Lemma total_exact (key : string) (ms : list value) (zs : list Z) :
  counts key ms = map ofZ zs -> Forall (fun z => 0 <= z) zs ->
  sumZ zs < 2 ^ 53 -> total key ms = ofZ (sumZ zs).
Proof.
  intros Hc Hz Hs. rewrite total_counts, Hc.
  change zero with (ofZ 0). rewrite sum_exact by (assumption || lia).
  reflexivity.
Qed.

Lemma refs_exact (ls : list (list value)) :
  forall acc : nat,
    Z.of_nat (acc + list_sum (map (@List.length value) ls)) < 2 ^ 53 ->
    fold_left (fun c l => add c (ofNat (List.length l))) ls (ofNat acc) =
    ofNat (acc + list_sum (map (@List.length value) ls)).
Proof.
  induction ls as [|l ls IH]; intros acc H; cbn [fold_left map] in *.
  - cbn [list_sum fold_right]. now rewrite Nat.add_0_r.
  - change (list_sum (List.length l :: map (@List.length value) ls))
      with (List.length l + list_sum (map (@List.length value) ls))%nat
      in H.
    replace (add (ofNat acc) (ofNat (List.length l)))
      with (ofNat (acc + List.length l)).
    + change (list_sum (List.length l :: map (@List.length value) ls))
        with (List.length l + list_sum (map (@List.length value) ls))%nat.
      rewrite IH by lia. f_equal. lia.
    + unfold ofNat. rewrite add_ofZ by lia. f_equal. lia.
Qed.

(** *** The vertex metric *)

Lemma count_number (x : number) :
  count (VNum x) = true ->
  countOf (VNum x) = if isZero x then zero else x.
Proof.
  cbn [count isNumber countOf]. intro H. apply andb_prop in H as [H _].
  destruct x; try discriminate; reflexivity.
Qed.

Lemma getUploadVertexCount_wf (i : value) :
  isObject i = true -> wfScenes (propsOf "scenes" i) = true ->
  getUploadVertexCount i =
  Ok (VNum match uploadVertexCount i with
           | Some x => if isZero x then zero else x
           | None => zero
           end).
Proof.
  intros Hi Hs. destruct (wf_object i Hi) as [fs ->].
  unfold getUploadVertexCount, uploadVertexCount.
  rewrite properties_obj. cbn [bind].
  unfold wfScenes in Hs. apply orb_prop in Hs as [Hs|Hs].
  - apply negb_true_iff in Hs. rewrite Hs. cbn [bind].
    destruct (propsOf "scenes" (VObj fs)); try reflexivity. discriminate.
  - destruct (propsOf "scenes" (VObj fs)) as [| |b|x|t|[|sc rest]|gs];
      try discriminate; [reflexivity|].
    apply andb_prop in Hs as [Hsc Hb]. apply Z.ltb_lt in Hb.
    cbn [truthy member bind String.eqb Ascii.eqb Bool.eqb].
    unfold gt. cbn [toNumber bind].
    rewrite gtb_ofNat_zero by lia. cbn [List.length Nat.ltb Nat.leb bind].
    cbn [first nth bind].
    destruct sc as [| |b|x|t|l|gs]; try discriminate.
    cbn [wfScene] in Hsc. cbn [member bind fieldOf].
    rewrite (orElse_count _ Hsc).
    destruct (field "uploadVertexCount" gs) as [| |b|x|t|l|hs];
      try reflexivity.
    now rewrite count_number.
Qed.

Lemma upload_finite (i : value) (x : number) :
  wfScenes (propsOf "scenes" i) = true ->
  uploadVertexCount i = Some x -> isFinite x = true.
Proof.
  unfold wfScenes, uploadVertexCount. intros Hs Hu.
  destruct (propsOf "scenes" i) as [| |b|y|t|[|sc rest]|gs];
    try discriminate.
  cbn [truthy negb orb] in Hs. apply andb_prop in Hs as [Hsc _].
  destruct sc as [| |b|y|t|l|gs]; try discriminate.
  cbn [wfScene fieldOf] in *.
  destruct (field "uploadVertexCount" gs); try discriminate.
  injection Hu as <-. cbn [count isNumber] in Hsc.
  now apply andb_prop in Hsc as [Hsc _].
Qed.

Lemma vertexMetric_wf (i : value) (k : value -> outcome VertexAnalysis) :
  isObject i = true -> wfScenes (propsOf "scenes" i) = true ->
  listOf wfMesh (propsOf "meshes" i) = true ->
  (u <- getUploadVertexCount i ;;
   v <- orElse u (getTotalVertices i) ;; k v) = k (VNum (vertexMetric i)).
Proof.
  intros Hi Hs Hm.
  rewrite getUploadVertexCount_wf, getTotalVertices_wf by assumption.
  cbn [bind]. unfold vertexMetric, orElse.
  pose proof (upload_finite i) as Hf.
  destruct (uploadVertexCount i) as [x|]; [|reflexivity].
  specialize (Hf x Hs eq_refl).
  destruct x as [sx|sx| |sx mx ex]; try discriminate; reflexivity.
Qed.

Lemma percentOf_number (diff before : number) :
  (p <- percentOf diff (VNum before) ;; Ok (p ++ "%")) =
  Ok (percentText diff before).
Proof.
  unfold percentOf, percentText, gt, over, arith. cbn [toNumber bind].
  destruct (gtb before zero); reflexivity.
Qed.

Lemma megabytes_number (x : number) :
  megabytes (VNum x) = Ok (megabyteText x).
Proof. reflexivity. Qed.

(** *** The analyzers on well-formed reports *)

Section Analyzers.

Variables before after : value.
Hypothesis Hb : wfInspect before = true.
Hypothesis Ha : wfInspect after = true.

Lemma wfInspect_inv (i : value) :
  wfInspect i = true ->
  isObject i = true /\
  listOf wfMesh (propsOf "meshes" i) = true /\
  listOf wfMaterial (propsOf "materials" i) = true /\
  listOf (fun _ => true) (propsOf "animations" i) = true /\
  wfScenes (propsOf "scenes" i) = true /\
  wfTextures (propsOf "textures" i) = true.
Proof.
  unfold wfInspect. intro H.
  repeat (apply andb_prop in H as [H ?]). auto 10.
Qed.

Lemma analyzeVertices_wf :
  analyzeVertices before after =
  Ok {| v_before := VNum (vertexMetric before);
        v_after := VNum (vertexMetric after);
        v_diff := sub (vertexMetric after) (vertexMetric before);
        v_percent := percentText
                       (sub (vertexMetric after) (vertexMetric before))
                       (vertexMetric before) |}.
Proof.
  destruct (wfInspect_inv _ Hb) as [Ob [Mb [_ [_ [Sb _]]]]].
  destruct (wfInspect_inv _ Ha) as [Oa [Ma [_ [_ [Sa _]]]]].
  unfold analyzeVertices.
  rewrite vertexMetric_wf by assumption.
  rewrite vertexMetric_wf by assumption.
  unfold minus, arith. cbn [toNumber bind].
  set (d := sub _ _).
  pose proof (percentOf_number d (vertexMetric before)) as Hp.
  destruct (percentOf d (VNum (vertexMetric before))); try discriminate.
  cbn [bind] in *. injection Hp as ->. reflexivity.
Qed.

Lemma analyzeGeometry_wf :
  analyzeGeometry before after =
  Ok {| g_before := VNum (geometrySize before);
        g_after := VNum (geometrySize after);
        g_beforeMB := megabyteText (geometrySize before);
        g_afterMB := megabyteText (geometrySize after);
        g_diff := sub (geometrySize after) (geometrySize before);
        g_diffMB := megabyteText
                      (sub (geometrySize after) (geometrySize before));
        g_percent := percentText
                       (sub (geometrySize after) (geometrySize before))
                       (geometrySize before) |}.
Proof.
  destruct (wfInspect_inv _ Hb) as [Ob [Mb _]].
  destruct (wfInspect_inv _ Ha) as [Oa [Ma _]].
  unfold analyzeGeometry.
  rewrite !getTotalGeometrySize_wf by assumption.
  unfold minus, arith. cbn [toNumber bind].
  set (d := sub _ _).
  pose proof (percentOf_number d (geometrySize before)) as Hp.
  destruct (percentOf d (VNum (geometrySize before))); try discriminate.
  cbn [bind] in *. injection Hp as ->.
  rewrite !megabytes_number. reflexivity.
Qed.

Lemma uv_bounds :
  Z.of_nat (uvCount before) < 2 ^ 53 /\ Z.of_nat (uvCount after) < 2 ^ 53.
Proof.
  destruct (wfInspect_inv _ Hb) as [_ [Mb _]].
  destruct (wfInspect_inv _ Ha) as [_ [Ma _]].
  pose proof (uvCount_bound _ Mb). pose proof (uvCount_bound _ Ma). lia.
Qed.

Lemma analyzeUV_wf :
  analyzeUV before after =
  Ok {| uv_before := ofNat (uvCount before);
        uv_after := ofNat (uvCount after);
        uv_totalMeshes := VNum (ofNat (List.length (meshes before)));
        uv_change := uvChange (uvCount before) (uvCount after) |}.
Proof.
  destruct (wfInspect_inv _ Hb) as [Ob [Mb _]].
  destruct (wfInspect_inv _ Ha) as [Oa [Ma _]].
  destruct uv_bounds as [Bb Ba].
  unfold analyzeUV, getMeshCount.
  rewrite !countMeshesWithUV_wf by assumption. cbn [bind].
  rewrite (propertiesLength_wf wfMesh) by assumption. cbn [bind].
  do 2 f_equal. unfold uvChange.
  rewrite gtb_ofNat_zero, eqb_ofNat_zero by assumption.
  unfold gtb at 1. rewrite !ltb_ofNat by assumption.
  destruct (Nat.ltb 0 (uvCount before) && Nat.eqb (uvCount after) 0);
    [reflexivity|].
  destruct (Nat.ltb_spec (uvCount after) (uvCount before)) as [L|L].
  - destruct (Nat.ltb_spec 0 (uvCount before)); [|lia]. cbn [andb].
    rewrite sub_ofNat_le by (assumption || lia). reflexivity.
  - rewrite andb_false_r.
    destruct (Nat.ltb_spec (uvCount before) (uvCount after)) as [G|G];
      [|reflexivity].
    rewrite sub_ofNat_le by (assumption || lia). reflexivity.
Qed.

Lemma material_bounds :
  Z.of_nat (materialCount before) < 2 ^ 53 /\
  Z.of_nat (materialCount after) < 2 ^ 53.
Proof.
  destruct (wfInspect_inv _ Hb) as [_ [_ [Mb _]]].
  destruct (wfInspect_inv _ Ha) as [_ [_ [Ma _]]].
  unfold materialCount.
  destruct (listOf_inv _ _ Mb) as [[_ ->]|[l [-> [_ B1]]]];
    destruct (listOf_inv _ _ Ma) as [[_ ->]|[l' [-> [_ B2]]]];
    cbn [items List.length]; lia.
Qed.

Lemma analyzeMaterials_wf :
  analyzeMaterials before after =
  Ok {| m_before := VNum (ofNat (materialCount before));
        m_after := VNum (ofNat (materialCount after));
        m_diff := intF (Z.of_nat (materialCount after) -
                        Z.of_nat (materialCount before));
        m_reason :=
          if Nat.ltb (materialCount after) (materialCount before)
          then "（dedup）"
          else if Nat.ltb (materialCount before) (materialCount after)
          then "（增加）" else EmptyString |}.
Proof.
  destruct (wfInspect_inv _ Hb) as [Ob [_ [Mb _]]].
  destruct (wfInspect_inv _ Ha) as [Oa [_ [Ma _]]].
  destruct material_bounds as [Bb Ba].
  unfold analyzeMaterials, getMaterialCount.
  rewrite !(propertiesLength_wf wfMaterial) by assumption. cbn [bind].
  fold (materialCount before) (materialCount after).
  unfold minus, arith. cbn [toNumber bind].
  rewrite sub_ofNat by assumption.
  rewrite ltb_intF_zero, gtb_intF_zero.
  do 2 f_equal.
  destruct (Nat.ltb_spec (materialCount after) (materialCount before));
    destruct (Nat.ltb_spec (materialCount before) (materialCount after));
    destruct (Z.ltb_spec (Z.of_nat (materialCount after) -
                          Z.of_nat (materialCount before)) 0);
    destruct (Z.ltb_spec 0 (Z.of_nat (materialCount after) -
                            Z.of_nat (materialCount before)));
    try reflexivity; lia.
Qed.

Lemma animation_bounds :
  Z.of_nat (animationCount before) < 2 ^ 53 /\
  Z.of_nat (animationCount after) < 2 ^ 53.
Proof.
  destruct (wfInspect_inv _ Hb) as [_ [_ [_ [Mb _]]]].
  destruct (wfInspect_inv _ Ha) as [_ [_ [_ [Ma _]]]].
  unfold animationCount.
  destruct (listOf_inv _ _ Mb) as [[_ ->]|[l [-> [_ B1]]]];
    destruct (listOf_inv _ _ Ma) as [[_ ->]|[l' [-> [_ B2]]]];
    cbn [items List.length]; lia.
Qed.

Lemma analyzeAnimations_wf :
  analyzeAnimations before after =
  Ok {| a_before := VNum (ofNat (animationCount before));
        a_after := VNum (ofNat (animationCount after));
        a_preserved :=
          Nat.eqb (animationCount before) (animationCount after) &&
          Nat.ltb 0 (animationCount before) |}.
Proof.
  destruct (wfInspect_inv _ Hb) as [Ob [_ [_ [Mb _]]]].
  destruct (wfInspect_inv _ Ha) as [Oa [_ [_ [Ma _]]]].
  destruct animation_bounds as [Bb Ba].
  unfold analyzeAnimations.
  rewrite !(propertiesLength_wf (fun _ => true)) by assumption.
  cbn [bind strictEq].
  fold (animationCount before) (animationCount after).
  rewrite eqb_ofNat by assumption.
  destruct (Nat.eqb (animationCount before) (animationCount after));
    [|reflexivity].
  unfold gt. cbn [toNumber bind].
  rewrite gtb_ofNat_zero by assumption. reflexivity.
Qed.

Lemma analyzeTextures_wf (os : list (string * value)) :
  analyzeTextures before after (VObj os) =
  Ok {| t_before := textureCount before;
        t_after := textureCount after;
        t_hasTextures := gtb (textureCount before) zero ||
                         gtb (textureCount after) zero;
        t_ktx2Status :=
          if truthy (field "ktx2" os)
          then (if gtb (textureCount before) zero ||
                   gtb (textureCount after) zero
                then "已应用" else "不适用（无贴图模型）")
          else (if gtb (textureCount before) zero ||
                   gtb (textureCount after) zero
                then "未启用" else "不适用（无贴图模型）") |}.
Proof.
  destruct (wfInspect_inv _ Hb) as [Ob [_ [Mb _]]].
  destruct (wfInspect_inv _ Ha) as [Oa [_ [Ma _]]].
  unfold analyzeTextures.
  rewrite !countTextures_wf by assumption. reflexivity.
Qed.

Lemma toString_ofNat (n : nat) :
  Z.of_nat n < 2 ^ 32 ->
  JS.toString (VNum (ofNat n)) = Ok (digits (Z.of_nat n)).
Proof.
  intro H. rewrite ofNat_exact by lia.
  destruct (Z.of_nat n) as [|V|V] eqn:E; try lia; [reflexivity|].
  cbn [intF]. unfold canon.
  assert (Hp : prec = 53) by reflexivity.
  assert (Hl : 0 <= Z.log2 (Z.pos V) < 32).
  { split; [apply Z.log2_nonneg | apply Z.log2_lt_pow2; lia]. }
  set (e := Z.log2 (Z.pos V) + 1 - prec).
  assert (Hm : Z.pos (Z.to_pos (Z.pos V * 2 ^ (prec - (Z.log2 (Z.pos V) + 1))))
               = Z.pos V * 2 ^ (- e)).
  { rewrite canon_mantissa by lia. do 2 f_equal. unfold e. lia. }
  assert (H2 : 0 < 2 ^ (- e)) by (apply Z.pow_pos_nonneg; lia).
  cbn [JS.toString numberToString]. unfold integerValue, atLeast1e21.
  replace (0 <=? e) with false by (symmetry; apply Z.leb_gt; lia).
  rewrite Hm, Z.mod_mul, Z.div_mul by lia. cbn [Z.eqb].
  replace (10 ^ 21 * 2 ^ (- e) <=? Z.pos V * 2 ^ (- e)) with false.
  - replace (Z.pos V <? 2 ^ 53) with true by (symmetry; apply Z.ltb_lt; lia).
    reflexivity.
  - symmetry. apply Z.leb_gt. apply Z.mul_lt_mono_pos_r; lia.
Qed.

Lemma generateHighlights_wf (os : list (string * value))
  (change reason status : string) (total : value) (tb ta : number)
  (has : bool) :
  generateHighlights
    {| uv_before := ofNat (uvCount before);
       uv_after := ofNat (uvCount after);
       uv_totalMeshes := total;
       uv_change := change |}
    {| m_before := VNum (ofNat (materialCount before));
       m_after := VNum (ofNat (materialCount after));
       m_diff := intF (Z.of_nat (materialCount after) -
                       Z.of_nat (materialCount before));
       m_reason := reason |}
    {| t_before := tb; t_after := ta; t_hasTextures := has;
       t_ktx2Status := status |}
    (VObj os) =
  Ok ((if includes "删除" change then [msgUV] else []) ++
      ruleDedup (materialCount before) (materialCount after) ++
      ruleDraco (truthy (field "draco" os)) ++
      ruleKTX2 (truthy (field "ktx2" os)) has)%list.
Proof.
  destruct (wfInspect_inv _ Hb) as [_ [_ [Mb _]]].
  destruct (wfInspect_inv _ Ha) as [_ [_ [Ma _]]].
  assert (Bb : Z.of_nat (materialCount before) < 2 ^ 32).
  { unfold materialCount.
    destruct (listOf_inv _ _ Mb) as [[_ ->]|[l [-> [_ B1]]]];
      cbn [items List.length]; lia. }
  assert (Ba : Z.of_nat (materialCount after) < 2 ^ 32).
  { unfold materialCount.
    destruct (listOf_inv _ _ Ma) as [[_ ->]|[l [-> [_ B1]]]];
      cbn [items List.length]; lia. }
  unfold generateHighlights, ruleDedup, ruleDraco, ruleKTX2.
  cbn [uv_change m_diff m_before m_after t_hasTextures member].
  rewrite ltb_intF_zero, !toString_ofNat by assumption.
  replace (Z.of_nat (materialCount after) - Z.of_nat (materialCount before) <? 0)
    with (Nat.ltb (materialCount after) (materialCount before)).
  - destruct (includes "删除" change),
      (Nat.ltb (materialCount after) (materialCount before));
      cbn [bind];
      destruct (truthy (field "draco" os)), (truthy (field "ktx2" os)), has;
      reflexivity.
  - destruct (Nat.ltb_spec (materialCount after) (materialCount before));
      destruct (Z.ltb_spec (Z.of_nat (materialCount after) -
                            Z.of_nat (materialCount before)) 0);
      try reflexivity; lia.
Qed.

Lemma uvChange_removed (b a : nat) :
  includes "删除" (uvChange b a) = Nat.ltb a b.
Proof.
  unfold uvChange.
  destruct (Nat.ltb_spec 0 b) as [P|P]; destruct (Nat.eqb_spec a 0) as [Z0|Z0];
    cbn [andb].
  - subst a. destruct (Nat.ltb_spec 0 b); [reflexivity | lia].
  - destruct (Nat.ltb_spec a b); [apply StrFacts.removed_marker|].
    destruct (Nat.ltb_spec b a); [apply StrFacts.added_marker | reflexivity].
  - destruct (Nat.ltb_spec a b); [lia|].
    destruct (Nat.ltb_spec b a); [lia | reflexivity].
  - destruct (Nat.ltb_spec a b); [lia|].
    destruct (Nat.ltb_spec b a); [apply StrFacts.added_marker | reflexivity].
Qed.

(** The whole analysis of two well-formed reports. *)
Lemma analyzeComparison_wf (os : list (string * value)) :
  exists r,
    analyzeComparison before after (VObj os) = Ok r /\
    analyzeVertices before after = Ok (vertices r) /\
    analyzeUV before after = Ok (uv r) /\
    analyzeGeometry before after = Ok (geometry r) /\
    analyzeMaterials before after = Ok (materials r) /\
    analyzeAnimations before after = Ok (animations r) /\
    analyzeTextures before after (VObj os) = Ok (textures r) /\
    highlights r =
    (ruleUV (uvCount before) (uvCount after) ++
     ruleDedup (materialCount before) (materialCount after) ++
     ruleDraco (truthy (field "draco" os)) ++
     ruleKTX2 (truthy (field "ktx2" os))
       (gtb (textureCount before) zero ||
        gtb (textureCount after) zero))%list.
Proof.
  unfold analyzeComparison.
  rewrite analyzeVertices_wf, analyzeUV_wf, analyzeGeometry_wf,
    analyzeMaterials_wf, analyzeAnimations_wf, analyzeTextures_wf.
  cbn [bind]. rewrite generateHighlights_wf. cbn [bind].
  rewrite uvChange_removed.
  eexists. split; [reflexivity|].
  cbn [vertices uv geometry materials animations textures highlights].
  repeat split; reflexivity.
Qed.

End Analyzers.

End EvalFacts.

(** ** The sign of a percentage *)

Module SignFacts.

Import Shape NumFacts StrFacts.

Lemma positive_finite (b : number) :
  gtb b zero = true -> isFinite b = true ->
  exists m e, b = S754_finite false m e.
Proof.
  destruct b as [s|s| |s m e]; try discriminate.
  destruct s; [discriminate|]. intros _ _. eauto.
Qed.

Lemma numSign_signbit (x : number) (s : bool) :
  signbit x = Some s ->
  numSign x = Some (if s then -1 else 1) \/ numSign x = Some 0.
Proof.
  destruct x; cbn [signbit numSign]; intro H; try discriminate;
    injection H as ->; auto.
Qed.

(** The number the percentage is printed from has the sign of [diff], or is
    zero. *)
Lemma ratio_sign (diff b : number) :
  gtb b zero = true -> isFinite b = true ->
  numSign (mul (div diff b) hundred) = numSign diff \/
  numSign (mul (div diff b) hundred) = Some 0.
Proof.
  intros Hp Hf. destruct (positive_finite b Hp Hf) as [m [e ->]].
  destruct hundred_finite as [mh [eh Hh]].
  destruct diff as [s|s| |s md ed].
  - right. rewrite Hh. unfold mul, div. cbn [SFdiv SFmul numSign].
    reflexivity.
  - left. rewrite Hh. unfold mul, div. cbn [SFdiv SFmul numSign].
    now rewrite !xorb_false_r.
  - left. reflexivity.
  - cbn [numSign].
    apply numSign_signbit.
    apply (mul_signbit _ _ s mh eh Hh).
    now apply (div_signbit _ _ s m e).
Qed.

Lemma percentText_sign (diff b : number) :
  gtb b zero = true -> isFinite b = true ->
  percentSign (percentText diff b) = numSign diff \/
  percentSign (percentText diff b) = Some 0.
Proof.
  intros Hp Hf. unfold percentText. rewrite Hp.
  destruct (percentSign_toFixed (mul (div diff b) hundred)) as [E|E];
    [|now right].
  rewrite E. now apply ratio_sign.
Qed.

Lemma percentText_zero_before (diff b : number) :
  gtb b zero = false -> percentText diff b = "0.0%".
Proof. intro H. unfold percentText. now rewrite H. Qed.

Lemma percentText_sign_finite (diff b : number) :
  isFinite b = true ->
  percentSign (percentText diff b) = numSign diff \/
  percentSign (percentText diff b) = Some 0.
Proof.
  intro Hf. destruct (gtb b zero) eqn:Hp.
  - now apply percentText_sign.
  - right. now rewrite percentText_zero_before.
Qed.

Lemma percentText_same (x : number) :
  isFinite x = true -> percentText (sub x x) x = "0.0%".
Proof.
  intro H. rewrite sub_diag by exact H. unfold percentText.
  destruct (gtb x zero) eqn:E; [|reflexivity].
  destruct (positive_finite x E H) as [m [e ->]].
  destruct hundred_finite as [mh [eh Hh]]. rewrite Hh. reflexivity.
Qed.

End SignFacts.

(** * The claims of the specification *)

Import Shape Samples.

(** Scenario A of the specification: 1000 vertices before and after, four
    materials before and two after. *)
Example scenario_A :
  exists r,
    analyzeComparison fourMaterials twoMaterials (config false false) =
    Ok r /\
    v_diff (vertices r) = zero /\ v_percent (vertices r) = "0.0%" /\
    m_diff (materials r) = ofZ (-2) /\
    m_reason (materials r) = "（dedup）" /\
    highlights r = ["材质通过 dedup 从 4 减少到 2"].
Proof.
  eexists. split; [vm_compute; reflexivity|].
  repeat split; vm_compute; reflexivity.
Qed.

(** C1 (the code divides by zero). Comparing a report whose meshes carry no
    texture coordinates with one where a mesh carries them, the UV-bearing
    count before is zero and the count after is one; the change text of
    [analyzeUV] is then ["Infinity% 增加"], the quotient by the zero count,
    and not a zero percentage.  The vertex and geometry percentages are
    guarded ([before > 0 ? ... : '0.0']); the addition branch of [analyzeUV]
    is not. *)
Theorem C1_uv_percentage_of_zero_before :
  uvCount bare = 0%nat /\ uvCount textured = 1%nat /\
  analyzeUV bare textured =
  Ok {| uv_before := zero;
        uv_after := ofNat 1;
        uv_totalMeshes := VNum (ofNat 1);
        uv_change := "Infinity% 增加" |}.
Proof. repeat split; vm_compute; reflexivity. Qed.

(** The guarded percentages: when the before value is not positive, the
    vertex and geometry percentages are ["0.0%"] whatever the after value
    is. *)
Lemma guarded_percentages (before after : value) :
  wfInspect before = true -> wfInspect after = true ->
  exists rv rg,
    analyzeVertices before after = Ok rv /\
    analyzeGeometry before after = Ok rg /\
    (gtb (vertexMetric before) zero = false -> v_percent rv = "0.0%") /\
    (gtb (geometrySize before) zero = false -> g_percent rg = "0.0%").
Proof.
  intros Hb Ha.
  rewrite (EvalFacts.analyzeVertices_wf _ _ Hb Ha).
  rewrite (EvalFacts.analyzeGeometry_wf _ _ Hb Ha).
  eexists. eexists. repeat split;
    cbn [v_percent g_percent]; apply SignFacts.percentText_zero_before.
Qed.

(** The unguarded branch: whenever no mesh carries texture coordinates
    before and some mesh does after, the change text is ["Infinity% 增加"]. *)
Lemma uv_added_from_zero (before after : value) :
  wfInspect before = true -> wfInspect after = true ->
  uvCount before = 0%nat -> (0 < uvCount after)%nat ->
  exists r,
    analyzeUV before after = Ok r /\ uv_change r = "Infinity% 增加".
Proof.
  intros Hb Ha Z0 P. rewrite (EvalFacts.analyzeUV_wf _ _ Hb Ha).
  eexists. split; [reflexivity|]. cbn [uv_change].
  destruct (EvalFacts.uv_bounds _ _ Hb Ha) as [_ Ba].
  unfold uvChange. rewrite Z0.
  destruct (uvCount after) as [|n]; [lia|].
  cbn [Nat.ltb Nat.leb Nat.eqb andb Nat.sub].
  rewrite EvalFacts.ofNat_exact by exact Ba.
  destruct (Z.of_nat (S n)) eqn:E; try lia. reflexivity.
Qed.

(** C2, the claim as stated fails: with three UV-bearing meshes before and
    none after, the change text is ["100% 删除"], without a decimal; it
    does not contain ["100.0%"]. *)
Lemma C2_counterexample :
  uvCount threeTextured = 3%nat /\ uvCount threePruned = 0%nat /\
  exists r,
    analyzeUV threeTextured threePruned = Ok r /\
    uv_change r = "100% 删除" /\
    includes "100.0%" (uv_change r) = false.
Proof.
  split; [reflexivity|]. split; [reflexivity|].
  eexists. split; [vm_compute; reflexivity|]. split; reflexivity.
Qed.

(** C2, amended. The UV metric counts the meshes that possess a
    texture-coordinate attribute.  When the count decreases the change is
    marked as a removal, the text being ["100% 删除"] when no UV-bearing
    mesh is left and the one-decimal share of the removed meshes
    otherwise, and the highlight list contains the UV-removal message.
    When the count increases the change is marked as an addition (with the
    one-decimal increase relative to a non-zero count before).  When the
    counts are equal the change is ["0%"]. *)
Theorem C2_uv_classification (before after : value) (draco ktx2 : bool) :
  wfInspect before = true -> wfInspect after = true ->
  exists r,
    analyzeComparison before after (config draco ktx2) = Ok r /\
    uv_before (uv r) = ofNat (uvCount before) /\
    uv_after (uv r) = ofNat (uvCount after) /\
    ((uvCount after < uvCount before)%nat ->
       includes "删除" (uv_change (uv r)) = true /\
       In msgUV (highlights r) /\
       (uvCount after = 0%nat -> uv_change (uv r) = "100% 删除") /\
       (uvCount after <> 0%nat ->
          uv_change (uv r) =
          toFixed (mul (div (ofNat (uvCount before - uvCount after))
                          (ofNat (uvCount before))) hundred) 1
          ++ "% 删除")) /\
    ((uvCount before < uvCount after)%nat ->
       includes "增加" (uv_change (uv r)) = true /\
       includes "删除" (uv_change (uv r)) = false /\
       ~ In msgUV (highlights r) /\
       (uvCount before <> 0%nat ->
          uv_change (uv r) =
          toFixed (mul (div (ofNat (uvCount after - uvCount before))
                          (ofNat (uvCount before))) hundred) 1
          ++ "% 增加")) /\
    (uvCount after = uvCount before ->
       uv_change (uv r) = "0%" /\ ~ In msgUV (highlights r)).
Proof.
  intros Hb Ha.
  destruct (EvalFacts.analyzeComparison_wf before after Hb Ha
              [("draco", VBool draco); ("ktx2", VBool ktx2)])
    as [r [Hr [_ [Hu [_ [_ [_ [_ Hh]]]]]]]].
  exists r. split; [exact Hr|].
  rewrite (EvalFacts.analyzeUV_wf _ _ Hb Ha) in Hu.
  injection Hu as Hu. rewrite <- Hu. cbn [uv_before uv_after uv_change].
  assert (Hno : forall h, In h (ruleDedup (materialCount before)
                                  (materialCount after) ++
                                ruleDraco (truthy (VBool draco)) ++
                                ruleKTX2 (truthy (VBool ktx2))
                                  (gtb (textureCount before) zero ||
                                   gtb (textureCount after) zero))%list ->
                      h <> msgUV).
  { intros h Hin. unfold ruleDedup, ruleDraco, ruleKTX2 in Hin.
    repeat (apply in_app_or in Hin as [Hin|Hin]);
      repeat match type of Hin with
             | In _ (if ?c then _ else _) => destruct c
             end;
      cbn [In] in Hin; try tauto;
      destruct Hin as [<-|[]]; discriminate. }
  cbn [field lookup String.eqb Ascii.eqb Bool.eqb] in Hh.
  split; [reflexivity|]. split; [reflexivity|].
  unfold uvChange, ruleUV in *.
  split; [|split].
  - intro L. destruct (Nat.ltb_spec (uvCount after) (uvCount before));
      [|lia].
    destruct (Nat.ltb_spec 0 (uvCount before)); [|lia]. cbn [andb].
    repeat split.
    + destruct (Nat.eqb (uvCount after) 0); [reflexivity|].
      apply StrFacts.removed_marker.
    + rewrite Hh. left. reflexivity.
    + intros ->. reflexivity.
    + intro N. destruct (Nat.eqb_spec (uvCount after) 0); [lia|].
      reflexivity.
  - intro L. destruct (Nat.ltb_spec (uvCount after) (uvCount before));
      [lia|].
    destruct (Nat.ltb_spec (uvCount before) (uvCount after)); [|lia].
    assert (E : Nat.ltb 0 (uvCount before) && Nat.eqb (uvCount after) 0
                = false).
    { destruct (Nat.eqb_spec (uvCount after) 0); [lia|].
      apply andb_false_r. }
    rewrite E. repeat split.
    + apply StrFacts.includes_app_r. reflexivity.
    + apply StrFacts.added_marker.
    + rewrite Hh. intro Hin. now apply (Hno msgUV).
  - intro E. rewrite E in *.
    destruct (Nat.ltb_spec (uvCount before) (uvCount before)); [lia|].
    destruct (Nat.eqb_spec (uvCount before) 0) as [Z0|Z0].
    + rewrite Z0. cbn [Nat.ltb Nat.leb andb]. split; [reflexivity|].
      rewrite Hh. intro Hin. now apply (Hno msgUV).
    + rewrite andb_false_r. split; [reflexivity|].
      rewrite Hh. intro Hin. now apply (Hno msgUV).
Qed.

(** The theorem at Scenario B: three UV-bearing meshes before, none after. *)
Lemma C2_witness :
  wfInspect threeTextured = true /\ wfInspect threePruned = true /\
  exists r,
    analyzeComparison threeTextured threePruned (config true false) = Ok r /\
    uv_change (uv r) = "100% 删除" /\ In msgUV (highlights r).
Proof.
  split; [reflexivity|]. split; [reflexivity|].
  destruct (C2_uv_classification threeTextured threePruned true false
              eq_refl eq_refl) as [r [Hr [_ [_ [Hrem _]]]]].
  exists r. split; [exact Hr|].
  assert (L : (uvCount threePruned < uvCount threeTextured)%nat)
    by (vm_compute; lia).
  destruct (Hrem L) as [_ [Hin [Hz _]]].
  split; [apply Hz; reflexivity | exact Hin].
Defined.

(** C3, the claim as stated fails: from 10000 to 10001 vertices the diff
    is 1, which is positive, while the percent text is ["0.0%"], which is
    zero: the sign of the percent does not match the sign of the diff. *)
Lemma C3_counterexample :
  exists r,
    analyzeVertices tenThousand tenThousandOne = Ok r /\
    v_before r = VNum (ofZ 10000) /\ v_after r = VNum (ofZ 10001) /\
    v_diff r = ofZ 1 /\ v_percent r = "0.0%" /\
    numSign (v_diff r) = Some 1 /\ percentSign (v_percent r) = Some 0 /\
    percentSign (v_percent r) <> numSign (v_diff r).
Proof.
  eexists. split; [vm_compute; reflexivity|].
  repeat split; try (vm_compute; reflexivity). discriminate.
Qed.

(** C3, amended. For the vertex count and the geometry byte size: diff is
    after minus before; when before is positive the percent is
    [diff / before * 100] printed by [toFixed(1)] with a [%] suffix; and,
    for a finite before value, the percent has the sign of the diff or is
    zero (a ratio that rounds to 0.0, or a before value that is not
    positive). *)
Theorem C3_diff_and_percent (before after : value) :
  wfInspect before = true -> wfInspect after = true ->
  exists rv rg,
    analyzeVertices before after = Ok rv /\
    analyzeGeometry before after = Ok rg /\
    v_before rv = VNum (vertexMetric before) /\
    v_after rv = VNum (vertexMetric after) /\
    v_diff rv = sub (vertexMetric after) (vertexMetric before) /\
    g_before rg = VNum (geometrySize before) /\
    g_after rg = VNum (geometrySize after) /\
    g_diff rg = sub (geometrySize after) (geometrySize before) /\
    (gtb (vertexMetric before) zero = true ->
       v_percent rv =
       toFixed (mul (div (v_diff rv) (vertexMetric before)) hundred) 1
       ++ "%") /\
    (gtb (geometrySize before) zero = true ->
       g_percent rg =
       toFixed (mul (div (g_diff rg) (geometrySize before)) hundred) 1
       ++ "%") /\
    (isFinite (vertexMetric before) = true ->
       percentSign (v_percent rv) = numSign (v_diff rv) \/
       percentSign (v_percent rv) = Some 0) /\
    (isFinite (geometrySize before) = true ->
       percentSign (g_percent rg) = numSign (g_diff rg) \/
       percentSign (g_percent rg) = Some 0).
Proof.
  intros Hb Ha.
  rewrite (EvalFacts.analyzeVertices_wf _ _ Hb Ha).
  rewrite (EvalFacts.analyzeGeometry_wf _ _ Hb Ha).
  eexists. eexists. split; [reflexivity|]. split; [reflexivity|].
  cbn [v_before v_after v_diff v_percent g_before g_after g_diff g_percent].
  repeat split.
  - intro H. unfold percentText. now rewrite H.
  - intro H. unfold percentText. now rewrite H.
  - apply SignFacts.percentText_sign_finite.
  - apply SignFacts.percentText_sign_finite.
Qed.

(** The theorem on a report with the aggregate count against one without:
    the diff is 200 and the percent 16.7%. *)
Lemma C3_witness :
  wfInspect withAggregate = true /\ wfInspect withoutAggregate = true /\
  gtb (vertexMetric withAggregate) zero = true /\
  isFinite (vertexMetric withAggregate) = true /\
  exists rv,
    analyzeVertices withAggregate withoutAggregate = Ok rv /\
    v_diff rv = ofZ 200 /\ v_percent rv = "16.7%" /\
    (percentSign (v_percent rv) = numSign (v_diff rv) \/
     percentSign (v_percent rv) = Some 0).
Proof.
  split; [reflexivity|]. split; [reflexivity|].
  split; [reflexivity|]. split; [reflexivity|].
  destruct (C3_diff_and_percent withAggregate withoutAggregate
              eq_refl eq_refl)
    as [rv [rg [Hv [_ [_ [_ [Hd [_ [_ [_ [Hp [_ [Hs _]]]]]]]]]]]]].
  exists rv. split; [exact Hv|].
  split; [rewrite Hd; vm_compute; reflexivity|].
  split; [rewrite (Hp eq_refl), Hd; vm_compute; reflexivity|].
  apply Hs; reflexivity.
Defined.

(** C4. The vertex metric of each report is its [scenes.uploadVertexCount]
    when that field is present and non-zero, even if the sum of the
    per-mesh vertex counts differs, and that sum otherwise (the sum of the
    integers, when the counts are non-negative integers that add up to
    less than 2^53); the before value depends on the before report only
    and the after value on the after report only. *)
Theorem C4_vertex_metric (before after : value) :
  wfInspect before = true -> wfInspect after = true ->
  exists r,
    analyzeVertices before after = Ok r /\
    v_before r = VNum (vertexMetric before) /\
    v_after r = VNum (vertexMetric after) /\
    (forall i x,
       uploadVertexCount i = Some x -> isZero x = false ->
       vertexMetric i = x) /\
    (forall i,
       uploadVertexCount i = None \/
       (exists x, uploadVertexCount i = Some x /\ isZero x = true) ->
       vertexMetric i = total "vertices" (meshes i)) /\
    (forall i zs,
       counts "vertices" (meshes i) = map ofZ zs ->
       Forall (fun z => 0 <= z) zs -> sumZ zs < 2 ^ 53 ->
       total "vertices" (meshes i) = ofZ (sumZ zs)).
Proof.
  intros Hb Ha. rewrite (EvalFacts.analyzeVertices_wf _ _ Hb Ha).
  eexists. split; [reflexivity|]. cbn [v_before v_after].
  repeat split.
  - intros i x Hu Hz. unfold vertexMetric. now rewrite Hu, Hz.
  - intros i [Hu|[x [Hu Hz]]]; unfold vertexMetric; rewrite Hu;
      [reflexivity | now rewrite Hz].
  - intros i zs. apply EvalFacts.total_exact.
Qed.

(** The theorem on a report that has the aggregate count (1200, while its
    meshes sum to 1500) against one that has none (sum 1400). *)
Lemma C4_witness :
  wfInspect withAggregate = true /\ wfInspect withoutAggregate = true /\
  uploadVertexCount withAggregate = Some (ofZ 1200) /\
  total "vertices" (meshes withAggregate) = ofZ 1500 /\
  uploadVertexCount withoutAggregate = None /\
  exists r,
    analyzeVertices withAggregate withoutAggregate = Ok r /\
    v_before r = VNum (ofZ 1200) /\ v_after r = VNum (ofZ 1400).
Proof.
  split; [reflexivity|]. split; [reflexivity|].
  split; [reflexivity|]. split; [vm_compute; reflexivity|].
  split; [reflexivity|].
  destruct (C4_vertex_metric withAggregate withoutAggregate eq_refl eq_refl)
    as [r [Hr [Hb [Ha [Hu [Hn _]]]]]].
  exists r. split; [exact Hr|]. split.
  - rewrite Hb, (Hu withAggregate (ofZ 1200)) by reflexivity. reflexivity.
  - rewrite Ha, (Hn withoutAggregate) by (left; reflexivity).
    vm_compute. reflexivity.
Defined.

(** C5. The highlight list is the concatenation, in this order, of at most
    one message from each of four rules: the UV-removal message exactly
    when the UV change is marked as a removal (the UV-bearing count
    decreased); the deduplication message with the decimal before and
    after material counts exactly when the material count decreased; the
    geometry-compression message exactly when [draco] was requested; the
    texture-compression message exactly when [ktx2] was requested and the
    reports have textures.  With [draco] requested and no texture in either
    report the list contains the geometry-compression message and not the
    texture-compression message. *)
Theorem C5_highlight_rules (before after : value) (draco ktx2 : bool) :
  wfInspect before = true -> wfInspect after = true ->
  exists r,
    analyzeComparison before after (config draco ktx2) = Ok r /\
    highlights r =
    ((if includes "删除" (uv_change (uv r)) then [msgUV] else []) ++
     (if Nat.ltb (materialCount after) (materialCount before)
      then [msgDedup (digits (Z.of_nat (materialCount before)))
              (digits (Z.of_nat (materialCount after)))]
      else []) ++
     (if draco then [msgDraco] else []) ++
     (if ktx2 && t_hasTextures (textures r) then [msgKTX2] else []))%list /\
    includes "删除" (uv_change (uv r)) =
      Nat.ltb (uvCount after) (uvCount before) /\
    t_hasTextures (textures r) =
      gtb (textureCount before) zero || gtb (textureCount after) zero /\
    (In msgDraco (highlights r) <-> draco = true) /\
    (In msgKTX2 (highlights r) <->
       ktx2 = true /\ t_hasTextures (textures r) = true) /\
    (draco = true -> textureCount before = zero ->
     textureCount after = zero ->
       In msgDraco (highlights r) /\ ~ In msgKTX2 (highlights r)).
Proof.
  intros Hb Ha.
  destruct (EvalFacts.analyzeComparison_wf before after Hb Ha
              [("draco", VBool draco); ("ktx2", VBool ktx2)])
    as [r [Hr [_ [Hu [_ [_ [_ [Ht Hh]]]]]]]].
  exists r. split; [exact Hr|].
  rewrite (EvalFacts.analyzeUV_wf _ _ Hb Ha) in Hu.
  rewrite (EvalFacts.analyzeTextures_wf _ _ Hb Ha) in Ht.
  injection Hu as Hu. injection Ht as Ht. rewrite <- Hu, <- Ht.
  cbn [uv_change t_hasTextures].
  cbn [field lookup String.eqb Ascii.eqb Bool.eqb truthy] in Hh.
  rewrite Hh, EvalFacts.uvChange_removed.
  set (has := gtb (textureCount before) zero ||
              gtb (textureCount after) zero).
  assert (Hd : In msgDraco
                 (ruleUV (uvCount before) (uvCount after) ++
                  ruleDedup (materialCount before) (materialCount after) ++
                  ruleDraco draco ++ ruleKTX2 ktx2 has)%list
               <-> draco = true).
  { unfold ruleUV, ruleDedup, ruleDraco, ruleKTX2.
    destruct (Nat.ltb (uvCount after) (uvCount before)),
      (Nat.ltb (materialCount after) (materialCount before)),
      draco, (ktx2 && has); cbn [app In]; split; intro H;
      try reflexivity; try discriminate; try tauto;
      repeat (destruct H as [H|H]; try discriminate H; try tauto). }
  assert (Hk : In msgKTX2
                 (ruleUV (uvCount before) (uvCount after) ++
                  ruleDedup (materialCount before) (materialCount after) ++
                  ruleDraco draco ++ ruleKTX2 ktx2 has)%list
               <-> ktx2 = true /\ has = true).
  { unfold ruleUV, ruleDedup, ruleDraco, ruleKTX2.
    destruct (Nat.ltb (uvCount after) (uvCount before)),
      (Nat.ltb (materialCount after) (materialCount before)),
      draco, ktx2, has; cbn [app In andb]; split; intro H;
      try (split; reflexivity); try tauto;
      try (destruct H as [H1 H2]; discriminate);
      repeat (destruct H as [H|H]; try discriminate H; try tauto). }
  split; [reflexivity|]. split; [reflexivity|]. split; [reflexivity|].
  split; [exact Hd|]. split; [exact Hk|].
  intros D Tb Ta. split; [now apply Hd|].
  intro H. apply Hk in H as [_ H]. subst has.
  rewrite Tb, Ta in H. discriminate H.
Qed.

(** The theorem with both compressions requested, two materials before and
    one after. *)
Lemma C5_witness :
  wfInspect withAggregate = true /\ wfInspect withoutAggregate = true /\
  exists r,
    analyzeComparison withAggregate withoutAggregate (config true true) =
    Ok r /\
    highlights r = ["材质通过 dedup 从 2 减少到 1"; msgDraco; msgKTX2].
Proof.
  split; [reflexivity|]. split; [reflexivity|].
  destruct (C5_highlight_rules withAggregate withoutAggregate true true
              eq_refl eq_refl) as [r [Hr [Hh [Hu [Ht _]]]]].
  exists r. split; [exact Hr|].
  rewrite Hh, Hu, Ht. vm_compute. reflexivity.
Defined.

(** C6. The texture count of a report is the length of its texture
    registry ([textures.properties]) when the registry is available,
    otherwise the sum over the materials of the lengths of their texture
    lists (the number of texture references, below 2^53), otherwise zero;
    and when both counts are zero the texture metric is flagged as without
    textures and its status is "not applicable", whether or not [ktx2] was
    requested. *)
Theorem C6_texture_count (before after : value) (draco ktx2 : bool) :
  wfInspect before = true -> wfInspect after = true ->
  exists r,
    analyzeTextures before after (config draco ktx2) = Ok r /\
    t_before r = textureCount before /\
    t_after r = textureCount after /\
    (forall i l, propsOf "textures" i = VArr l ->
       textureCount i = ofNat (List.length l)) /\
    (forall i, isArray (propsOf "textures" i) = false ->
       textureCount i =
       fold_left (fun c l => add c (ofNat (List.length l)))
         (textureLists (items (propsOf "materials" i))) zero) /\
    (forall i, isArray (propsOf "textures" i) = false ->
       Z.of_nat (textureRefs (items (propsOf "materials" i))) < 2 ^ 53 ->
       textureCount i =
       ofNat (textureRefs (items (propsOf "materials" i)))) /\
    (forall i, isArray (propsOf "textures" i) = false ->
       items (propsOf "materials" i) = [] -> textureCount i = zero) /\
    (t_before r = zero -> t_after r = zero ->
       t_hasTextures r = false /\
       t_ktx2Status r = "不适用（无贴图模型）").
Proof.
  intros Hb Ha. unfold config.
  rewrite (EvalFacts.analyzeTextures_wf _ _ Hb Ha).
  eexists. split; [reflexivity|].
  cbn [t_before t_after t_hasTextures t_ktx2Status].
  repeat split.
  - intros i l E. unfold textureCount. now rewrite E.
  - intros i E. unfold textureCount.
    destruct (propsOf "textures" i); try reflexivity. discriminate E.
  - intros i E B. unfold textureCount, textureRefs in *.
    destruct (propsOf "textures" i); try discriminate E;
      apply (EvalFacts.refs_exact _ 0%nat B).
  - intros i E M. unfold textureCount. rewrite M.
    destruct (propsOf "textures" i); try reflexivity. discriminate E.
  - rewrite H, H0. reflexivity.
  - rewrite H, H0. cbn [field lookup String.eqb Ascii.eqb Bool.eqb truthy].
    destruct ktx2; reflexivity.
Qed.

(** The theorem on two reports without textures, with [ktx2] requested. *)
Lemma C6_witness :
  wfInspect bare = true /\ wfInspect textured = true /\
  exists r,
    analyzeTextures bare textured (config false true) = Ok r /\
    t_before r = zero /\ t_after r = zero /\
    t_hasTextures r = false /\ t_ktx2Status r = "不适用（无贴图模型）".
Proof.
  split; [reflexivity|]. split; [reflexivity|].
  destruct (C6_texture_count bare textured false true eq_refl eq_refl)
    as [r [Hr [Hb [Ha [_ [_ [_ [_ Hz]]]]]]]].
  exists r. split; [exact Hr|].
  assert (Zb : t_before r = zero) by (rewrite Hb; reflexivity).
  assert (Za : t_after r = zero) by (rewrite Ha; reflexivity).
  destruct (Hz Zb Za) as [H1 H2]. auto.
Defined.

(** C7. The [preserved] flag of the animation metric is true exactly when
    the before and after track counts are equal and the before count is
    positive.  The report line for a before count of zero is
    ["动画：无动画数据"] (no animation data); a report with tracks before
    that are not all preserved gets the distinct line
    ["动画部分保留（after/before）"]. *)
Theorem C7_animation_preserved (before after : value) :
  wfInspect before = true -> wfInspect after = true ->
  exists r,
    analyzeAnimations before after = Ok r /\
    a_before r = VNum (ofNat (animationCount before)) /\
    a_after r = VNum (ofNat (animationCount after)) /\
    (a_preserved r = true <->
       animationCount before = animationCount after /\
       (0 < animationCount before)%nat) /\
    (animationCount before = 0%nat ->
       a_preserved r = false /\
       printAnimations r = Ok "动画：无动画数据") /\
    ((0 < animationCount before)%nat -> a_preserved r = true ->
       printAnimations r = Ok "动画完整保留") /\
    ((0 < animationCount before)%nat -> a_preserved r = false ->
       printAnimations r =
       Ok ("动画部分保留（" ++ digits (Z.of_nat (animationCount after))
           ++ "/" ++ digits (Z.of_nat (animationCount before)) ++ "）")).
Proof.
  intros Hb Ha. rewrite (EvalFacts.analyzeAnimations_wf _ _ Hb Ha).
  destruct (EvalFacts.animation_bounds _ _ Hb Ha) as [Bb Ba].
  eexists. split; [reflexivity|].
  cbn [a_before a_after a_preserved].
  split; [reflexivity|]. split; [reflexivity|].
  unfold printAnimations, gt. cbn [a_before a_after a_preserved toNumber bind].
  rewrite EvalFacts.gtb_ofNat_zero by exact Bb.
  assert (B32 : Z.of_nat (animationCount before) < 2 ^ 32 /\
                Z.of_nat (animationCount after) < 2 ^ 32).
  { destruct (EvalFacts.wfInspect_inv _ Hb) as [_ [_ [_ [Mb _]]]].
    destruct (EvalFacts.wfInspect_inv _ Ha) as [_ [_ [_ [Ma _]]]].
    unfold animationCount.
    destruct (EvalFacts.listOf_inv _ _ Mb) as [[_ ->]|[l [-> [_ B1]]]];
      destruct (EvalFacts.listOf_inv _ _ Ma) as [[_ ->]|[l' [-> [_ B2]]]];
      cbn [items List.length]; lia. }
  destruct B32 as [B1 B2].
  repeat split.
  - apply andb_prop in H as [H _]. now apply Nat.eqb_eq.
  - apply andb_prop in H as [_ H]. now apply Nat.ltb_lt.
  - intros [E L]. apply andb_true_intro. split;
      [now apply Nat.eqb_eq | now apply Nat.ltb_lt].
  - rewrite H. apply andb_false_r.
  - rewrite H. reflexivity.
  - intros L P. rewrite P.
    destruct (Nat.ltb_spec 0 (animationCount before)); [|lia].
    reflexivity.
  - intros L P. rewrite P.
    destruct (Nat.ltb_spec 0 (animationCount before)); [|lia].
    cbn [bind]. rewrite !EvalFacts.toString_ofNat by assumption.
    reflexivity.
Qed.

(** The theorem on two tracks before and one after. *)
Lemma C7_witness :
  wfInspect twoTracks = true /\ wfInspect oneTrack = true /\
  exists r,
    analyzeAnimations twoTracks oneTrack = Ok r /\
    a_preserved r = false /\
    printAnimations r = Ok "动画部分保留（1/2）".
Proof.
  split; [reflexivity|]. split; [reflexivity|].
  destruct (C7_animation_preserved twoTracks oneTrack eq_refl eq_refl)
    as [r [Hr [_ [_ [Hp [_ [_ Hl]]]]]]].
  exists r. split; [exact Hr|].
  assert (P : a_preserved r = false).
  { destruct (a_preserved r) eqn:E; [|reflexivity].
    destruct (proj1 Hp eq_refl) as [E' _]. vm_compute in E'.
    discriminate E'. }
  split; [exact P|].
  rewrite Hl; [reflexivity | vm_compute; lia | exact P].
Defined.

(** C8. Comparing a report with itself (its vertex and byte totals being
    finite numbers) gives a zero diff and a zero percent on the vertex and
    geometry metrics, an unchanged UV metric, a zero material diff, and
    equal before and after values on the animation and texture metrics;
    the highlight list then holds at most the two compression messages,
    and none of its strings mentions a UV removal, an increase or a
    deduplication. *)
Theorem C8_identity (s : value) (draco ktx2 : bool) :
  wfInspect s = true ->
  isFinite (vertexMetric s) = true -> isFinite (geometrySize s) = true ->
  exists r,
    analyzeComparison s s (config draco ktx2) = Ok r /\
    v_before (vertices r) = v_after (vertices r) /\
    v_diff (vertices r) = zero /\
    v_percent (vertices r) = "0.0%" /\
    uv_before (uv r) = uv_after (uv r) /\
    uv_change (uv r) = "0%" /\
    g_before (geometry r) = g_after (geometry r) /\
    g_diff (geometry r) = zero /\
    g_diffMB (geometry r) = "0.00" /\
    g_percent (geometry r) = "0.0%" /\
    m_before (materials r) = m_after (materials r) /\
    m_diff (materials r) = zero /\
    m_reason (materials r) = EmptyString /\
    a_before (animations r) = a_after (animations r) /\
    t_before (textures r) = t_after (textures r) /\
    highlights r =
    ((if draco then [msgDraco] else []) ++
     (if ktx2 && t_hasTextures (textures r) then [msgKTX2] else []))%list /\
    (forall h, In h (highlights r) ->
       includes "删除" h = false /\ includes "增加" h = false /\
       includes "dedup" h = false).
Proof.
  intros Hs Fv Fg.
  destruct (EvalFacts.analyzeComparison_wf s s Hs Hs
              [("draco", VBool draco); ("ktx2", VBool ktx2)])
    as [r [Hr [Hv [Hu [Hg [Hm [Hn [Ht Hh]]]]]]]].
  exists r. split; [exact Hr|].
  rewrite (EvalFacts.analyzeVertices_wf _ _ Hs Hs) in Hv.
  rewrite (EvalFacts.analyzeUV_wf _ _ Hs Hs) in Hu.
  rewrite (EvalFacts.analyzeGeometry_wf _ _ Hs Hs) in Hg.
  rewrite (EvalFacts.analyzeMaterials_wf _ _ Hs Hs) in Hm.
  rewrite (EvalFacts.analyzeAnimations_wf _ _ Hs Hs) in Hn.
  rewrite (EvalFacts.analyzeTextures_wf _ _ Hs Hs) in Ht.
  injection Hv as Hv. injection Hu as Hu. injection Hg as Hg.
  injection Hm as Hm. injection Hn as Hn. injection Ht as Ht.
  rewrite <- Hv, <- Hu, <- Hg, <- Hm, <- Hn, <- Ht.
  cbn [v_before v_after v_diff v_percent uv_before uv_after uv_change
       g_before g_after g_diff g_diffMB g_percent m_before m_after m_diff
       m_reason a_before a_after t_before t_after t_hasTextures].
  cbn [field lookup String.eqb Ascii.eqb Bool.eqb truthy] in Hh.
  assert (Hrules : highlights r =
                   (ruleDraco draco ++
                    ruleKTX2 ktx2 (gtb (textureCount s) zero ||
                                   gtb (textureCount s) zero))%list).
  { rewrite Hh. unfold ruleUV, ruleDedup. now rewrite !Nat.ltb_irrefl. }
  rewrite !SignFacts.percentText_same, !NumFacts.sub_diag by assumption.
  rewrite Z.sub_diag, Nat.ltb_irrefl.
  repeat split; try reflexivity.
  - unfold uvChange. rewrite Nat.ltb_irrefl.
    destruct (Nat.eqb_spec (uvCount s) 0) as [E|E];
      [rewrite E; reflexivity | now rewrite andb_false_r].
  - exact Hrules.
  - rewrite Hrules in H. unfold ruleDraco, ruleKTX2 in H.
    destruct draco, (ktx2 && _); cbn [app In] in H;
      repeat (destruct H as [<-|H]; [reflexivity|]); contradiction.
  - rewrite Hrules in H. unfold ruleDraco, ruleKTX2 in H.
    destruct draco, (ktx2 && _); cbn [app In] in H;
      repeat (destruct H as [<-|H]; [reflexivity|]); contradiction.
  - rewrite Hrules in H. unfold ruleDraco, ruleKTX2 in H.
    destruct draco, (ktx2 && _); cbn [app In] in H;
      repeat (destruct H as [<-|H]; [reflexivity|]); contradiction.
Qed.

(** The theorem on a report compared with itself. *)
Lemma C8_witness :
  wfInspect withAggregate = true /\
  isFinite (vertexMetric withAggregate) = true /\
  isFinite (geometrySize withAggregate) = true /\
  exists r,
    analyzeComparison withAggregate withAggregate (config true true) = Ok r /\
    v_diff (vertices r) = zero /\ v_percent (vertices r) = "0.0%" /\
    highlights r = [msgDraco].
Proof.
  split; [reflexivity|]. split; [reflexivity|].
  split; [vm_compute; reflexivity|].
  destruct (C8_identity withAggregate true true eq_refl eq_refl)
    as (r & Hr & _ & Hd & Hp & _ & _ & _ & _ & _ & _ & _ & _ & _ & _ & _ &
        Hh & _);
    [vm_compute; reflexivity|].
  exists r. split; [exact Hr|]. split; [exact Hd|]. split; [exact Hp|].
  rewrite Hh.
  assert (Hr' : analyzeComparison withAggregate withAggregate
                  (config true true) = Ok r) by exact Hr.
  vm_compute in Hr'. injection Hr' as <-. reflexivity.
Defined.

(** ** The clean-up contract *)

Section PipelineFacts.

Import Pipeline.

Variables Document NodeIO Inspect Options : Type.
Variable inputFBX outputGLB tempGLB beforeFile : string.
Variable options : Options.
Variable basename : string -> string.
Variable showBanner : M unit.
Variable showConfig : string -> string -> Options -> M unit.
Variable convertFBXToGLB : string -> string -> M unit.
Variable logFileInfo : string -> string -> M unit.
Variable initGLTFTransform : M NodeIO.
Variable readGLBDocument : NodeIO -> string -> M Document.
Variable oraStart : string -> M string.
Variable spinnerSucceed : string -> M unit.
Variable inspectDocument : Document -> M Inspect.
Variable saveInspectData : Inspect -> string -> M unit.
Variable optimizeScene : Document -> M unit.
Variable applyCompression : Document -> Options -> M unit.
Variable writeGLB : NodeIO -> Document -> string -> M unit.
Variable logInfo : string -> string -> M unit.
Variable generateReport : Document -> string -> Inspect -> Options -> M unit.
Variable showSummary : string -> string -> M unit.
Variable spinnerFail : string -> World -> World.
Variable showError : string -> World -> World.

Lemma mem_remove (p : string) (l : list string) :
  mem p (remove p l) = false.
Proof.
  unfold mem, remove. induction l as [|x l IH]; [reflexivity|].
  cbn [List.filter]. destruct (String.eqb p x) eqn:E; cbn [negb].
  - exact IH.
  - cbn [existsb]. now rewrite E, IH.
Qed.

(** [cleanupTempFile] returns for every path and every file system. *)
Lemma cleanupTempFile_total (path : string) (w : World) :
  exists cleaned w',
    cleanupTempFile path w = (Returned cleaned, w') /\
    (cleaned = true <->
       mem path (files (fs w)) = true /\
       mem path (locked (fs w)) = false) /\
    (cleaned = true -> mem path (files (fs w')) = false) /\
    (cleaned = false -> w' = w).
Proof.
  unfold cleanupTempFile, seq, existsSync, tryCatch, unlinkSync, ret.
  cbv beta.
  destruct (mem path (files (fs w))) eqn:E; cbv beta iota; rewrite ?E;
    cbn [negb].
  - destruct (mem path (locked (fs w))) eqn:L.
    + exists false, w. split; [reflexivity|]. split; [|split].
      * split; [discriminate | intros [_ H]; discriminate H].
      * discriminate.
      * reflexivity.
    + eexists true, _. split; [reflexivity|]. split; [|split].
      * split; auto.
      * intros _. cbn [fs files]. apply mem_remove.
      * discriminate.
  - exists false, w. split; [reflexivity|]. split; [|split].
    + split; [discriminate | intros [H _]; discriminate H].
    + discriminate.
    + reflexivity.
Qed.

Local Notation "'run'" :=
  (main Document NodeIO Inspect Options inputFBX outputGLB tempGLB beforeFile
     options basename showBanner showConfig convertFBXToGLB logFileInfo
     initGLTFTransform readGLBDocument oraStart spinnerSucceed
     inspectDocument saveInspectData optimizeScene applyCompression writeGLB
     logInfo generateReport showSummary spinnerFail showError).

Local Notation "'tryBlock'" :=
  (stages Document NodeIO Inspect Options inputFBX outputGLB tempGLB
     beforeFile options basename showBanner showConfig convertFBXToGLB
     logFileInfo initGLTFTransform readGLBDocument oraStart spinnerSucceed
     inspectDocument saveInspectData optimizeScene applyCompression writeGLB
     logInfo generateReport showSummary).

(** C9. [cleanupTempFile] never raises: for every path and every state of
    the file system it returns, with [true] exactly when the file existed
    and its removal succeeded, and [false] (leaving everything as it was)
    when the file was absent or could not be removed.  Whatever the stages
    do, [main] ends with an exit code: 0 when no stage threw, and
    otherwise 1, after the console calls of the [catch] block and the
    clean-up of the transient file, which is then absent unless it could
    not be removed. *)
Theorem C9_cleanup_never_raises :
  (forall path w,
     exists cleaned w',
       cleanupTempFile path w = (Returned cleaned, w') /\
       (cleaned = true <->
          mem path (files (fs w)) = true /\
          mem path (locked (fs w)) = false) /\
       (cleaned = true -> mem path (files (fs w')) = false) /\
       (cleaned = false -> w' = w)) /\
  (forall w,
     exists code w',
       run w = (Returned code, w') /\
       match tryBlock w with
       | (Returned c, w1) => code = 0 /\ c = 0 /\ w' = w1
       | (Threw err, w1) =>
           code = 1 /\
           w' = snd (cleanupTempFile tempGLB
                       (reportFailure spinnerFail showError err w1)) /\
           (mem tempGLB (files (fs w')) = false \/
            mem tempGLB (locked (fs w')) = true)
       end).
Proof.
  split; [apply cleanupTempFile_total|].
  intro w. unfold main, tryCatch.
  destruct (tryBlock w) as [[c|err] w1] eqn:E.
  - exists c, w1. split; [reflexivity|].
    assert (c = 0); [|now subst].
    revert E. unfold stages, seq, ret, assignSpinner.
    repeat match goal with
           | |- context [match ?m ?x with (_, _) => _ end] =>
               destruct (m x) as [[?|?] ?]
           | |- context [if ?b then _ else _] => destruct b
           end;
      intro E; try discriminate E; now injection E.
  - unfold recover, seq, ret.
    destruct (cleanupTempFile_total tempGLB
                (reportFailure spinnerFail showError err w1))
      as [cleaned [w2 [Hc [Hiff [Hgone Hsame]]]]].
    rewrite Hc. exists 1, w2. split; [reflexivity|].
    split; [reflexivity|]. split; [reflexivity|].
    destruct cleaned.
    + left. now apply Hgone.
    + rewrite (Hsame eq_refl).
      destruct (mem tempGLB (files (fs _))) eqn:F; [|now left].
      destruct (mem tempGLB (locked (fs _))) eqn:L; [now right|].
      assert (false = true) by (apply Hiff; split; reflexivity).
      discriminate.
Qed.

End PipelineFacts.

(** C10, the claim as stated fails: a report whose [meshes.properties] is an
    object keyed by mesh name, not an array, makes the mesh extractors and
    the whole analysis raise a [TypeError] ([reduce] and [filter] are not
    functions of that object). *)
Lemma C10_counterexample :
  isObject keyedMeshes = true /\
  isArray (propsOf "meshes" keyedMeshes) = false /\
  getTotalVertices keyedMeshes = TypeError /\
  countMeshesWithUV keyedMeshes = TypeError /\
  getTotalGeometrySize keyedMeshes = TypeError /\
  analyzeComparison bare keyedMeshes VUndefined = TypeError /\
  analyzeComparison keyedMeshes bare VUndefined = TypeError.
Proof. repeat split; vm_compute; reflexivity. Qed.

(** ** The analysis on accepted reports *)

Module AcceptFacts.

Import Shape.

Lemma numberOrFalsy_or (v : value) :
  numberOrFalsy v = true ->
  exists x, orElse v (Ok (VNum zero)) = Ok (VNum x).
Proof.
  intro H. unfold orElse. destruct (truthy v) eqn:T; [|eauto].
  unfold numberOrFalsy in H. rewrite T, orb_false_r in H.
  destruct v; try discriminate H. eauto.
Qed.

Lemma or_zero (v : value) :
  exists w, orElse v (Ok (VNum zero)) = Ok w.
Proof. unfold orElse. destruct (truthy v); eauto. Qed.

Lemma okMesh_inv (m : value) :
  okMesh m = true ->
  exists fs,
    m = VObj fs /\
    numberOrFalsy (field "vertices" fs) = true /\
    numberOrFalsy (field "size" fs) = true /\
    (nullish (field "attributes" fs) = true \/
     exists l, field "attributes" fs = VArr l /\ forallb isString l = true).
Proof.
  destruct m as [| | | | | |fs]; try discriminate. cbn [okMesh]. intro H.
  apply andb_prop in H as [H H3]. apply andb_prop in H as [H1 H2].
  exists fs. repeat split; try assumption.
  apply orb_prop in H3 as [H3|H3]; [now left|right].
  destruct (field "attributes" fs); try discriminate H3. eauto.
Qed.

Lemma okMeshes_inv (p : value) :
  okMeshes p = true ->
  truthy p = false \/ exists l, p = VArr l /\ forallb okMesh l = true.
Proof.
  unfold okMeshes. intro H. apply orb_prop in H as [H|H].
  - left. now apply negb_true_iff in H.
  - right. destruct p; try discriminate H. eauto.
Qed.

Lemma addField_ok (key : string) (s : number) (fs : list (string * value)) :
  numberOrFalsy (field key fs) = true ->
  exists s', addField key (VNum s) (VObj fs) = Ok (VNum s').
Proof.
  intro H. unfold addField. cbn [member bind].
  destruct (numberOrFalsy_or _ H) as [x ->]. cbn [bind].
  unfold plus, arith. cbn [toNumber bind]. eauto.
Qed.

Lemma sum_ok (key : string) (l : list value) :
  key = "vertices" \/ key = "size" ->
  forallb okMesh l = true ->
  forall s, exists s', foldM (addField key) l (VNum s) = Ok (VNum s').
Proof.
  intros Hk. induction l as [|m l IH]; intros H s; [cbn [foldM]; eauto|].
  cbn [forallb] in H. apply andb_prop in H as [Hm Hl].
  destruct (okMesh_inv m Hm) as [fs [-> [Hv [Hs _]]]].
  assert (Hf : numberOrFalsy (field key fs) = true)
    by (destruct Hk as [->| ->]; assumption).
  cbn [foldM]. destruct (addField_ok key s fs Hf) as [s' ->]. cbn [bind].
  now apply IH.
Qed.

Lemma total_ok (key : string) (fs : list (string * value)) :
  key = "vertices" \/ key = "size" ->
  okMeshes (propsOf "meshes" (VObj fs)) = true ->
  exists x,
    (p <- properties "meshes" (VObj fs) ;;
     if negb (truthy p) then Ok (VNum zero)
     else reduce (addField key) (VNum zero) p) = Ok (VNum x).
Proof.
  intros Hk H. rewrite EvalFacts.properties_obj. cbn [bind].
  destruct (okMeshes_inv _ H) as [Hf|[l [-> Hl]]].
  - rewrite Hf. cbn [negb]. eauto.
  - cbn [truthy negb reduce]. now apply sum_ok.
Qed.

Lemma some_ok (l : list value) :
  forallb isString l = true ->
  exists b, someM (startsWith "TEXCOORD") l = Ok b.
Proof.
  induction l as [|a l IH]; intro H; [cbn [someM]; eauto|].
  cbn [forallb] in H. apply andb_prop in H as [Ha Hl].
  destruct a; try discriminate Ha. cbn [someM startsWith bind truthy].
  destruct (String.prefix "TEXCOORD" s); [eauto | now apply IH].
Qed.

Lemma hasUV_ok (m : value) :
  okMesh m = true -> exists v, hasUV m = Ok v.
Proof.
  intro H. destruct (okMesh_inv m H) as [fs [-> [_ [_ [Hn|[l [E Hl]]]]]]];
    unfold hasUV; cbn [member bind].
  - destruct (field "attributes" fs); try discriminate Hn;
      cbn [optSome]; eauto.
  - rewrite E. cbn [optSome]. destruct (some_ok l Hl) as [b ->].
    cbn [bind]. eauto.
Qed.

Lemma filter_ok (l : list value) :
  forallb okMesh l = true -> exists kept, filterM hasUV l = Ok kept.
Proof.
  induction l as [|m l IH]; intro H; [cbn [filterM]; eauto|].
  cbn [forallb] in H. apply andb_prop in H as [Hm Hl].
  cbn [filterM]. destruct (hasUV_ok m Hm) as [v ->].
  destruct (IH Hl) as [kept ->]. cbn [bind]. eauto.
Qed.

Lemma countMeshesWithUV_ok (fs : list (string * value)) :
  okMeshes (propsOf "meshes" (VObj fs)) = true ->
  exists n, countMeshesWithUV (VObj fs) = Ok n.
Proof.
  intro H. unfold countMeshesWithUV. rewrite EvalFacts.properties_obj.
  cbn [bind]. destruct (okMeshes_inv _ H) as [Hf|[l [-> Hl]]].
  - rewrite Hf. cbn [negb]. eauto.
  - cbn [truthy negb filter]. destruct (filter_ok l Hl) as [kept ->].
    cbn [bind]. eauto.
Qed.

Lemma getMeshCount_ok (fs : list (string * value)) :
  okMeshes (propsOf "meshes" (VObj fs)) = true ->
  exists v, getMeshCount (VObj fs) = Ok v.
Proof.
  intro H. unfold getMeshCount, propertiesLength.
  rewrite EvalFacts.properties_obj. cbn [bind].
  destruct (okMeshes_inv _ H) as [Hf|[l [-> Hl]]].
  - rewrite (EvalFacts.falsy_length _ Hf). eauto.
  - cbn [optMember member bind]. apply or_zero.
Qed.

Lemma getUploadVertexCount_ok (fs : list (string * value)) :
  okScenes (propsOf "scenes" (VObj fs)) = true ->
  exists x, getUploadVertexCount (VObj fs) = Ok (VNum x).
Proof.
  intro H. unfold getUploadVertexCount. rewrite EvalFacts.properties_obj.
  cbn [bind]. unfold okScenes in H. apply orb_prop in H as [H|H].
  - apply negb_true_iff in H. rewrite H. cbn [bind]. eauto.
  - destruct (propsOf "scenes" (VObj fs)) as [| | | | |l|];
      try discriminate H.
    destruct l as [|s rest]; [vm_compute; eauto|].
    destruct s as [| | | | | |ss]; try discriminate H.
    cbn [truthy member]. unfold gt.
    replace (String.eqb "length" "length") with true by reflexivity.
    cbn [bind toNumber].
    match goal with |- context [gtb ?n zero] => destruct (gtb n zero) end;
      [|eauto].
    cbn [first nth member bind]. now apply numberOrFalsy_or.
Qed.

Lemma analyzeVertices_ok (bf af : list (string * value)) :
  accepted (VObj bf) = true -> accepted (VObj af) = true ->
  exists r, analyzeVertices (VObj bf) (VObj af) = Ok r.
Proof.
  unfold accepted. cbn [isObject andb]. intros Hb Ha.
  apply andb_prop in Hb as [Hb _]. apply andb_prop in Hb as [Hb Sb].
  apply andb_prop in Hb as [Mb _].
  apply andb_prop in Ha as [Ha _]. apply andb_prop in Ha as [Ha Sa].
  apply andb_prop in Ha as [Ma _].
  unfold analyzeVertices.
  destruct (getUploadVertexCount_ok bf Sb) as [ub ->]. cbn [bind].
  assert (Tb : exists x,
             orElse (VNum ub) (getTotalVertices (VObj bf)) = Ok (VNum x)).
  { unfold orElse. destruct (truthy (VNum ub)); [eauto|].
    apply (total_ok "vertices"); auto. }
  destruct Tb as [x ->]. cbn [bind].
  destruct (getUploadVertexCount_ok af Sa) as [ua ->]. cbn [bind].
  assert (Ta : exists y,
             orElse (VNum ua) (getTotalVertices (VObj af)) = Ok (VNum y)).
  { unfold orElse. destruct (truthy (VNum ua)); [eauto|].
    apply (total_ok "vertices"); auto. }
  destruct Ta as [y ->]. cbn [bind].
  unfold minus, arith. cbn [toNumber bind].
  unfold percentOf, gt, over, arith. cbn [toNumber bind].
  destruct (gtb x zero); cbn [bind]; eauto.
Qed.

Lemma analyzeUV_ok (bf af : list (string * value)) :
  accepted (VObj bf) = true -> accepted (VObj af) = true ->
  exists r, analyzeUV (VObj bf) (VObj af) = Ok r.
Proof.
  unfold accepted. cbn [isObject andb]. intros Hb Ha.
  apply andb_prop in Hb as [Hb _]. apply andb_prop in Hb as [Hb _].
  apply andb_prop in Hb as [Mb _].
  apply andb_prop in Ha as [Ha _]. apply andb_prop in Ha as [Ha _].
  apply andb_prop in Ha as [Ma _].
  unfold analyzeUV.
  destruct (countMeshesWithUV_ok bf Mb) as [nb ->].
  destruct (countMeshesWithUV_ok af Ma) as [na ->].
  destruct (getMeshCount_ok bf Mb) as [t ->]. cbn [bind]. eauto.
Qed.

Lemma analyzeGeometry_ok (bf af : list (string * value)) :
  accepted (VObj bf) = true -> accepted (VObj af) = true ->
  exists r, analyzeGeometry (VObj bf) (VObj af) = Ok r.
Proof.
  unfold accepted. cbn [isObject andb]. intros Hb Ha.
  apply andb_prop in Hb as [Hb _]. apply andb_prop in Hb as [Hb _].
  apply andb_prop in Hb as [Mb _].
  apply andb_prop in Ha as [Ha _]. apply andb_prop in Ha as [Ha _].
  apply andb_prop in Ha as [Ma _].
  unfold analyzeGeometry.
  destruct (total_ok "size" bf (or_intror eq_refl) Mb) as [x Ex].
  destruct (total_ok "size" af (or_intror eq_refl) Ma) as [y Ey].
  unfold getTotalGeometrySize. rewrite Ex, Ey. cbn [bind].
  unfold minus, arith. cbn [toNumber bind].
  unfold percentOf, gt, over, arith. cbn [toNumber bind].
  destruct (gtb x zero); cbn [bind]; rewrite !EvalFacts.megabytes_number;
    cbn [bind]; eauto.
Qed.

Lemma getMaterialCount_ok (fs : list (string * value)) :
  okMaterials (propsOf "materials" (VObj fs)) = true ->
  exists n,
    getMaterialCount (VObj fs) = Ok (VNum (ofNat n)) /\ Z.of_nat n < 2 ^ 32.
Proof.
  intro H. unfold getMaterialCount.
  rewrite (EvalFacts.propertiesLength_wf isObject) by (auto; reflexivity).
  eexists. split; [reflexivity|].
  destruct (EvalFacts.listOf_inv _ _ H) as [[_ ->]|[l [-> [_ Hl]]]];
    [cbn; lia | exact Hl].
Qed.

Lemma analyzeMaterials_ok (bf af : list (string * value)) :
  accepted (VObj bf) = true -> accepted (VObj af) = true ->
  exists r nb na,
    analyzeMaterials (VObj bf) (VObj af) = Ok r /\
    m_before r = VNum (ofNat nb) /\ m_after r = VNum (ofNat na) /\
    Z.of_nat nb < 2 ^ 32 /\ Z.of_nat na < 2 ^ 32.
Proof.
  unfold accepted. cbn [isObject andb]. intros Hb Ha.
  apply andb_prop in Hb as [Hb _]. apply andb_prop in Hb as [Hb _].
  apply andb_prop in Hb as [_ Mb].
  apply andb_prop in Ha as [Ha _]. apply andb_prop in Ha as [Ha _].
  apply andb_prop in Ha as [_ Ma].
  unfold analyzeMaterials.
  destruct (getMaterialCount_ok bf Mb) as [nb [-> Bb]].
  destruct (getMaterialCount_ok af Ma) as [na [-> Ba]]. cbn [bind].
  unfold minus, arith. cbn [toNumber bind].
  eexists. exists nb, na. split; [reflexivity|]. cbn [m_before m_after].
  auto.
Qed.

Lemma animations_ok (fs : list (string * value)) :
  okAnimations (propsOf "animations" (VObj fs)) = true ->
  exists x, propertiesLength "animations" (VObj fs) = Ok (VNum x).
Proof.
  intro H. unfold propertiesLength. rewrite EvalFacts.properties_obj.
  cbn [bind].
  destruct (propsOf "animations" (VObj fs)) as [| |b|x|s|l|ps];
    cbn [optMember member bind String.eqb Ascii.eqb Bool.eqb];
    try (cbn [orElse truthy]; eauto; fail).
  - unfold orElse. destruct (truthy _); eauto.
  - unfold orElse. destruct (truthy _); eauto.
  - now apply numberOrFalsy_or.
Qed.

Lemma analyzeAnimations_ok (bf af : list (string * value)) :
  accepted (VObj bf) = true -> accepted (VObj af) = true ->
  exists r, analyzeAnimations (VObj bf) (VObj af) = Ok r.
Proof.
  unfold accepted. cbn [isObject andb]. intros Hb Ha.
  apply andb_prop in Hb as [_ Ab]. apply andb_prop in Ha as [_ Aa].
  unfold analyzeAnimations.
  destruct (animations_ok bf Ab) as [x ->].
  destruct (animations_ok af Aa) as [y ->]. cbn [bind strictEq].
  destruct (Num.eqb x y); unfold gt; cbn [toNumber bind]; eauto.
Qed.

Lemma textures_ok (l : list value) :
  forallb isObject l = true ->
  forall n, exists n', foldM addTextures l n = Ok n'.
Proof.
  induction l as [|m l IH]; intros H n; [cbn [foldM]; eauto|].
  cbn [forallb] in H. apply andb_prop in H as [Hm Hl].
  destruct m as [| | | | | |ms]; try discriminate Hm.
  cbn [foldM]. unfold addTextures at 1. cbn [member bind].
  destruct (truthy (field "textures" ms) && isArray (field "textures" ms));
    cbn [bind]; now apply IH.
Qed.

Lemma countTextures_ok (fs : list (string * value)) :
  okMaterials (propsOf "materials" (VObj fs)) = true ->
  exists n, countTextures (VObj fs) = Ok n.
Proof.
  intro H. unfold countTextures. rewrite !EvalFacts.properties_obj.
  cbn [bind].
  destruct (truthy (propsOf "textures" (VObj fs)) &&
            isArray (propsOf "textures" (VObj fs))); [eauto|].
  destruct (EvalFacts.listOf_inv _ _ H) as [[Hf _]|[l [-> [Hl _]]]].
  - rewrite Hf. eauto.
  - cbn [truthy forEach]. now apply textures_ok.
Qed.

Lemma member_ok (v : value) (k : string) :
  nullish v = false -> exists w, member v k = Ok w.
Proof. destruct v; try discriminate; intros _; cbn [member]; eauto. Qed.

Lemma analyzeTextures_ok (bf af : list (string * value)) (options : value) :
  accepted (VObj bf) = true -> accepted (VObj af) = true ->
  nullish options = false ->
  exists r, analyzeTextures (VObj bf) (VObj af) options = Ok r.
Proof.
  unfold accepted. cbn [isObject andb]. intros Hb Ha Ho.
  apply andb_prop in Hb as [Hb _]. apply andb_prop in Hb as [Hb _].
  apply andb_prop in Hb as [_ Mb].
  apply andb_prop in Ha as [Ha _]. apply andb_prop in Ha as [Ha _].
  apply andb_prop in Ha as [_ Ma].
  unfold analyzeTextures.
  destruct (countTextures_ok bf Mb) as [tb ->].
  destruct (countTextures_ok af Ma) as [ta ->].
  destruct (member_ok options "ktx2" Ho) as [k ->]. cbn [bind]. eauto.
Qed.

Lemma generateHighlights_ok (us : UVAnalysis) (ms : MaterialAnalysis)
  (ts : TextureAnalysis) (options : value) (nb na : nat) :
  m_before ms = VNum (ofNat nb) -> m_after ms = VNum (ofNat na) ->
  Z.of_nat nb < 2 ^ 32 -> Z.of_nat na < 2 ^ 32 ->
  nullish options = false ->
  exists hs, generateHighlights us ms ts options = Ok hs.
Proof.
  intros Eb Ea Bb Ba Ho. unfold generateHighlights.
  rewrite Eb, Ea, !EvalFacts.toString_ofNat by assumption.
  destruct (member_ok options "draco" Ho) as [d ->].
  destruct (member_ok options "ktx2" Ho) as [k ->].
  destruct (ltb (m_diff ms) zero); cbn [bind]; eauto.
Qed.

Lemma analyzeComparison_ok (before other options : value) :
  accepted before = true -> accepted other = true ->
  options = VUndefined \/ nullish options = false ->
  exists r, analyzeComparison before other options = Ok r.
Proof.
  intros Hb Ha Ho.
  assert (Ob : isObject before = true).
  { unfold accepted in Hb. now destruct (isObject before). }
  assert (Oa : isObject other = true).
  { unfold accepted in Ha. now destruct (isObject other). }
  destruct (EvalFacts.wf_object _ Ob) as [bf ->].
  destruct (EvalFacts.wf_object _ Oa) as [af ->].
  unfold analyzeComparison.
  set (o := match options with VUndefined => VObj [] | _ => options end).
  assert (Hn : nullish o = false).
  { unfold o. destruct Ho as [->|Ho]; [reflexivity|].
    destruct options; try reflexivity; discriminate Ho. }
  destruct (analyzeVertices_ok bf af Hb Ha) as [vs ->].
  destruct (analyzeUV_ok bf af Hb Ha) as [us ->].
  destruct (analyzeGeometry_ok bf af Hb Ha) as [gs ->].
  destruct (analyzeMaterials_ok bf af Hb Ha)
    as [ms [nb [na [-> [Eb [Ea [Bb Ba]]]]]]].
  destruct (analyzeAnimations_ok bf af Hb Ha) as [ans ->].
  destruct (analyzeTextures_ok bf af o Hb Ha Hn) as [ts ->].
  cbn [bind].
  destruct (generateHighlights_ok us ms ts o nb na Eb Ea Bb Ba Hn)
    as [hs ->].
  cbn [bind]. eauto.
Qed.

(** An inspection report is accepted. *)
Lemma wfInspect_accepted (i : value) :
  wfInspect i = true -> accepted i = true.
Proof.
  intro H. destruct (EvalFacts.wfInspect_inv i H)
    as [Oi [Ms [Mt [An [Sc Tx]]]]].
  unfold accepted. rewrite Oi. cbn [andb].
  repeat (apply andb_true_intro; split).
  - unfold okMeshes. unfold listOf in Ms.
    apply orb_prop in Ms as [Ms|Ms]; [now rewrite Ms|].
    destruct (EvalFacts.arrayOf_inv _ _ Ms) as [l [-> [Hl _]]].
    rewrite orb_true_iff. right.
    apply forallb_forall. intros m Hm.
    rewrite forallb_forall in Hl. specialize (Hl m Hm).
    destruct m as [| | | | | |ms]; try discriminate Hl.
    cbn [wfMesh okMesh] in *.
    apply andb_prop in Hl as [Hl H3]. apply andb_prop in Hl as [H1 H2].
    assert (C : forall v, count v = true -> numberOrFalsy v = true).
    { intros v Hv. unfold numberOrFalsy.
      destruct v; try exact Hv; reflexivity. }
    rewrite (C _ H1), (C _ H2). cbn [andb].
    apply orb_prop in H3 as [H3|H3]; [now rewrite H3|].
    destruct (EvalFacts.arrayOf_inv _ _ H3) as [a [-> [Hs _]]].
    cbn [stringsOf]. rewrite Hs. apply orb_true_r.
  - unfold okMaterials, listOf in *.
    apply orb_prop in Mt as [Mt|Mt]; [now rewrite Mt|].
    destruct (EvalFacts.arrayOf_inv _ _ Mt) as [l [-> [Hl Bl]]].
    rewrite orb_true_iff. right. cbn [arrayOf].
    apply andb_true_intro. split; [|now apply Z.ltb_lt].
    apply forallb_forall. intros m Hm.
    rewrite forallb_forall in Hl. specialize (Hl m Hm).
    destruct m; try discriminate Hl. reflexivity.
  - unfold okScenes, wfScenes in *.
    apply orb_prop in Sc as [Sc|Sc]; [now rewrite Sc|].
    rewrite orb_true_iff. right.
    destruct (propsOf "scenes" i) as [| | | | |l|]; try discriminate Sc.
    destruct l as [|s rest]; [reflexivity|].
    apply andb_prop in Sc as [Sc _].
    destruct s as [| | | | | |ss]; try discriminate Sc.
    cbn [wfScene] in Sc. unfold numberOrFalsy.
    destruct (field "uploadVertexCount" ss); try exact Sc; reflexivity.
  - unfold okAnimations, listOf in *.
    destruct (propsOf "animations" i); try reflexivity.
    discriminate An.
Qed.

End AcceptFacts.

(** The condition on the attributes of a mesh cannot be dropped: a mesh
    whose [attributes] is a text makes the count of UV-bearing meshes, and
    with it the analysis, raise ([some] is not a function of a text). *)
Lemma attributes_text_raises :
  Shape.okMeshes (Shape.propsOf "meshes" textAttribute) = false /\
  getTotalVertices textAttribute = Ok (VNum (ofZ 3)) /\
  countMeshesWithUV textAttribute = TypeError /\
  analyzeComparison bare textAttribute VUndefined = TypeError.
Proof. repeat split; vm_compute; reflexivity. Qed.

(** C10, amended. [analyzeComparison] returns normally for every pair of
    accepted reports and for options that are absent or any value other
    than [null].  A report is accepted when it is an object in which
    [meshes.properties] is missing, falsy or an array of records whose
    [vertices] and [size] are numbers or falsy and whose [attributes] is
    nullish or an array of strings; [materials.properties] is missing,
    falsy or an array of records; [scenes.properties] is missing, falsy or
    an array that is empty or starts with a record whose
    [uploadVertexCount] is a number or falsy; [animations.properties] is
    any value, a record found there having a [length] field that is a
    number or falsy; [textures.properties] is any value.  On every object,
    the extractors yield 0 instead of raising when the fields they read
    are absent or falsy. *)
Theorem C10_missing_sections (before after options : value) :
  accepted before = true -> accepted after = true ->
  options = VUndefined \/ nullish options = false ->
  (exists r, analyzeComparison before after options = Ok r) /\
  (forall i,
     isObject i = true -> truthy (propsOf "meshes" i) = false ->
     getTotalVertices i = Ok (VNum zero) /\
     countMeshesWithUV i = Ok zero /\
     getMeshCount i = Ok (VNum zero) /\
     getTotalGeometrySize i = Ok (VNum zero)) /\
  (forall i,
     isObject i = true -> truthy (propsOf "materials" i) = false ->
     getMaterialCount i = Ok (VNum zero)) /\
  (forall i,
     isObject i = true -> isArray (propsOf "textures" i) = false ->
     truthy (propsOf "materials" i) = false ->
     countTextures i = Ok zero) /\
  (forall i,
     isObject i = true -> truthy (propsOf "scenes" i) = false ->
     getUploadVertexCount i = Ok (VNum zero)).
Proof.
  intros Hb Ha Ho. split; [|split; [|split; [|split]]].
  - now apply AcceptFacts.analyzeComparison_ok.
  - intros i Hi Hf. destruct (EvalFacts.wf_object i Hi) as [fs ->].
    unfold getTotalVertices, countMeshesWithUV, getMeshCount,
      getTotalGeometrySize, propertiesLength.
    rewrite !EvalFacts.properties_obj. cbn [bind]. rewrite Hf.
    cbn [negb]. rewrite (EvalFacts.falsy_length _ Hf). auto.
  - intros i Hi Hf. destruct (EvalFacts.wf_object i Hi) as [fs ->].
    unfold getMaterialCount, propertiesLength.
    rewrite !EvalFacts.properties_obj. cbn [bind].
    apply (EvalFacts.falsy_length _ Hf).
  - intros i Hi Ht Hf. destruct (EvalFacts.wf_object i Hi) as [fs ->].
    unfold countTextures.
    rewrite !EvalFacts.properties_obj. cbn [bind].
    rewrite Ht, andb_false_r, Hf. reflexivity.
  - intros i Hi Hf. destruct (EvalFacts.wf_object i Hi) as [fs ->].
    unfold getUploadVertexCount.
    rewrite !EvalFacts.properties_obj. cbn [bind]. now rewrite Hf.
Qed.

(** The theorem on an empty object against a report whose animations are
    keyed by name and whose texture registry is a number, with a text as
    the options. *)
Lemma C10_witness :
  accepted (VObj []) = true /\ accepted keyedAnimations = true /\
  wfInspect keyedAnimations = false /\
  (exists r,
     analyzeComparison (VObj []) keyedAnimations (VStr "fast") = Ok r) /\
  getTotalVertices (VObj []) = Ok (VNum zero) /\
  countTextures (VObj []) = Ok zero /\
  getUploadVertexCount keyedAnimations = Ok (VNum zero).
Proof.
  split; [reflexivity|]. split; [reflexivity|]. split; [reflexivity|].
  destruct (C10_missing_sections (VObj []) keyedAnimations (VStr "fast")
              eq_refl eq_refl (or_intror eq_refl))
    as [Hr [Hm [_ [Ht Hs]]]].
  split; [exact Hr|]. split; [|split].
  - now apply (Hm (VObj [])).
  - now apply (Ht (VObj [])).
  - now apply (Hs keyedAnimations).
Defined.

(** * Further properties of the code *)

(** ** The persisted comparison record *)

Module RecordFacts.

Import Persisted.

Lemma lookup_assign (k k' : string) (v : value) (fs : list (string * value)) :
  lookup k (assign k' v fs) =
  if String.eqb k k' then Some v else lookup k fs.
Proof.
  induction fs as [|[k0 v0] fs IH]; [reflexivity|].
  cbn [assign]. destruct (String.eqb k' k0) eqn:E0.
  - apply String.eqb_eq in E0. subst k0. cbn [lookup].
    destruct (String.eqb k k'); reflexivity.
  - cbn [lookup]. rewrite IH.
    destruct (String.eqb k k0) eqn:E1; [|reflexivity].
    apply String.eqb_eq in E1. subst k0.
    now rewrite String.eqb_sym, E0.
Qed.

Lemma lookup_assignEntry (k k' : string) (e : option value)
  (fs : list (string * value)) :
  lookup k' fs = None ->
  lookup k (assignEntry k' e fs) =
  if String.eqb k k' then e else lookup k fs.
Proof.
  intro H. destruct e as [v|]; cbn [assignEntry].
  - apply lookup_assign.
  - destruct (String.eqb k k') eqn:E; [|reflexivity].
    apply String.eqb_eq in E. now subst k'.
Qed.

Lemma percentChange_number (diff x : number) :
  percentChange diff (VNum x) = Ok (percentChangeText diff x).
Proof.
  unfold percentChange, percentChangeText, gt, over, arith.
  cbn [toNumber bind]. destruct (gtb x zero); reflexivity.
Qed.

(** One call of the callback on two objects. *)
Lemma compareKey_obj (bf af : list (string * value)) (c : Comparison)
  (key : string) :
  compareKey (VObj bf) (VObj af) c key =
  Ok {| c_summary :=
          assignEntry key (summaryEntry (field key bf) (field key af))
            (c_summary c);
        c_details :=
          assignEntry key (detailsEntry (field key bf) (field key af))
            (c_details c) |}.
Proof.
  unfold compareKey, summaryEntry, detailsEntry. cbn [member bind].
  destruct c as [s d]. cbn [c_summary c_details].
  destruct (field key bf) as [| |b|x|t|l|gs];
    destruct (field key af) as [| |b'|y|t'|l'|gs'];
    cbn [truthy bind typeofNumber typeofObject andb isStructure
           assignEntry];
    repeat (match goal with
            | |- context [if ?c then _ else _] => destruct c
            end;
            cbn [bind andb assignEntry typeofNumber typeofObject]);
    try reflexivity;
    unfold minus, arith; cbn [toNumber bind];
    rewrite percentChange_number; reflexivity.
Qed.

Lemma byteLength_sized (v : value) :
  isStructure v = true ->
  typeofNumber (Shape.fieldOf "byteLength" v) ||
  negb (truthy (Shape.fieldOf "byteLength" v)) = true ->
  byteLength v = Ok (VNum (sizeOf v)).
Proof.
  unfold byteLength, sizeOf.
  destruct v as [| |b|x|t|l|gs]; try discriminate; intros _ H.
  - reflexivity.
  - cbn [member bind Shape.fieldOf] in *. unfold orElse.
    destruct (field "byteLength" gs) as [| |b|x|t|l|hs];
      cbn [truthy typeofNumber orb negb Shape.countOf] in *;
      try reflexivity; try discriminate.
    + destruct b; [discriminate | reflexivity].
    + destruct (isZero x || isNaN x); reflexivity.
    + destruct (String.eqb t EmptyString); [reflexivity | discriminate].
Qed.

(** The block of the buffer sizes on two objects. *)
Lemma compareBuffers_obj (bf af : list (string * value)) (c : Comparison) :
  sized bf = true -> sized af = true ->
  compareBuffers (VObj bf) (VObj af) c =
  Ok {| c_summary :=
          assignEntry "bufferSize"
            (sizeEntry (field "buffers" bf) (field "buffers" af))
            (c_summary c);
        c_details := c_details c |}.
Proof.
  unfold sized. intros Hb Ha. unfold compareBuffers, sizeEntry.
  cbn [member bind]. destruct c as [s d]. cbn [c_summary c_details].
  destruct (isStructure (field "buffers" bf)) eqn:Sb.
  - destruct (isStructure (field "buffers" af)) eqn:Sa.
    + replace (truthy (field "buffers" bf)) with true
        by (destruct (field "buffers" bf); try discriminate; reflexivity).
      cbn [bind].
      replace (truthy (field "buffers" af) &&
               typeofObject (field "buffers" bf) &&
               typeofObject (field "buffers" af)) with true
        by (destruct (field "buffers" bf); try discriminate;
            destruct (field "buffers" af); try discriminate; reflexivity).
      cbn [bind andb].
      rewrite !byteLength_sized by assumption. cbn [bind].
      unfold minus, arith. cbn [toNumber bind].
      rewrite percentChange_number. reflexivity.
    + cbn [andb assignEntry].
      destruct (truthy (field "buffers" bf)); cbn [bind]; [|reflexivity].
      replace (truthy (field "buffers" af) &&
               typeofObject (field "buffers" bf) &&
               typeofObject (field "buffers" af)) with false;
        [reflexivity|].
      destruct (field "buffers" af) as [| |b|y|t|l|gs]; try discriminate;
        cbn [truthy typeofObject andb]; rewrite ?andb_false_r;
        reflexivity.
  - cbn [andb assignEntry].
    destruct (truthy (field "buffers" bf)) eqn:T; cbn [bind]; [|reflexivity].
    replace (truthy (field "buffers" af) &&
             typeofObject (field "buffers" bf) &&
             typeofObject (field "buffers" af)) with false;
      [reflexivity|].
    destruct (field "buffers" bf) as [| |b|y|t|l|gs]; try discriminate;
      cbn [typeofObject]; rewrite ?andb_false_r; reflexivity.
Qed.

(** Without a buffer section in the first report the block does
    nothing. *)
Lemma compareBuffers_none (bf af : list (string * value)) (c : Comparison) :
  isStructure (field "buffers" bf) = false ->
  compareBuffers (VObj bf) (VObj af) c = Ok c.
Proof.
  intro Hb. unfold compareBuffers. cbn [member bind].
  destruct (field "buffers" bf) as [| |b|x|t|l|gs]; try discriminate Hb;
    cbn [truthy bind typeofObject]; rewrite ?andb_false_r;
    try reflexivity.
  - destruct b; cbn [bind]; rewrite ?andb_false_r; reflexivity.
  - destruct (negb (isZero x || isNaN x)); cbn [bind];
      rewrite ?andb_false_r; reflexivity.
  - destruct (negb (String.eqb t EmptyString)); cbn [bind];
      rewrite ?andb_false_r; reflexivity.
Qed.

(** The record of two objects, in closed form. *)
Lemma generateComparison_obj (bf af : list (string * value)) :
  sized bf = true -> sized af = true ->
  generateComparison (VObj bf) (VObj af) =
  Ok (VObj
        [("summary",
          VObj (assignEntry "bufferSize"
                  (sizeEntry (field "buffers" bf) (field "buffers" af))
               (assignEntry "materials"
                  (summaryEntry (field "materials" bf) (field "materials" af))
               (assignEntry "buffers"
                  (summaryEntry (field "buffers" bf) (field "buffers" af))
               (assignEntry "geometry"
                  (summaryEntry (field "geometry" bf) (field "geometry" af))
               (assignEntry "meshes"
                  (summaryEntry (field "meshes" bf) (field "meshes" af))
                  []))))));
         ("details",
          VObj (assignEntry "materials"
                  (detailsEntry (field "materials" bf) (field "materials" af))
               (assignEntry "buffers"
                  (detailsEntry (field "buffers" bf) (field "buffers" af))
               (assignEntry "geometry"
                  (detailsEntry (field "geometry" bf) (field "geometry" af))
               (assignEntry "meshes"
                  (detailsEntry (field "meshes" bf) (field "meshes" af))
                  [])))))]).
Proof.
  intros Hb Ha. unfold generateComparison, keys. cbn [forEachKey].
  rewrite !compareKey_obj. cbn [bind c_summary c_details].
  rewrite !compareKey_obj. cbn [bind c_summary c_details].
  rewrite !compareKey_obj. cbn [bind c_summary c_details].
  rewrite !compareKey_obj. cbn [bind c_summary c_details].
  rewrite compareBuffers_obj by assumption. reflexivity.
Qed.

End RecordFacts.

Module EntryFacts.

Import Persisted.

Lemma lookup_details (k : string) (e1 e2 e3 e4 : option value) :
  lookup k
    (assignEntry "materials" e4
       (assignEntry "buffers" e3
          (assignEntry "geometry" e2 (assignEntry "meshes" e1 [])))) =
  if String.eqb k "materials" then e4
  else if String.eqb k "buffers" then e3
  else if String.eqb k "geometry" then e2
  else if String.eqb k "meshes" then e1
  else None.
Proof.
  assert (L1 : forall j, lookup j (assignEntry "meshes" e1 []) =
                         if String.eqb j "meshes" then e1 else None).
  { intro j. now rewrite RecordFacts.lookup_assignEntry. }
  assert (L2 : forall j,
             lookup j (assignEntry "geometry" e2
                         (assignEntry "meshes" e1 [])) =
             if String.eqb j "geometry" then e2
             else if String.eqb j "meshes" then e1 else None).
  { intro j. rewrite RecordFacts.lookup_assignEntry; now rewrite L1. }
  assert (L3 : forall j,
             lookup j (assignEntry "buffers" e3
                         (assignEntry "geometry" e2
                            (assignEntry "meshes" e1 []))) =
             if String.eqb j "buffers" then e3
             else if String.eqb j "geometry" then e2
             else if String.eqb j "meshes" then e1 else None).
  { intro j. rewrite RecordFacts.lookup_assignEntry; now rewrite L2. }
  rewrite RecordFacts.lookup_assignEntry; now rewrite L3.
Qed.

Lemma lookup_summary (k : string) (e1 e2 e3 e4 e5 : option value) :
  lookup k
    (assignEntry "bufferSize" e5
       (assignEntry "materials" e4
          (assignEntry "buffers" e3
             (assignEntry "geometry" e2 (assignEntry "meshes" e1 []))))) =
  if String.eqb k "bufferSize" then e5
  else if String.eqb k "materials" then e4
  else if String.eqb k "buffers" then e3
  else if String.eqb k "geometry" then e2
  else if String.eqb k "meshes" then e1
  else None.
Proof.
  rewrite RecordFacts.lookup_assignEntry.
  - now rewrite lookup_details.
  - now rewrite lookup_details.
Qed.

(** The four keys, one by one. *)
Lemma isKey_cases (k : string) :
  isKey k = true ->
  k = "meshes" \/ k = "geometry" \/ k = "buffers" \/ k = "materials".
Proof.
  unfold isKey, keys. cbn [existsb]. intro H.
  repeat (apply orb_prop in H as [H|H];
          [apply String.eqb_eq in H; auto 6|]).
  discriminate H.
Qed.

End EntryFacts.

(** X1. On two objects whose buffer sections declare a numeric byte length
    or none, [generateComparison] returns a record with a summary and a
    details object.  The details hold an entry for a key exactly when the
    key is one of [meshes], [geometry], [buffers], [materials] and its
    value is an object or an array in both inputs; the entry holds these two
    values as [before] and [after]. *)
Theorem generateComparison_details (bf af : list (string * value)) :
  Persisted.sized bf = true -> Persisted.sized af = true ->
  exists s d,
    generateComparison (VObj bf) (VObj af) =
    Ok (VObj [("summary", VObj s); ("details", VObj d)]) /\
    forall k,
      lookup k d =
      if Persisted.isKey k
      then Persisted.detailsEntry (field k bf) (field k af)
      else None.
Proof.
  intros Hb Ha. rewrite RecordFacts.generateComparison_obj by assumption.
  do 2 eexists. split; [reflexivity|]. intro k.
  rewrite EntryFacts.lookup_details.
  unfold Persisted.isKey, keys. cbn [existsb].
  destruct (String.eqb_spec k "materials") as [->|_]; [reflexivity|].
  destruct (String.eqb_spec k "buffers") as [->|_]; [reflexivity|].
  destruct (String.eqb_spec k "geometry") as [->|_]; [reflexivity|].
  destruct (String.eqb_spec k "meshes") as [->|_]; reflexivity.
Qed.

(** The theorem on two statistics objects: the materials are listed in the
    details, the numeric mesh count is not. *)
Lemma generateComparison_details_witness :
  exists s d,
    generateComparison (VObj RecordSamples.statsBefore)
      (VObj RecordSamples.statsAfter) =
    Ok (VObj [("summary", VObj s); ("details", VObj d)]) /\
    forall k,
      lookup k d =
      if Persisted.isKey k
      then Persisted.detailsEntry (field k RecordSamples.statsBefore)
             (field k RecordSamples.statsAfter)
      else None.
Proof.
  apply (generateComparison_details RecordSamples.statsBefore
           RecordSamples.statsAfter); reflexivity.
Defined.

(** X2. On two objects whose buffer sections declare a numeric byte length
    or none, the summary that [generateComparison] returns holds an entry
    for one of the four keys exactly when its value is a number other than
    0 and NaN in both inputs: the entry holds the two numbers, their
    difference and the percentage with two decimals (["0%"] when the before
    number is negative).  A count that is 0 on either side is left out of
    the summary, and apart from [bufferSize] the summary holds no other
    key. *)
Theorem generateComparison_summary (bf af : list (string * value)) :
  Persisted.sized bf = true -> Persisted.sized af = true ->
  exists s d,
    generateComparison (VObj bf) (VObj af) =
    Ok (VObj [("summary", VObj s); ("details", VObj d)]) /\
    (forall k,
       Persisted.isKey k = true ->
       lookup k s = Persisted.summaryEntry (field k bf) (field k af)) /\
    (forall k x y,
       Persisted.isKey k = true ->
       field k bf = VNum x -> field k af = VNum y ->
       isZero x || isZero y = true -> lookup k s = None) /\
    (forall k,
       Persisted.isKey k = false -> k <> "bufferSize" -> lookup k s = None).
Proof.
  intros Hb Ha. rewrite RecordFacts.generateComparison_obj by assumption.
  do 2 eexists. split; [reflexivity|].
  assert (Hk : forall k,
             Persisted.isKey k = true ->
             lookup k
               (Persisted.assignEntry "bufferSize"
                  (Persisted.sizeEntry (field "buffers" bf)
                     (field "buffers" af))
               (Persisted.assignEntry "materials"
                  (Persisted.summaryEntry (field "materials" bf)
                     (field "materials" af))
               (Persisted.assignEntry "buffers"
                  (Persisted.summaryEntry (field "buffers" bf)
                     (field "buffers" af))
               (Persisted.assignEntry "geometry"
                  (Persisted.summaryEntry (field "geometry" bf)
                     (field "geometry" af))
               (Persisted.assignEntry "meshes"
                  (Persisted.summaryEntry (field "meshes" bf)
                     (field "meshes" af)) []))))) =
             Persisted.summaryEntry (field k bf) (field k af)).
  { intros k Hk. rewrite EntryFacts.lookup_summary.
    destruct (EntryFacts.isKey_cases k Hk) as [->|[->|[->| ->]]];
      reflexivity. }
  split; [exact Hk|]. split.
  - intros k x y Hkey Ex Ey Hz. rewrite (Hk k Hkey), Ex, Ey.
    unfold Persisted.summaryEntry. cbn [truthy].
    destruct (isZero x); [reflexivity|]. cbn [orb] in Hz. rewrite Hz.
    cbn [orb negb]. now rewrite andb_false_r.
  - intros k Hkey Hn. rewrite EntryFacts.lookup_summary.
    unfold Persisted.isKey, keys in Hkey. cbn [existsb] in Hkey.
    destruct (String.eqb_spec k "bufferSize") as [E|_]; [now elim Hn|].
    destruct (String.eqb k "materials"); [now rewrite !orb_true_r in Hkey|].
    destruct (String.eqb k "buffers"); [now rewrite !orb_true_r in Hkey|].
    destruct (String.eqb k "geometry"); [now rewrite !orb_true_r in Hkey|].
    destruct (String.eqb k "meshes"); [discriminate Hkey | reflexivity].
Qed.

(** The theorem on two statistics objects: the mesh count has a summary
    entry, the geometry size (4096 before, 0 after) has none. *)
Lemma generateComparison_summary_witness :
  exists s d,
    generateComparison (VObj RecordSamples.statsBefore)
      (VObj RecordSamples.statsAfter) =
    Ok (VObj [("summary", VObj s); ("details", VObj d)]) /\
    lookup "meshes" s =
    Some (Persisted.numberEntry (ofZ 12) (ofZ 9)) /\
    lookup "geometry" s = None.
Proof.
  destruct (generateComparison_summary RecordSamples.statsBefore
              RecordSamples.statsAfter eq_refl eq_refl)
    as [s [d [H [Hk [Hz _]]]]].
  exists s, d. split; [exact H|]. split.
  - now rewrite (Hk "meshes" eq_refl).
  - now apply (Hz "geometry" (ofZ 4096) zero).
Defined.

(** X3. On two objects whose buffer sections declare a numeric byte length
    or none, the summary that [generateComparison] returns holds the entry
    [bufferSize] exactly when the section [buffers] is an object or an
    array in both inputs; it reports the two byte lengths (0 for a missing
    one) and their difference in megabytes with two decimals.  When the
    before length is 0 or missing the percentage is ["0%"]: the ratio is
    not computed. *)
Theorem generateComparison_bufferSize (bf af : list (string * value)) :
  Persisted.sized bf = true -> Persisted.sized af = true ->
  exists s d,
    generateComparison (VObj bf) (VObj af) =
    Ok (VObj [("summary", VObj s); ("details", VObj d)]) /\
    lookup "bufferSize" s =
    Persisted.sizeEntry (field "buffers" bf) (field "buffers" af) /\
    (Persisted.isStructure (field "buffers" bf) = true ->
     Persisted.isStructure (field "buffers" af) = true ->
     Persisted.sizeOf (field "buffers" bf) = zero ->
     exists afterMB diffMB,
       lookup "bufferSize" s =
       Some (VObj [("before", VStr "0.00 MB"); ("after", VStr afterMB);
                   ("difference", VStr diffMB);
                   ("percentChange", VStr "0%")])).
Proof.
  intros Hb Ha. rewrite RecordFacts.generateComparison_obj by assumption.
  do 2 eexists. split; [reflexivity|].
  rewrite EntryFacts.lookup_summary.
  replace (String.eqb "bufferSize" "bufferSize") with true by reflexivity.
  split; [reflexivity|].
  intros Sb Sa Hz. unfold Persisted.sizeEntry. rewrite Sb, Sa, Hz.
  cbn [andb]. do 2 eexists. reflexivity.
Qed.

(** The theorem on a buffer section without a byte length against one of
    one mebibyte. *)
Lemma generateComparison_bufferSize_witness :
  exists s d,
    generateComparison (VObj [("buffers", VObj [])])
      (VObj RecordSamples.statsAfter) =
    Ok (VObj [("summary", VObj s); ("details", VObj d)]) /\
    lookup "bufferSize" s =
    Some (VObj [("before", VStr "0.00 MB"); ("after", VStr "1.00 MB");
                ("difference", VStr "1.00 MB");
                ("percentChange", VStr "0%")]).
Proof.
  destruct (generateComparison_bufferSize [("buffers", VObj [])]
              RecordSamples.statsAfter eq_refl eq_refl)
    as [s [d [H [Hs _]]]].
  exists s, d. split; [exact H|]. rewrite Hs. reflexivity.
Defined.

(** X4. [generateComparison] raises a [TypeError] when the first report is
    [null] or [undefined].  When the second report is [null] or
    [undefined] it raises exactly when one of the four keys holds a truthy
    value in the first report; otherwise the second report is never read
    and the record returned is empty. *)
Theorem generateComparison_nullish :
  (forall after,
     generateComparison VNull after = TypeError /\
     generateComparison VUndefined after = TypeError) /\
  (forall bf,
     let raised := existsb (fun k => truthy (field k bf)) keys in
     let empty := VObj [("summary", VObj []); ("details", VObj [])] in
     generateComparison (VObj bf) VNull =
       (if raised then TypeError else Ok empty) /\
     generateComparison (VObj bf) VUndefined =
       (if raised then TypeError else Ok empty)).
Proof.
  split; [intros other; split; reflexivity|].
  intro bf. unfold keys. cbn [existsb].
  unfold generateComparison, keys, compareBuffers.
  cbn [forEachKey]. unfold compareKey. cbn [member bind].
  destruct (truthy (field "meshes" bf)); cbn [bind orb]; [now split|].
  destruct (truthy (field "geometry" bf)); cbn [bind orb]; [now split|].
  destruct (truthy (field "buffers" bf)); cbn [bind orb]; [now split|].
  destruct (truthy (field "materials" bf)); cbn [bind orb]; now split.
Qed.

(** X19. When none of the four keys holds a number in the first report
    and the first report has no buffer section, as in the reports of the
    inspection, the summary of [generateComparison] is empty whatever the
    second report holds; the details list the sections that are objects in
    both. *)
Theorem generateComparison_inspect (bf af : list (string * value)) :
  (forall k, Persisted.isKey k = true -> typeofNumber (field k bf) = false) ->
  Persisted.isStructure (field "buffers" bf) = false ->
  exists d,
    generateComparison (VObj bf) (VObj af) =
    Ok (VObj [("summary", VObj []); ("details", VObj d)]) /\
    forall k,
      lookup k d =
      if Persisted.isKey k
      then Persisted.detailsEntry (field k bf) (field k af)
      else None.
Proof.
  intros Hn Hb. unfold generateComparison, keys. cbn [forEachKey].
  rewrite !RecordFacts.compareKey_obj. cbn [bind c_summary c_details].
  rewrite !RecordFacts.compareKey_obj. cbn [bind c_summary c_details].
  rewrite !RecordFacts.compareKey_obj. cbn [bind c_summary c_details].
  rewrite !RecordFacts.compareKey_obj. cbn [bind c_summary c_details].
  assert (S0 : forall k,
             Persisted.isKey k = true ->
             Persisted.summaryEntry (field k bf) (field k af) = None).
  { intros k Hk. specialize (Hn k Hk).
    destruct (field k bf); try reflexivity. discriminate Hn. }
  rewrite !S0 by reflexivity. cbn [Persisted.assignEntry].
  rewrite RecordFacts.compareBuffers_none by exact Hb.
  cbn [bind c_summary c_details]. eexists. split; [reflexivity|].
  intro k. rewrite EntryFacts.lookup_details.
  unfold Persisted.isKey, keys. cbn [existsb].
  destruct (String.eqb_spec k "materials") as [->|_]; [reflexivity|].
  destruct (String.eqb_spec k "buffers") as [->|_]; [reflexivity|].
  destruct (String.eqb_spec k "geometry") as [->|_]; [reflexivity|].
  destruct (String.eqb_spec k "meshes") as [->|_]; reflexivity.
Qed.

(** The theorem on a report with two meshes and two materials against one
    without scenes: no summary, two entries of details. *)
Lemma generateComparison_inspect_witness :
  exists d,
    generateComparison withAggregate withoutAggregate =
    Ok (VObj [("summary", VObj []); ("details", VObj d)]) /\
    List.length d = 2%nat.
Proof.
  destruct (generateComparison_inspect
              [("scenes", section [scene 1200]);
               ("meshes",
                section [mesh 1000 24000 ["POSITION"];
                         mesh 500 12000 ["POSITION"]]);
               ("materials",
                section [material ["baseColorTexture"]; material []]);
               ("textures", section []);
               ("animations", section [])]
              [("meshes",
                section [mesh 900 21600 ["POSITION"];
                         mesh 500 12000 ["POSITION"]]);
               ("materials", section [material ["baseColorTexture"]])])
    as (d & Hd & _).
  - intros k Hk.
    destruct (EntryFacts.isKey_cases k Hk) as [->|[->|[->| ->]]];
      reflexivity.
  - reflexivity.
  - exists d. split; [exact Hd|].
    assert (Hd' : generateComparison withAggregate withoutAggregate =
                  Ok (VObj [("summary", VObj []); ("details", VObj d)]))
      by exact Hd.
    vm_compute in Hd'. injection Hd' as <-. reflexivity.
Defined.

(** ** The printed report *)

Module PrintFacts.

Import NumFacts StrFacts EvalFacts.

Lemma eqb_intF_zero (d : Z) : Num.eqb (intF d) zero = (d =? 0).
Proof. destruct d; reflexivity. Qed.

Lemma head_prefix (c : ascii) (s tail : string) :
  isDigit c = false -> headDigit s = true ->
  String.prefix (String c EmptyString) (s ++ tail) = false.
Proof.
  intros Hc Hs. destruct s as [|c' s]; [discriminate|].
  cbn [headDigit] in Hs. cbn [append String.prefix].
  destruct (ascii_dec c c') as [E|E]; [|reflexivity].
  subst c'. congruence.
Qed.

(** No text of [toFixed] starts with a plus sign. *)
Lemma toFixed_plus (x : number) (f : nat) (tail : string) :
  String.prefix "+" (toFixed x f ++ tail) = false.
Proof.
  destruct x as [s|s| |s m e].
  - apply head_prefix; [reflexivity | apply pointed_head].
  - destruct s; reflexivity.
  - reflexivity.
  - destruct s.
    + reflexivity.
    + apply head_prefix; [reflexivity | apply toFixed_head].
Qed.

(** A text of [toFixed] that starts with a minus sign is that of a
    negative number. *)
Lemma toFixed_minus (x : number) (f : nat) (tail : string) :
  String.prefix "-" (toFixed x f ++ tail) = true ->
  signbit x = Some true /\ isZero x = false.
Proof.
  destruct x as [s|s| |s m e].
  - rewrite head_prefix; [discriminate | reflexivity | apply pointed_head].
  - destruct s; [now split | discriminate].
  - discriminate.
  - destruct s; [now split|].
    rewrite head_prefix; [discriminate | reflexivity | apply toFixed_head].
Qed.

Lemma percentText_plus (diff before : number) :
  String.prefix "+" (Shape.percentText diff before) = false.
Proof.
  unfold Shape.percentText.
  destruct (gtb before zero); [apply toFixed_plus | reflexivity].
Qed.

(** A percentage that starts with a minus sign is that of a negative
    difference. *)
Lemma percentText_minus (diff before : number) :
  String.prefix "-" (Shape.percentText diff before) = true ->
  ltb diff zero = true.
Proof.
  unfold Shape.percentText.
  destruct (gtb before zero) eqn:Hp; [|discriminate].
  intro H. apply toFixed_minus in H as [Hs Hz].
  destruct hundred_finite as [mh [eh Hh]].
  destruct before as [sb|sb| |sb mb eb]; try discriminate.
  - destruct sb; [discriminate|].
    destruct diff as [sd|sd| |sd md ed]; rewrite Hh in Hs, Hz;
      discriminate.
  - destruct sb; [discriminate|].
    destruct diff as [sd|sd| |sd md ed].
    + rewrite Hh in Hz. unfold mul, div in Hz.
      cbn [SFdiv SFmul isZero] in Hz. discriminate.
    + rewrite Hh in Hs. unfold mul, div in Hs.
      cbn [SFdiv SFmul signbit] in Hs. rewrite !xorb_false_r in Hs.
      injection Hs as ->. reflexivity.
    + rewrite Hh in Hs. discriminate.
    + assert (E : signbit (mul (div (S754_finite sd md ed)
                                  (S754_finite false mb eb)) hundred)
                  = Some sd).
      { apply (mul_signbit _ _ sd mh eh Hh).
        now apply (div_signbit _ _ sd mb eb). }
      rewrite E in Hs. injection Hs as ->. reflexivity.
Qed.

Lemma ltb_gtb_zero (x : number) : ltb x zero = true -> gtb x zero = false.
Proof.
  destruct x as [s|s| |s m e]; try discriminate; destruct s;
    try discriminate; reflexivity.
Qed.

Section Lines.

Variable paint : string -> string -> string.
Variable parseFloat : string -> number.

Lemma materialText_counts (mb ma : nat) (reason : string) :
  Z.of_nat mb < 2 ^ 32 -> Z.of_nat ma < 2 ^ 32 ->
  materialText paint
    {| m_before := VNum (ofNat mb); m_after := VNum (ofNat ma);
       m_diff := intF (Z.of_nat ma - Z.of_nat mb); m_reason := reason |} =
  Ok (digits (Z.of_nat mb) ++ " → " ++ digits (Z.of_nat ma) ++
      (if Nat.eqb mb ma then "（无变化）" else paint "cyan" reason)).
Proof.
  intros Hb Ha. unfold materialText. cbn [m_diff m_before m_after m_reason].
  rewrite eqb_intF_zero, !toString_ofNat by assumption. cbn [bind].
  destruct (Z.eqb_spec (Z.of_nat ma - Z.of_nat mb) 0);
    destruct (Nat.eqb_spec mb ma); try reflexivity; lia.
Qed.

Lemma animationLine_counts (nb na : nat) (p : bool) :
  Z.of_nat nb < 2 ^ 32 -> Z.of_nat na < 2 ^ 32 ->
  animationLine paint
    {| a_before := VNum (ofNat nb); a_after := VNum (ofNat na);
       a_preserved := p |} =
  Ok (if Nat.ltb 0 nb
      then "动画" ++
           (if p then paint "green" "完整保留"
            else paint "yellow"
                   ("部分保留（" ++ digits (Z.of_nat na) ++ "/" ++
                    digits (Z.of_nat nb) ++ "）"))
      else "动画：" ++ paint "gray" "无动画数据").
Proof.
  intros Hb Ha. unfold animationLine, gt.
  cbn [a_before a_after a_preserved toNumber bind].
  rewrite gtb_ofNat_zero by lia.
  destruct (Nat.ltb 0 nb); [|reflexivity].
  destruct p; [reflexivity|].
  rewrite !toString_ofNat by assumption. reflexivity.
Qed.

End Lines.

End PrintFacts.

Module ReportFacts.

Import Shape NumFacts StrFacts EvalFacts PrintFacts.

Lemma items_bound (P : value -> bool) (v : value) :
  listOf P v = true -> Z.of_nat (List.length (items v)) < 2 ^ 32.
Proof.
  intro H. destruct (listOf_inv _ _ H) as [[_ ->]|[l [-> [_ B]]]];
    cbn [items List.length]; lia.
Qed.

Lemma increase_marker (s : string) : includes "增加" (s ++ "% 增加") = true.
Proof. apply includes_app_r. reflexivity. Qed.

(** The style of the UV line as a function of the two counts. *)
Lemma uvChange_style (b a : nat) :
  includes "删除" (uvChange b a) = Nat.ltb a b /\
  (Nat.ltb a b = false -> includes "增加" (uvChange b a) = Nat.ltb b a).
Proof.
  split; [apply uvChange_removed|]. intro H. unfold uvChange. rewrite H.
  destruct (Nat.ltb 0 b && Nat.eqb a 0) eqn:E.
  - apply andb_prop in E as [E1 E2].
    apply Nat.ltb_lt in E1. apply Nat.eqb_eq in E2.
    apply Nat.ltb_ge in H. lia.
  - destruct (Nat.ltb b a); [apply increase_marker | reflexivity].
Qed.

Section Report.

Variable paint : string -> string -> string.
Variable parseFloat : string -> number.
Variables before after : value.
Hypothesis Hb : wfInspect before = true.
Hypothesis Ha : wfInspect after = true.

(** The printed lines of the analysis of two well-formed reports. *)
Lemma printComparisonReport_wf (os : list (string * value)) :
  exists r,
    analyzeComparison before after (VObj os) = Ok r /\
    analyzeUV before after = Ok (uv r) /\
    analyzeGeometry before after = Ok (geometry r) /\
    analyzeMaterials before after = Ok (materials r) /\
    analyzeTextures before after (VObj os) = Ok (textures r) /\
    highlights r =
    (ruleUV (uvCount before) (uvCount after) ++
     ruleDedup (materialCount before) (materialCount after) ++
     ruleDraco (truthy (field "draco" os)) ++
     ruleKTX2 (truthy (field "ktx2" os))
       (gtb (textureCount before) zero ||
        gtb (textureCount after) zero))%list /\
    printComparisonReport paint parseFloat r =
    Ok (List.app
          [paint "cyan" (nl ++ "📊 本次 FBX → GLB 优化中：" ++ nl);
           "顶点数：" ++ vertexChange paint parseFloat (vertices r);
           "UV 属性：" ++ uvChangeText paint (uv r);
           "几何体体积：" ++ geometryChange paint (geometry r);
           "材质数量：" ++
           (digits (Z.of_nat (materialCount before)) ++ " → " ++
            digits (Z.of_nat (materialCount after)) ++
            (if Nat.eqb (materialCount before) (materialCount after)
             then "（无变化）"
             else paint "cyan"
                    (if Nat.ltb (materialCount after) (materialCount before)
                     then "（dedup）" else "（增加）")));
           (if Nat.ltb 0 (animationCount before)
            then "动画" ++
                 (if Nat.eqb (animationCount before) (animationCount after)
                  then paint "green" "完整保留"
                  else paint "yellow"
                         ("部分保留（" ++
                          digits (Z.of_nat (animationCount after)) ++ "/" ++
                          digits (Z.of_nat (animationCount before)) ++ "）"))
            else "动画：" ++ paint "gray" "无动画数据");
           textureLine paint (textures r)]
          (List.app (highlightLines paint (highlights r)) [EmptyString])).
Proof.
  destruct (analyzeComparison_wf before after Hb Ha os)
    as (r & Hr & _ & Hu & Hg & Hm & Hn & Ht & Hh).
  exists r. repeat (split; [assumption|]).
  destruct (wfInspect_inv before Hb) as (_ & _ & Mb & Nb & _).
  destruct (wfInspect_inv after Ha) as (_ & _ & Ma & Na & _).
  pose proof (items_bound _ _ Mb) as Bmb.
  pose proof (items_bound _ _ Ma) as Bma.
  pose proof (items_bound _ _ Nb) as Bnb.
  pose proof (items_bound _ _ Na) as Bna.
  fold (materialCount before) in Bmb. fold (materialCount after) in Bma.
  fold (animationCount before) in Bnb. fold (animationCount after) in Bna.
  rewrite (analyzeMaterials_wf before after Hb Ha) in Hm.
  rewrite (analyzeAnimations_wf before after Hb Ha) in Hn.
  injection Hm as Hm. injection Hn as Hn.
  unfold printComparisonReport. rewrite <- Hm, <- Hn.
  rewrite materialText_counts, animationLine_counts by assumption.
  cbn [bind].
  destruct (Nat.ltb 0 (animationCount before));
    rewrite ?andb_true_r, ?andb_false_r;
    destruct (Nat.eqb_spec (materialCount before) (materialCount after));
    destruct (Nat.ltb_spec (materialCount after) (materialCount before));
    destruct (Nat.ltb_spec (materialCount before) (materialCount after));
    try reflexivity; lia.
Qed.

End Report.

End ReportFacts.

(** X5. In the printed report of two well-formed inspection reports, the
    line of the geometry size shows the percentage in green when it starts
    with a minus sign and in gray otherwise; it is never shown in yellow,
    because no percentage starts with a plus sign.  In particular a growth
    of the geometry size is printed in gray, like no change. *)
Theorem printComparisonReport_geometry (paint : string -> string -> string)
  (parseFloat : string -> number) (before after : value)
  (os : list (string * value)) :
  wfInspect before = true -> wfInspect after = true ->
  exists r lines,
    analyzeComparison before after (VObj os) = Ok r /\
    printComparisonReport paint parseFloat r = Ok lines /\
    String.prefix "+" (g_percent (geometry r)) = false /\
    nth_error lines 3 =
    Some ("几何体体积：" ++
          paint (if String.prefix "-" (g_percent (geometry r))
                 then "green" else "gray")
            (g_percent (geometry r))) /\
    (gtb (g_diff (geometry r)) zero = true ->
     nth_error lines 3 =
     Some ("几何体体积：" ++ paint "gray" (g_percent (geometry r)))).
Proof.
  intros Hb Ha.
  destruct (ReportFacts.printComparisonReport_wf paint parseFloat
              before after Hb Ha os)
    as (r & Hr & _ & Hg & _ & _ & _ & Hp).
  exists r. eexists. split; [exact Hr|]. split; [exact Hp|].
  rewrite (EvalFacts.analyzeGeometry_wf before after Hb Ha) in Hg.
  injection Hg as Hg. rewrite <- Hg. cbn [g_percent g_diff nth_error List.app].
  unfold geometryChange. cbn [g_percent].
  rewrite PrintFacts.percentText_plus.
  split; [reflexivity|]. split.
  - destruct (String.prefix "-" _); reflexivity.
  - intro Hpos.
    destruct (String.prefix "-" _) eqn:E; [|reflexivity].
    apply PrintFacts.percentText_minus, PrintFacts.ltb_gtb_zero in E.
    rewrite E in Hpos. discriminate Hpos.
Qed.

(** The theorem on a mesh whose size grows from 4096 to 8192 bytes, with
    styles written as tags: the line is gray. *)
Lemma printComparisonReport_geometry_witness :
  exists r lines,
    analyzeComparison
      (report [] [mesh 120 4096 ["POSITION"]] [] [] [])
      (report [] [mesh 120 8192 ["POSITION"]] [] [] [])
      (VObj []) = Ok r /\
    printComparisonReport (fun style text => "<" ++ style ++ ">" ++ text)
      (fun _ => zero) r = Ok lines /\
    gtb (g_diff (geometry r)) zero = true /\
    nth_error lines 3 = Some "几何体体积：<gray>100.0%".
Proof.
  destruct (printComparisonReport_geometry
              (fun style text => "<" ++ style ++ ">" ++ text)
              (fun _ => zero)
              (report [] [mesh 120 4096 ["POSITION"]] [] [] [])
              (report [] [mesh 120 8192 ["POSITION"]] [] [] [])
              [] eq_refl eq_refl)
    as (r & lines & Hr & Hl & _ & _ & Hgray).
  exists r, lines. split; [exact Hr|]. split; [exact Hl|].
  assert (Hr' : analyzeComparison
                  (report [] [mesh 120 4096 ["POSITION"]] [] [] [])
                  (report [] [mesh 120 8192 ["POSITION"]] [] [] [])
                  (VObj []) = Ok r) by exact Hr.
  vm_compute in Hr'. injection Hr' as Hr'.
  assert (Hpos : gtb (g_diff (geometry r)) zero = true)
    by (rewrite <- Hr'; reflexivity).
  split; [exact Hpos|].
  rewrite (Hgray Hpos), <- Hr'. reflexivity.
Defined.

(** X6. In the printed report of two well-formed inspection reports, the
    line of the UV attributes is green exactly when fewer meshes carry
    texture coordinates after than before, yellow exactly when more do,
    and gray when the two counts are equal. *)
Theorem printComparisonReport_uv (paint : string -> string -> string)
  (parseFloat : string -> number) (before after : value)
  (os : list (string * value)) :
  wfInspect before = true -> wfInspect after = true ->
  exists r lines,
    analyzeComparison before after (VObj os) = Ok r /\
    printComparisonReport paint parseFloat r = Ok lines /\
    nth_error lines 2 =
    Some ("UV 属性：" ++
          paint (if Nat.ltb (uvCount after) (uvCount before) then "green"
                 else if Nat.ltb (uvCount before) (uvCount after)
                 then "yellow" else "gray")
            (uv_change (uv r))).
Proof.
  intros Hb Ha.
  destruct (ReportFacts.printComparisonReport_wf paint parseFloat
              before after Hb Ha os)
    as (r & Hr & Hu & _ & _ & _ & _ & Hp).
  exists r. eexists. split; [exact Hr|]. split; [exact Hp|].
  rewrite (EvalFacts.analyzeUV_wf before after Hb Ha) in Hu.
  injection Hu as Hu. rewrite <- Hu. cbn [uv_change nth_error List.app].
  unfold uvChangeText. cbn [uv_change].
  destruct (ReportFacts.uvChange_style (uvCount before) (uvCount after))
    as [H1 H2].
  rewrite H1. destruct (Nat.ltb (uvCount after) (uvCount before));
    [reflexivity|].
  rewrite (H2 eq_refl).
  destruct (Nat.ltb (uvCount before) (uvCount after)); reflexivity.
Qed.

(** The theorem on a mesh that gains texture coordinates, with styles
    written as tags. *)
Lemma printComparisonReport_uv_witness :
  exists r lines,
    analyzeComparison bare textured (VObj []) = Ok r /\
    printComparisonReport (fun style text => "<" ++ style ++ ">" ++ text)
      (fun _ => zero) r = Ok lines /\
    nth_error lines 2 = Some "UV 属性：<yellow>Infinity% 增加".
Proof.
  destruct (printComparisonReport_uv
              (fun style text => "<" ++ style ++ ">" ++ text)
              (fun _ => zero) bare textured [] eq_refl eq_refl)
    as (r & lines & Hr & Hl & H2).
  exists r, lines. split; [exact Hr|]. split; [exact Hl|].
  assert (Hr' : analyzeComparison bare textured (VObj []) = Ok r)
    by exact Hr.
  vm_compute in Hr'. injection Hr' as Hr'.
  rewrite H2, <- Hr'. reflexivity.
Defined.

(** X7. In the printed report of two well-formed inspection reports, the
    line of the materials shows the two counts and ends in the no-change
    mark exactly when they are equal; otherwise it ends in the reason,
    which is the deduplication mark when the count fell and the increase
    mark when it rose. *)
Theorem printComparisonReport_materials (paint : string -> string -> string)
  (parseFloat : string -> number) (before after : value)
  (os : list (string * value)) :
  wfInspect before = true -> wfInspect after = true ->
  exists r lines,
    analyzeComparison before after (VObj os) = Ok r /\
    printComparisonReport paint parseFloat r = Ok lines /\
    nth_error lines 4 =
    Some ("材质数量：" ++
          (digits (Z.of_nat (materialCount before)) ++ " → " ++
           digits (Z.of_nat (materialCount after)) ++
           (if Nat.eqb (materialCount before) (materialCount after)
            then "（无变化）"
            else paint "cyan"
                   (if Nat.ltb (materialCount after) (materialCount before)
                    then "（dedup）" else "（增加）")))).
Proof.
  intros Hb Ha.
  destruct (ReportFacts.printComparisonReport_wf paint parseFloat
              before after Hb Ha os)
    as (r & Hr & _ & _ & _ & _ & _ & Hp).
  exists r. eexists. split; [exact Hr|]. split; [exact Hp|]. reflexivity.
Qed.

(** The theorem on four materials reduced to two, with styles written as
    tags. *)
Lemma printComparisonReport_materials_witness :
  exists r lines,
    analyzeComparison fourMaterials twoMaterials (VObj []) = Ok r /\
    printComparisonReport (fun style text => "<" ++ style ++ ">" ++ text)
      (fun _ => zero) r = Ok lines /\
    nth_error lines 4 = Some "材质数量：4 → 2<cyan>（dedup）".
Proof.
  destruct (printComparisonReport_materials
              (fun style text => "<" ++ style ++ ">" ++ text)
              (fun _ => zero) fourMaterials twoMaterials [] eq_refl eq_refl)
    as (r & lines & Hr & Hl & H4).
  exists r, lines. split; [exact Hr|]. split; [exact Hl|].
  rewrite H4. reflexivity.
Defined.

(** X8. In the printed report of two well-formed inspection reports, the
    texture line says that texture compression does not apply exactly when
    neither report has textures, whatever the options; otherwise it shows
    the status, in green when the option [ktx2] is set and in yellow when
    it is not.  The status is the applied one exactly when the highlight
    of the texture compression is listed. *)
Theorem printComparisonReport_textures (paint : string -> string -> string)
  (parseFloat : string -> number) (before after : value)
  (os : list (string * value)) :
  wfInspect before = true -> wfInspect after = true ->
  exists r lines,
    analyzeComparison before after (VObj os) = Ok r /\
    printComparisonReport paint parseFloat r = Ok lines /\
    t_hasTextures (textures r) =
      gtb (textureCount before) zero || gtb (textureCount after) zero /\
    nth_error lines 6 =
    Some (if t_hasTextures (textures r)
          then "KTX2 贴图压缩：" ++
               (if truthy (field "ktx2" os) then paint "green" "已应用"
                else paint "yellow" "未启用")
          else paint "gray" "无贴图模型，KTX2 不适用") /\
    (In msgKTX2 (highlights r) <-> t_ktx2Status (textures r) = "已应用").
Proof.
  intros Hb Ha.
  destruct (ReportFacts.printComparisonReport_wf paint parseFloat
              before after Hb Ha os)
    as (r & Hr & _ & _ & _ & Ht & Hh & Hp).
  exists r. eexists. split; [exact Hr|]. split; [exact Hp|].
  rewrite (EvalFacts.analyzeTextures_wf before after Hb Ha) in Ht.
  injection Ht as Ht. rewrite Hh, <- Ht.
  cbn [t_hasTextures t_ktx2Status nth_error List.app].
  split; [reflexivity|]. unfold textureLine. cbn [t_hasTextures t_ktx2Status].
  set (has := gtb (textureCount before) zero || gtb (textureCount after) zero).
  split.
  - destruct has; [|reflexivity]. cbn [negb].
    destruct (truthy (field "ktx2" os)); reflexivity.
  - unfold ruleUV, ruleDedup, ruleDraco, ruleKTX2.
    rewrite !in_app_iff.
    assert (N1 : msgUV <> msgKTX2) by discriminate.
    assert (N2 : forall b a, msgDedup b a <> msgKTX2) by discriminate.
    assert (N3 : msgDraco <> msgKTX2) by discriminate.
    destruct (truthy (field "ktx2" os)), has; cbn [andb]; split; intro H;
      try reflexivity; try discriminate H;
      try (right; right; right; now left).
    all: destruct H as [H|[H|[H|H]]];
      repeat match goal with
             | H : In _ (if ?c then _ else _) |- _ => destruct c
             end;
      cbn [In] in H; intuition (try congruence); now elim (N2 _ _ H0).
Qed.

(** The theorem on a report with one texture reference and no texture
    registry, with texture compression requested and styles written as
    tags. *)
Lemma printComparisonReport_textures_witness :
  exists r lines,
    analyzeComparison withoutAggregate withoutAggregate (config false true) = Ok r /\
    printComparisonReport (fun style text => "<" ++ style ++ ">" ++ text)
      (fun _ => zero) r = Ok lines /\
    nth_error lines 6 = Some "KTX2 贴图压缩：<green>已应用" /\
    In msgKTX2 (highlights r).
Proof.
  destruct (printComparisonReport_textures
              (fun style text => "<" ++ style ++ ">" ++ text)
              (fun _ => zero) withoutAggregate withoutAggregate
              [("draco", VBool false); ("ktx2", VBool true)]
              eq_refl eq_refl)
    as (r & lines & Hr & Hl & Hhas & H6 & Hk).
  exists r, lines. split; [exact Hr|]. split; [exact Hl|].
  assert (Hr' : analyzeComparison withoutAggregate withoutAggregate
                  (config false true) = Ok r) by exact Hr.
  vm_compute in Hr'. injection Hr' as Hr'.
  split.
  - rewrite H6, <- Hr'. reflexivity.
  - apply Hk. rewrite <- Hr'. reflexivity.
Defined.

(** X9. The printed report of two well-formed inspection reports has
    eight lines when there is no highlight, and otherwise one heading and
    one bullet line for each highlight more, in the order of the
    highlights; the last line is empty. *)
Theorem printComparisonReport_highlights (paint : string -> string -> string)
  (parseFloat : string -> number) (before after : value)
  (os : list (string * value)) :
  wfInspect before = true -> wfInspect after = true ->
  exists r lines,
    analyzeComparison before after (VObj os) = Ok r /\
    printComparisonReport paint parseFloat r = Ok lines /\
    List.length lines =
      (8 + match highlights r with
           | [] => 0
           | _ :: _ => 1 + List.length (highlights r)
           end)%nat /\
    nth_error lines (List.length lines - 1) = Some EmptyString /\
    (highlights r <> [] ->
     nth_error lines 7 = Some (paint "cyan" (nl ++ "👉 优化重点："))) /\
    (forall i h,
       nth_error (highlights r) i = Some h ->
       nth_error lines (8 + i) = Some (paint "white" ("   • " ++ h))).
Proof.
  intros Hb Ha.
  destruct (ReportFacts.printComparisonReport_wf paint parseFloat
              before after Hb Ha os)
    as (r & Hr & _ & _ & _ & _ & _ & Hp).
  exists r. eexists. split; [exact Hr|]. split; [exact Hp|].
  cbn [List.app List.length nth_error Nat.sub Nat.add].
  destruct (highlights r) as [|h0 hs] eqn:E.
  - cbn [highlightLines List.app List.length nth_error Nat.sub].
    split; [reflexivity|]. split; [reflexivity|]. split.
    + intro N. now elim N.
    + intros [|i] h H; discriminate H.
  - cbn [highlightLines List.app List.length nth_error Nat.sub map].
    rewrite length_app, length_map. cbn [List.length].
    split; [f_equal; lia|]. split; [|split].
    + replace (List.length hs + 1)%nat with (S (List.length hs)) by lia.
      cbn [nth_error].
      rewrite nth_error_app2 by (rewrite length_map; lia).
      rewrite length_map, Nat.sub_diag. reflexivity.
    + intros _. reflexivity.
    + intros i h H. rewrite app_comm_cons, nth_error_app1.
      * exact (map_nth_error
                 (fun highlight => paint "white" ("   • " ++ highlight))
                 i (h0 :: hs) H).
      * cbn [List.length]. rewrite length_map.
        apply (nth_error_Some (h0 :: hs)). congruence.
Qed.

(** The theorem on three meshes that lose their texture coordinates, with
    geometry compression requested and styles written as tags: eleven
    lines. *)
Lemma printComparisonReport_highlights_witness :
  exists r lines,
    analyzeComparison threeTextured threePruned (config true false) = Ok r /\
    printComparisonReport (fun style text => "<" ++ style ++ ">" ++ text)
      (fun _ => zero) r = Ok lines /\
    List.length lines = 11%nat /\
    nth_error lines 8 = Some ("<white>   • " ++ msgUV) /\
    nth_error lines 9 = Some ("<white>   • " ++ msgDraco) /\
    nth_error lines 10 = Some EmptyString.
Proof.
  destruct (printComparisonReport_highlights
              (fun style text => "<" ++ style ++ ">" ++ text)
              (fun _ => zero) threeTextured threePruned
              [("draco", VBool true); ("ktx2", VBool false)]
              eq_refl eq_refl)
    as (r & lines & Hr & Hl & Hn & Hlast & _ & Hi).
  exists r, lines. split; [exact Hr|]. split; [exact Hl|].
  assert (Hr' : analyzeComparison threeTextured threePruned
                  (config true false) = Ok r) by exact Hr.
  vm_compute in Hr'. injection Hr' as Hr'.
  assert (Hh : highlights r = [msgUV; msgDraco])
    by (rewrite <- Hr'; reflexivity).
  rewrite Hh in Hn, Hi. cbn [List.length Nat.add] in Hn.
  split; [exact Hn|]. rewrite Hn in Hlast.
  split; [exact (Hi 0%nat msgUV eq_refl)|].
  split; [exact (Hi 1%nat msgDraco eq_refl) | exact Hlast].
Defined.

(** X10. The highlight list of two well-formed inspection reports holds at
    most four messages and no message twice. *)
Theorem analyzeComparison_highlights_distinct (before after : value)
  (os : list (string * value)) :
  wfInspect before = true -> wfInspect after = true ->
  exists r,
    analyzeComparison before after (VObj os) = Ok r /\
    NoDup (highlights r) /\
    (List.length (highlights r) <= 4)%nat.
Proof.
  intros Hb Ha.
  destruct (EvalFacts.analyzeComparison_wf before after Hb Ha os)
    as (r & Hr & _ & _ & _ & _ & _ & _ & Hh).
  exists r. split; [exact Hr|]. rewrite Hh.
  unfold ruleUV, ruleDedup, ruleDraco, ruleKTX2.
  assert (N1 : forall b a, msgUV <> msgDedup b a) by discriminate.
  assert (N2 : forall b a, msgDedup b a <> msgDraco) by discriminate.
  assert (N3 : forall b a, msgDedup b a <> msgKTX2) by discriminate.
  assert (N4 : msgUV <> msgDraco) by discriminate.
  assert (N5 : msgUV <> msgKTX2) by discriminate.
  assert (N6 : msgDraco <> msgKTX2) by discriminate.
  destruct (Nat.ltb (uvCount after) (uvCount before)),
    (Nat.ltb (materialCount after) (materialCount before)),
    (truthy (field "draco" os)),
    (truthy (field "ktx2" os) &&
     (gtb (textureCount before) zero || gtb (textureCount after) zero));
    cbn [List.app List.length];
    (split; [|lia]);
    repeat (constructor; [cbn [In]; intuition (eauto; congruence)|]);
    constructor.
Qed.

(** The theorem on four materials reduced to two, with both compressions
    requested. *)
Lemma analyzeComparison_highlights_distinct_witness :
  exists r,
    analyzeComparison fourMaterials twoMaterials (config true true) = Ok r /\
    NoDup (highlights r) /\
    (List.length (highlights r) <= 4)%nat.
Proof.
  apply (analyzeComparison_highlights_distinct fourMaterials twoMaterials
           [("draco", VBool true); ("ktx2", VBool true)]);
    reflexivity.
Defined.

(** X11. Only the first scene is read.  Whatever the other sections of a
    report hold, replacing the scenes after the first by any others changes
    neither the aggregate vertex count [getUploadVertexCount] extracts nor
    the vertex analysis in which the report takes part. *)
Theorem analyzeVertices_first_scene (fs : list (string * value))
  (s : value) (rest rest' : list value) (other : value) :
  Z.of_nat (List.length (s :: rest)) < 2 ^ 32 ->
  Z.of_nat (List.length (s :: rest')) < 2 ^ 32 ->
  let i := VObj (("scenes", section (s :: rest)) :: fs) in
  let i' := VObj (("scenes", section (s :: rest')) :: fs) in
  getUploadVertexCount i = getUploadVertexCount i' /\
  analyzeVertices i other = analyzeVertices i' other /\
  analyzeVertices other i = analyzeVertices other i'.
Proof.
  intros B B' i i'.
  assert (U : getUploadVertexCount i = getUploadVertexCount i').
  { unfold i, i', getUploadVertexCount, properties, section.
    cbn [member field lookup String.eqb Ascii.eqb Bool.eqb bind optMember
           truthy nth first].
    unfold gt. cbn [toNumber bind].
    rewrite !EvalFacts.gtb_ofNat_zero by lia.
    reflexivity. }
  assert (T : getTotalVertices i = getTotalVertices i') by reflexivity.
  split; [exact U|].
  unfold analyzeVertices. rewrite U, T. split; reflexivity.
Qed.

(** The theorem on a report with the aggregate 1200 in its first scene:
    a second scene with the aggregate 99 changes nothing. *)
Lemma analyzeVertices_first_scene_witness :
  getUploadVertexCount
    (VObj [("scenes", section [scene 1200]);
           ("meshes", section [mesh 1000 24000 ["POSITION"]])]) =
  getUploadVertexCount
    (VObj [("scenes", section [scene 1200; scene 99]);
           ("meshes", section [mesh 1000 24000 ["POSITION"]])]).
Proof.
  refine (proj1 (analyzeVertices_first_scene
                   [("meshes", section [mesh 1000 24000 ["POSITION"]])]
                   (scene 1200) [] [scene 99] VUndefined _ _));
    cbn; lia.
Defined.

(** X12. In the UV analysis of two well-formed reports, [totalMeshes] is
    the number of meshes of the report before, and the number of meshes
    with texture coordinates before never exceeds it. *)
Theorem analyzeUV_total (before after : value) :
  wfInspect before = true -> wfInspect after = true ->
  exists r,
    analyzeUV before after = Ok r /\
    uv_totalMeshes r = VNum (ofNat (List.length (meshes before))) /\
    uv_before r = ofNat (uvCount before) /\
    (uvCount before <= List.length (meshes before))%nat /\
    gtb (uv_before r) (ofNat (List.length (meshes before))) = false.
Proof.
  intros Hb Ha. rewrite (EvalFacts.analyzeUV_wf before after Hb Ha).
  eexists. split; [reflexivity|]. cbn [uv_totalMeshes uv_before].
  split; [reflexivity|]. split; [reflexivity|].
  assert (L : (uvCount before <= List.length (meshes before))%nat)
    by apply List.filter_length_le.
  split; [exact L|].
  destruct (EvalFacts.wfInspect_inv before Hb) as (_ & Mb & _).
  pose proof (ReportFacts.items_bound _ _ Mb) as B.
  fold (meshes before) in B.
  unfold gtb. rewrite EvalFacts.ltb_ofNat by lia.
  apply Nat.ltb_ge. exact L.
Qed.

(** The theorem on three meshes with texture coordinates that lose
    them. *)
Lemma analyzeUV_total_witness :
  exists r,
    analyzeUV threeTextured threePruned = Ok r /\
    uv_totalMeshes r = VNum (ofNat 3) /\
    uv_before r = ofNat 3.
Proof.
  destruct (analyzeUV_total threeTextured threePruned eq_refl eq_refl)
    as (r & Hr & Ht & Hu & _).
  exists r. split; [exact Hr|]. split; [exact Ht | exact Hu].
Defined.

(** X13. [analyzeComparison] raises a [TypeError] when the report before
    is [null] or [undefined]; when the report before is well formed and
    the report after is [null] or [undefined]; and, for two well-formed
    reports, when the options are [null]: the default [{}] replaces
    [undefined] only. *)
Theorem analyzeComparison_nullish :
  (forall other options,
     analyzeComparison VNull other options = TypeError /\
     analyzeComparison VUndefined other options = TypeError) /\
  (forall before options,
     wfInspect before = true ->
     analyzeComparison before VNull options = TypeError /\
     analyzeComparison before VUndefined options = TypeError) /\
  (forall before other,
     wfInspect before = true -> wfInspect other = true ->
     analyzeComparison before other VNull = TypeError /\
     exists r, analyzeComparison before other VUndefined = Ok r).
Proof.
  split; [|split].
  - intros other options. split; reflexivity.
  - intros before options Hb.
    destruct (EvalFacts.wfInspect_inv before Hb)
      as (Ob & Mb & _ & _ & Sb & _).
    unfold analyzeComparison, analyzeVertices.
    split; rewrite (EvalFacts.vertexMetric_wf before) by assumption;
      reflexivity.
  - intros before other Hb Ha. split.
    + destruct (EvalFacts.wfInspect_inv before Hb)
        as (Ob & _ & Mb & _).
      destruct (EvalFacts.wfInspect_inv other Ha)
        as (Oa & _ & Ma & _).
      unfold analyzeComparison.
      rewrite (EvalFacts.analyzeVertices_wf before other Hb Ha),
        (EvalFacts.analyzeUV_wf before other Hb Ha),
        (EvalFacts.analyzeGeometry_wf before other Hb Ha),
        (EvalFacts.analyzeMaterials_wf before other Hb Ha),
        (EvalFacts.analyzeAnimations_wf before other Hb Ha).
      cbn [bind]. unfold analyzeTextures.
      rewrite !EvalFacts.countTextures_wf by assumption. reflexivity.
    + destruct (EvalFacts.analyzeComparison_wf before other Hb Ha [])
        as [r [Hr _]].
      exists r. exact Hr.
Qed.

(** The theorem on a sample report. *)
Lemma analyzeComparison_nullish_witness :
  wfInspect withAggregate = true /\
  analyzeComparison withAggregate VNull (config true true) = TypeError /\
  analyzeComparison withAggregate withAggregate VNull = TypeError.
Proof.
  split; [reflexivity|].
  destruct analyzeComparison_nullish as (_ & H2 & H3).
  split.
  - exact (proj1 (H2 withAggregate (config true true) eq_refl)).
  - exact (proj1 (H3 withAggregate withAggregate eq_refl eq_refl)).
Defined.

(** X14. Of the options, the analysis of two well-formed reports reads
    only whether [draco] and [ktx2] are truthy: two option objects that
    agree on these give the same analysis, whatever else they hold. *)
Theorem analyzeComparison_options (before after : value)
  (os os' : list (string * value)) :
  wfInspect before = true -> wfInspect after = true ->
  truthy (field "draco" os) = truthy (field "draco" os') ->
  truthy (field "ktx2" os) = truthy (field "ktx2" os') ->
  analyzeComparison before after (VObj os) =
  analyzeComparison before after (VObj os').
Proof.
  intros Hb Ha Hd Hk. unfold analyzeComparison.
  rewrite (EvalFacts.analyzeVertices_wf before after Hb Ha),
    (EvalFacts.analyzeUV_wf before after Hb Ha),
    (EvalFacts.analyzeGeometry_wf before after Hb Ha),
    (EvalFacts.analyzeMaterials_wf before after Hb Ha),
    (EvalFacts.analyzeAnimations_wf before after Hb Ha),
    !(EvalFacts.analyzeTextures_wf before after Hb Ha).
  cbn [bind].
  rewrite !(EvalFacts.generateHighlights_wf before after Hb Ha).
  rewrite Hd, Hk. reflexivity.
Qed.

(** The theorem on the options [{draco: 1, maxTex: 2048}] against
    [{draco: true, ktx2: false}]. *)
Lemma analyzeComparison_options_witness :
  analyzeComparison fourMaterials twoMaterials
    (VObj [("draco", VNum (ofZ 1)); ("maxTex", VNum (ofZ 2048))]) =
  analyzeComparison fourMaterials twoMaterials (config true false).
Proof.
  apply (analyzeComparison_options fourMaterials twoMaterials
           [("draco", VNum (ofZ 1)); ("maxTex", VNum (ofZ 2048))]
           [("draco", VBool true); ("ktx2", VBool false)]);
    reflexivity.
Defined.

(** ** A metric that falls to zero *)

Module RatioFacts.

Import NumFacts.

(** A finite number divided by its magnitude is 1 or -1, exactly. *)
Lemma div_self (s : bool) (m : positive) (e : Z) :
  div (S754_finite s m e) (S754_finite false m e) =
  if s then ofZ (-1) else ofZ 1.
Proof.
  unfold div. cbn [SFdiv]. unfold SFdiv_core_binary.
  replace (Zdigits2 (Z.pos m) + e - (Zdigits2 (Z.pos m) + e)) with 0 by lia.
  replace (e - e) with 0 by lia.
  change (IntDef.Z.min (fexp prec emax 0) 0) with (-53).
  change (0 - -53) with 53.
  cbv beta iota zeta.
  destruct (IntDef.Z.div_eucl (IntDef.Z.shiftl (Z.pos m) 53) (Z.pos m))
    as [q r] eqn:E.
  assert (Hq : q = 2 ^ 53).
  { replace q with (Z.shiftl (Z.pos m) 53 / Z.pos m)
      by (unfold Z.div; now rewrite E).
    rewrite Z.shiftl_mul_pow2 by lia.
    rewrite Z.mul_comm. apply Z.div_mul. lia. }
  assert (Hr : r = 0).
  { replace r with (Z.shiftl (Z.pos m) 53 mod Z.pos m)
      by (unfold Z.modulo; now rewrite E).
    rewrite Z.shiftl_mul_pow2 by lia.
    rewrite Z.mul_comm. apply Z.mod_mul. lia. }
  subst q r. unfold new_location.
  rewrite xorb_false_r.
  destruct (IntDef.Z.even (Z.pos m)); destruct s; vm_compute; reflexivity.
Qed.

(** The percentage of a positive finite value that falls to zero. *)
Lemma percentText_removed (b a : number) :
  gtb b zero = true -> isFinite b = true -> isZero a = true ->
  Shape.percentText (sub a b) b = "-100.0%".
Proof.
  intros Hp Hf Hz. unfold Shape.percentText. rewrite Hp.
  destruct (SignFacts.positive_finite b Hp Hf) as [m [e ->]].
  destruct a as [sa|sa| |sa ma ea]; try discriminate.
  unfold sub. cbn [SFsub negb]. rewrite (div_self true m e).
  reflexivity.
Qed.

End RatioFacts.

(** X15. When the vertex metric of the report before is positive and
    finite and that of the report after is zero, the vertex percentage is
    exactly ["-100.0%"]; the same holds of the geometry size. *)
Theorem analyzeComparison_all_removed (before after : value)
  (os : list (string * value)) :
  wfInspect before = true -> wfInspect after = true ->
  exists r,
    analyzeComparison before after (VObj os) = Ok r /\
    (gtb (vertexMetric before) zero = true ->
     isFinite (vertexMetric before) = true ->
     isZero (vertexMetric after) = true ->
     v_percent (vertices r) = "-100.0%") /\
    (gtb (geometrySize before) zero = true ->
     isFinite (geometrySize before) = true ->
     isZero (geometrySize after) = true ->
     g_percent (geometry r) = "-100.0%").
Proof.
  intros Hb Ha.
  destruct (EvalFacts.analyzeComparison_wf before after Hb Ha os)
    as (r & Hr & Hv & _ & Hg & _).
  exists r. split; [exact Hr|].
  rewrite (EvalFacts.analyzeVertices_wf before after Hb Ha) in Hv.
  rewrite (EvalFacts.analyzeGeometry_wf before after Hb Ha) in Hg.
  injection Hv as Hv. injection Hg as Hg. rewrite <- Hv, <- Hg.
  cbn [v_percent g_percent].
  split; intros; now apply RatioFacts.percentText_removed.
Qed.

(** The theorem on a mesh of ten thousand vertices against a report
    without meshes. *)
Lemma analyzeComparison_all_removed_witness :
  exists r,
    analyzeComparison tenThousand (VObj []) (VObj []) = Ok r /\
    v_percent (vertices r) = "-100.0%" /\
    g_percent (geometry r) = "-100.0%".
Proof.
  destruct (analyzeComparison_all_removed tenThousand (VObj []) []
              eq_refl eq_refl)
    as (r & Hr & Hv & Hg).
  exists r. split; [exact Hr|]. split.
  - apply Hv; reflexivity.
  - apply Hg; reflexivity.
Defined.

(** ** The clean-up of the transient file, again *)

Lemma mem_remove_other (p q : string) (l : list string) :
  q <> p -> Pipeline.mem q (Pipeline.remove p l) = Pipeline.mem q l.
Proof.
  intro N. unfold Pipeline.mem, Pipeline.remove.
  induction l as [|x l IH]; [reflexivity|].
  cbn [List.filter existsb]. destruct (String.eqb_spec p x) as [E|E];
    cbn [negb existsb].
  - subst x. destruct (String.eqb_spec q p) as [E'|_]; [now elim N|].
    exact IH.
  - now rewrite IH.
Qed.

(** X16. A second [cleanupTempFile] of the same path returns [false] and
    changes nothing, whether the first call removed the file, found none,
    or could not remove it. *)
Theorem cleanupTempFile_idempotent (path : string) (w : Pipeline.World) :
  let w1 := snd (Pipeline.cleanupTempFile path w) in
  Pipeline.cleanupTempFile path w1 = (Pipeline.Returned false, w1).
Proof.
  destruct (cleanupTempFile_total path w)
    as [cleaned [w' [Hc [_ [Hgone Hsame]]]]].
  rewrite Hc. cbn [snd]. destruct cleaned.
  - unfold Pipeline.cleanupTempFile, Pipeline.seq, Pipeline.existsSync.
    rewrite (Hgone eq_refl). reflexivity.
  - rewrite (Hsame eq_refl) in *. exact Hc.
Qed.

(** X17. [cleanupTempFile] touches nothing but the file it is given: the
    files that remain keep their order, every other path exists afterwards
    exactly when it existed before, and the locks, the console output and
    the spinner are unchanged. *)
Theorem cleanupTempFile_frame (path : string) (w : Pipeline.World) :
  exists cleaned w',
    Pipeline.cleanupTempFile path w = (Pipeline.Returned cleaned, w') /\
    Pipeline.files (Pipeline.fs w') =
      (if (cleaned : bool)
       then Pipeline.remove path (Pipeline.files (Pipeline.fs w))
       else Pipeline.files (Pipeline.fs w)) /\
    Pipeline.locked (Pipeline.fs w') = Pipeline.locked (Pipeline.fs w) /\
    Pipeline.console w' = Pipeline.console w /\
    Pipeline.spinner w' = Pipeline.spinner w /\
    (forall q,
       q <> path ->
       Pipeline.mem q (Pipeline.files (Pipeline.fs w')) =
       Pipeline.mem q (Pipeline.files (Pipeline.fs w))).
Proof.
  unfold Pipeline.cleanupTempFile, Pipeline.seq, Pipeline.existsSync,
    Pipeline.tryCatch, Pipeline.unlinkSync, Pipeline.ret.
  cbv beta.
  destruct (Pipeline.mem path (Pipeline.files (Pipeline.fs w))) eqn:E;
    cbv beta iota; rewrite ?E; cbn [negb].
  - destruct (Pipeline.mem path (Pipeline.locked (Pipeline.fs w))).
    + exists false, w. repeat split; reflexivity.
    + eexists true, _. split; [reflexivity|].
      cbn [Pipeline.fs Pipeline.files Pipeline.locked Pipeline.console
             Pipeline.spinner].
      repeat split; try reflexivity.
      intros q N. now apply mem_remove_other.
  - exists false, w. repeat split; reflexivity.
Qed.

(** ** The vertex line of the printed report *)

(** *** Reading back the text of a percentage *)

Module ParseFacts.

Import NumFacts StrFacts Parse.

Lemma trimStart_ascii (c : ascii) (rest : string) :
  isAscii c = true -> space1 c = false ->
  trimStart (String c rest) = String c rest.
Proof.
  intros Ha Hs. unfold isAscii in Ha. apply Nat.ltb_lt in Ha.
  cbn [trimStart]. rewrite Hs.
  assert (N2 : forall c2, space2 c c2 = false).
  { intro c2. unfold space2, byte.
    destruct (Nat.eqb_spec (nat_of_ascii c) 194); [lia | reflexivity]. }
  assert (N3 : forall c2 c3, space3 c c2 c3 = false).
  { intros c2 c3. unfold space3, byte.
    destruct (Nat.eqb_spec (nat_of_ascii c) 225); [lia|].
    destruct (Nat.eqb_spec (nat_of_ascii c) 226); [lia|].
    destruct (Nat.eqb_spec (nat_of_ascii c) 227); [lia|].
    destruct (Nat.eqb_spec (nat_of_ascii c) 239); [lia|].
    reflexivity. }
  destruct rest as [|c2 [|c3 rest]]; rewrite ?N2, ?N3; reflexivity.
Qed.

Lemma digitsOf_app (a rest : string) :
  allChars isDigit a = true -> headDigit rest = false ->
  digitsOf (a ++ rest) = (a, rest).
Proof.
  intros Ha Hr. induction a as [|c a IH].
  - destruct rest as [|c r]; [reflexivity|].
    cbn [append digitsOf]. cbn [headDigit] in Hr. now rewrite Hr.
  - cbn [allChars] in Ha. apply andb_prop in Ha as [Hc Ha].
    cbn [append digitsOf]. rewrite Hc, (IH Ha). reflexivity.
Qed.

Lemma decimalFrom_app (a b : string) (acc : Z) :
  decimalFrom (a ++ b) acc = decimalFrom b (decimalFrom a acc).
Proof.
  revert acc. induction a as [|c a IH]; intro acc; [reflexivity|].
  cbn [append decimalFrom]. apply IH.
Qed.

Lemma decimalFrom_zeros (j : nat) : decimalFrom (zeros j) 0 = 0.
Proof. induction j as [|j IH]; [reflexivity|]. exact IH. Qed.

Lemma decimalFrom_acc (d : Decimal.uint) (acc : positive) :
  decimalFrom (NilEmpty.string_of_uint d) (Z.pos acc) =
  Z.pos (Pos.of_uint_acc d acc).
Proof.
  revert acc. induction d; intro acc; cbn [NilEmpty.string_of_uint];
    [reflexivity|..];
    cbn [decimalFrom Pos.of_uint_acc]; rewrite <- IHd; f_equal.
  all: match goal with
       | |- context [Z.of_nat ?t] =>
           let v := eval vm_compute in (Z.of_nat t) in
           change (Z.of_nat t) with v
       end; lia.
Qed.

Lemma decimalFrom_uint (d : Decimal.uint) :
  decimalFrom (NilEmpty.string_of_uint d) 0 = Z.of_N (Pos.of_uint d).
Proof.
  induction d; cbn [NilEmpty.string_of_uint]; [reflexivity|..];
    cbn [decimalFrom Pos.of_uint].
  - exact IHd.
  - apply (decimalFrom_acc d 1).
  - apply (decimalFrom_acc d 2).
  - apply (decimalFrom_acc d 3).
  - apply (decimalFrom_acc d 4).
  - apply (decimalFrom_acc d 5).
  - apply (decimalFrom_acc d 6).
  - apply (decimalFrom_acc d 7).
  - apply (decimalFrom_acc d 8).
  - apply (decimalFrom_acc d 9).
Qed.

Lemma decimal_digits (n : Z) : 0 <= n -> decimal (digits n) = n.
Proof.
  intro H. unfold decimal, digits. rewrite decimalFrom_uint.
  change (Pos.of_uint (N.to_uint (Z.to_N n)))
    with (N.of_uint (N.to_uint (Z.to_N n))).
  rewrite DecimalN.Unsigned.of_to. lia.
Qed.


Lemma append_assoc (a b c : string) : (a ++ b) ++ c = a ++ (b ++ c).
Proof.
  induction a as [|x a IH]; [reflexivity|].
  cbn [append]. now rewrite IH.
Qed.

Lemma substring_split (s : string) (j : nat) :
  (j <= String.length s)%nat ->
  substring 0 j s ++ substring j (String.length s - j) s = s.
Proof.
  revert j. induction s as [|c s IH]; intros j H.
  - cbn [String.length] in H. destruct j; [reflexivity | lia].
  - destruct j as [|j].
    + cbn [substring append String.length Nat.sub].
      f_equal. specialize (IH 0%nat (Nat.le_0_l _)).
      rewrite Nat.sub_0_r in IH.
      replace (substring 0 0 s) with EmptyString in IH
        by (destruct s; reflexivity).
      exact IH.
    + cbn [String.length] in H.
      cbn [substring append String.length Nat.sub].
      f_equal. apply IH. lia.
Qed.

Lemma substring_length (s : string) (j k : nat) :
  (j + k <= String.length s)%nat -> String.length (substring j k s) = k.
Proof.
  revert j k. induction s as [|c s IH]; intros j k H.
  - cbn [String.length] in H.
    assert (j = 0%nat) by lia. assert (k = 0%nat) by lia. subst.
    reflexivity.
  - cbn [String.length] in H. destruct j as [|j].
    + destruct k as [|k]; [reflexivity|].
      cbn [substring String.length]. f_equal. apply (IH 0%nat). lia.
    + cbn [substring]. apply IH. lia.
Qed.

(** The text of [n] tenths: the digits of [n] with a point before the
    last one. *)
Lemma pointed_parts (n : Z) :
  0 <= n ->
  exists a b,
    pointed n 1 = a ++ "." ++ b /\
    allChars isDigit a = true /\ allChars isDigit b = true /\
    headDigit b = true /\ String.length b = 1%nat /\
    decimal (a ++ b) = n.
Proof.
  intro Hn. unfold pointed.
  set (m := digits n).
  set (m' := if Nat.leb (String.length m) 1
             then zeros (1 + 1 - String.length m) ++ m else m).
  assert (Hall : allChars isDigit m' = true).
  { subst m' m. destruct (Nat.leb _ _); [|apply digits_all].
    rewrite allChars_app, digits_all, andb_true_r.
    generalize (1 + 1 - String.length (digits n))%nat.
    induction n0 as [|j IH]; [reflexivity | exact IH]. }
  assert (Hval : decimal m' = n).
  { subst m' m. destruct (Nat.leb _ _); [|now apply decimal_digits].
    unfold decimal. rewrite decimalFrom_app, decimalFrom_zeros.
    now apply decimal_digits. }
  assert (Hlen : (2 <= String.length m')%nat).
  { subst m'. pose proof (head_length _ (digits_head n)) as H1.
    fold m in H1.
    destruct (Nat.leb_spec (String.length m) 1) as [L|L]; [|lia].
    rewrite length_app, zeros_length. lia. }
  set (k := String.length m') in *.
  exists (takeStr (k - 1) m'), (dropStr (k - 1) m').
  unfold takeStr, dropStr. fold k.
  assert (Hsplit : substring 0 (k - 1) m' ++ substring (k - 1) (k - (k - 1)) m'
                   = m') by (apply substring_split; lia).
  assert (Hl : String.length (substring (k - 1) (k - (k - 1)) m') = 1%nat).
  { rewrite substring_length; [lia|]. fold k. lia. }
  split; [reflexivity|].
  split; [now apply allChars_substring|].
  split; [now apply allChars_substring|].
  split; [|split; [exact Hl|]].
  - pose proof (allChars_substring isDigit m' Hall (k - 1) (k - (k - 1)))
      as Hd.
    destruct (substring (k - 1) (k - (k - 1)) m') as [|c r];
      [discriminate Hl|].
    cbn [allChars] in Hd. now apply andb_prop in Hd as [Hd _].
  - now rewrite Hsplit.
Qed.

Lemma digit_head_prefix (t s tail : string) :
  headDigit t = false -> headDigit s = true ->
  t <> EmptyString -> String.prefix t (s ++ tail) = false.
Proof.
  intros Ht Hs Hn. destruct t as [|c t]; [now elim Hn|].
  destruct s as [|c' s]; [discriminate|].
  cbn [headDigit] in *. cbn [append String.prefix].
  destruct (ascii_dec c c') as [E|E]; [|reflexivity].
  subst c'. congruence.
Qed.

(** The value [parseFloat] reads from the text of [n] tenths. *)
Lemma unsignedLiteral_pointed (n : Z) :
  0 <= n ->
  unsignedLiteral (pointed n 1 ++ "%") = Some (roundDecimal n (-1)).
Proof.
  intro Hn. unfold unsignedLiteral.
  rewrite (digit_head_prefix "Infinity" (pointed n 1) "%");
    [|reflexivity | apply pointed_head | discriminate].
  destruct (pointed_parts n Hn) as (a & b & -> & Ha & Hb & Hh & Hl & Hv).
  rewrite !append_assoc.
  rewrite (digitsOf_app a) by (assumption || reflexivity).
  change ("." ++ b ++ "%") with (String "." (b ++ "%")).
  cbv beta iota.
  replace (Ascii.eqb "." "." && (negb (isEmpty a) || headDigit (b ++ "%")))
    with true.
  - rewrite (digitsOf_app b) by (assumption || reflexivity).
    destruct b as [|c b]; [discriminate Hl|].
    rewrite andb_false_r. rewrite Hl, Hv. reflexivity.
  - rewrite (head_app b "%" Hh), orb_true_r. reflexivity.
Qed.

End ParseFacts.

(** *** The exponent of a quotient *)

Module RoundFacts.

Import NumFacts.

Lemma shr_1_half (mrs : shr_record) :
  0 <= shr_m mrs -> shr_m (shr_1 mrs) = shr_m mrs / 2.
Proof.
  destruct mrs as [m r t]. cbn [shr_m]. intro H.
  destruct m as [|[p|p|]|p]; cbn [shr_1 shr_m]; try lia; try reflexivity.
  - apply (Z.div_unique_pos _ 2 _ 1); lia.
  - apply (Z.div_unique_pos _ 2 _ 0); lia.
Qed.

Lemma iter_shr_half (p : positive) (mrs : shr_record) :
  0 <= shr_m mrs ->
  shr_m (iter_pos shr_1 p mrs) = shr_m mrs / 2 ^ Z.pos p.
Proof.
  intro H. rewrite iter_pos_iter.
  induction p using Pos.peano_ind.
  - cbn [Pos.iter]. rewrite shr_1_half by exact H. reflexivity.
  - rewrite Pos.iter_succ, shr_1_half.
    + rewrite IHp, Pos2Z.inj_succ, Z.pow_succ_r, Z.div_div by lia.
      f_equal. lia.
    + rewrite <- iter_pos_iter. now apply iter_shr_nonneg.
Qed.

Lemma digits_bounds (x : Z) :
  0 < x -> 2 ^ (Zdigits2 x - 1) <= x < 2 ^ Zdigits2 x.
Proof.
  intro H. destruct x as [|p|p]; try lia. cbn [Zdigits2].
  rewrite digits2_log2.
  pose proof (Z.log2_spec (Z.pos p) H) as L.
  replace (Z.log2 (Z.pos p) + 1 - 1) with (Z.log2 (Z.pos p)) by lia.
  replace (Z.log2 (Z.pos p) + 1) with (Z.succ (Z.log2 (Z.pos p))) by lia.
  exact L.
Qed.

Lemma digits_lower (x k : Z) : 0 <= k -> 2 ^ k <= x -> k + 1 <= Zdigits2 x.
Proof.
  intros Hk H.
  assert (Hx : 0 < x) by (pose proof (Z.pow_pos_nonneg 2 k); lia).
  destruct (digits_bounds x Hx) as [_ U].
  destruct (Z.le_gt_cases (k + 1) (Zdigits2 x)) as [L|L]; [exact L|].
  assert (2 ^ Zdigits2 x <= 2 ^ k); [|lia].
  apply Z.pow_le_mono_r; lia.
Qed.

(** A shift to 53 bits keeps the leading bit. *)
Lemma shr_fexp_normal (x e : Z) (l : location) :
  0 < x -> 53 <= Zdigits2 x -> -1074 <= Zdigits2 x + e - 53 ->
  exists mrs,
    shr_fexp prec emax x e l = (mrs, e + (Zdigits2 x - 53)) /\
    2 ^ 52 <= shr_m mrs < 2 ^ 53.
Proof.
  intros Hx Hd He.
  assert (Hp : prec = 53) by reflexivity.
  assert (Hm : emin prec emax = -1074) by reflexivity.
  destruct (digits_bounds x Hx) as [Lo Hi].
  unfold shr_fexp, fexp. rewrite Hm.
  replace (IntDef.Z.max (Zdigits2 x + e - prec) (-1074) - e)
    with (Zdigits2 x - 53) by lia.
  assert (H0 : shr_m (shr_record_of_loc x l) = x)
    by (destruct l as [|[]]; reflexivity).
  unfold shr. destruct (Zdigits2 x - 53) as [|p|p] eqn:E; try lia.
  - eexists. split; [f_equal; lia|]. rewrite H0.
    replace (Zdigits2 x) with 53 in * by lia.
    change (53 - 1) with 52 in Lo. lia.
  - eexists. split; [reflexivity|].
    rewrite iter_shr_half by (rewrite H0; lia). rewrite H0.
    assert (P : 0 < 2 ^ Z.pos p) by (apply Z.pow_pos_nonneg; lia).
    split.
    + apply Z.div_le_lower_bound; [exact P|].
      rewrite <- Z.pow_add_r by lia.
      replace (Z.pos p + 52) with (Zdigits2 x - 1) by lia. exact Lo.
    + apply Z.div_lt_upper_bound; [exact P|].
      rewrite <- Z.pow_add_r by lia.
      replace (Z.pos p + 53) with (Zdigits2 x) by lia. exact Hi.
Qed.

Lemma round_nearest_even_bounds (m : Z) (l : location) :
  m <= round_nearest_even m l <= m + 1.
Proof.
  destruct l as [|[]]; cbn [round_nearest_even]; try lia.
  destruct (IntDef.Z.even m); lia.
Qed.

(** Rounding a mantissa of at least 53 bits in the normal range gives a
    finite number whose exponent is not below that of the 53 leading bits,
    or overflows. *)
Lemma round_aux_normal (s : bool) (x e : Z) (l : location) :
  0 < x -> 53 <= Zdigits2 x -> -1074 <= Zdigits2 x + e - 53 ->
  binary_round_aux prec emax s x e l = S754_infinity s \/
  exists m e',
    binary_round_aux prec emax s x e l = S754_finite s m e' /\
    e + Zdigits2 x - 53 <= e'.
Proof.
  intros Hx Hd He. unfold binary_round_aux.
  destruct (shr_fexp_normal x e l Hx Hd He) as (mrs & -> & B1).
  pose proof (round_nearest_even_bounds (shr_m mrs) (loc_of_shr_record mrs))
    as B2.
  set (mr := round_nearest_even (shr_m mrs) (loc_of_shr_record mrs)) in *.
  assert (Hr : 0 < mr) by lia.
  assert (Hdr : 53 <= Zdigits2 mr).
  { apply (digits_lower mr 52); lia. }
  destruct (shr_fexp_normal mr (e + (Zdigits2 x - 53)) loc_Exact Hr Hdr)
    as (mrs2 & -> & B3); [lia|].
  destruct (shr_m mrs2) as [|m|m] eqn:E; try lia.
  destruct (_ <=? _); [|now left].
  right. exists m. eexists. split; [reflexivity|]. lia.
Qed.

(** The quotient of two integers is finite with an exponent bounded below
    by the sizes of the operands, or overflows. *)
Lemma div_exponent (m1 m2 : positive) :
  -1021 <= Zdigits2 (Z.pos m1) - Zdigits2 (Z.pos m2) ->
  SFdiv prec emax (S754_finite false m1 0) (S754_finite false m2 0) =
    S754_infinity false \/
  exists m e,
    SFdiv prec emax (S754_finite false m1 0) (S754_finite false m2 0) =
      S754_finite false m e /\
    Zdigits2 (Z.pos m1) - Zdigits2 (Z.pos m2) - 53 <= e.
Proof.
  intro HA.
  assert (Hp : prec = 53) by reflexivity.
  assert (Hm : emin prec emax = -1074) by reflexivity.
  set (d1 := Zdigits2 (Z.pos m1)) in *.
  set (d2 := Zdigits2 (Z.pos m2)) in *.
  destruct (digits_bounds (Z.pos m1) eq_refl) as [Lo1 _]. fold d1 in Lo1.
  destruct (digits_bounds (Z.pos m2) eq_refl) as [_ Hi2]. fold d2 in Hi2.
  assert (D2 : 1 <= d2) by (unfold d2; cbn [Zdigits2]; lia).
  assert (D1 : 1 <= d1) by (unfold d1; cbn [Zdigits2]; lia).
  cbn [SFdiv xorb]. unfold SFdiv_core_binary. fold d1 d2.
  unfold fexp. rewrite Hm.
  set (e' := IntDef.Z.min
               (IntDef.Z.max (d1 + 0 - (d2 + 0) - prec) (-1074)) (0 - 0)).
  assert (He' : e' = Z.min (d1 - d2 - 53) 0) by (unfold e'; lia).
  set (sh := 0 - 0 - e').
  assert (Hs : sh = - e') by (unfold sh; lia).
  set (m' := match sh with
             | 0 => Z.pos m1
             | Z.pos _ => IntDef.Z.shiftl (Z.pos m1) sh
             | Z.neg _ => 0
             end).
  assert (Hm' : m' = Z.pos m1 * 2 ^ sh).
  { unfold m'. destruct sh as [|p|p] eqn:E; try lia.
    apply Z.shiftl_mul_pow2. lia. }
  destruct (IntDef.Z.div_eucl m' (Z.pos m2)) as [q r] eqn:E.
  assert (Hq : q = m' / Z.pos m2) by (unfold Z.div; now rewrite E).
  set (k := d1 - d2 - 1 + sh).
  assert (Hk : 52 <= k) by (unfold k; lia).
  assert (Q : 2 ^ k <= q).
  { rewrite Hq. apply Z.div_le_lower_bound; [lia|].
    rewrite Hm'.
    assert (2 ^ k * 2 ^ d2 <= Z.pos m1 * 2 ^ sh).
    { rewrite <- Z.pow_add_r by lia.
      replace (k + d2) with ((d1 - 1) + sh) by (unfold k; lia).
      rewrite Z.pow_add_r by lia.
      apply Z.mul_le_mono_nonneg_r; [|exact Lo1].
      apply Z.pow_nonneg. lia. }
    assert (0 < 2 ^ k) by (apply Z.pow_pos_nonneg; lia).
    nia. }
  assert (Hq0 : 0 < q).
  { assert (0 < 2 ^ k) by (apply Z.pow_pos_nonneg; lia). lia. }
  pose proof (digits_lower q k ltac:(lia) Q) as Dq.
  destruct (round_aux_normal false q e' (new_location (Z.pos m2) r))
    as [H|(m & e & H & B)]; try lia.
  - now left.
  - right. exists m, e. split; [exact H|]. unfold k in Dq. lia.
Qed.

End RoundFacts.

(** *** The threshold of the vertex line *)

Module VertexFacts.

Import NumFacts StrFacts Parse ParseFacts RoundFacts.

Lemma tenth_value : tenth = S754_finite false 7205759403792794 (-56).
Proof. vm_compute. reflexivity. Qed.

(** A number of tenths is below 0.1 only if it is zero. *)
Lemma tenths_threshold (n : Z) :
  0 <= n -> ltb (abs (roundDecimal n (-1))) tenth = (n =? 0).
Proof.
  intro Hn.
  destruct (Z.eq_dec n 0) as [->|N0]; [reflexivity|].
  destruct (Z.eq_dec n 1) as [->|N1]; [vm_compute; reflexivity|].
  replace (n =? 0) with false by (symmetry; apply Z.eqb_neq; exact N0).
  unfold roundDecimal.
  replace (n =? 0) with false by (symmetry; apply Z.eqb_neq; exact N0).
  change (0 <=? -1) with false. cbv iota.
  change (Z.to_pos (10 ^ (- -1))) with 10%positive.
  assert (D : 2 <= Zdigits2 (Z.pos (Z.to_pos n))).
  { rewrite Z2Pos.id by lia. apply (digits_lower n 1); lia. }
  rewrite tenth_value. unfold ltb, abs.
  destruct (div_exponent (Z.to_pos n) 10) as [H|(m & e & H & B)].
  - change (Zdigits2 10) with 4. lia.
  - rewrite H. reflexivity.
  - rewrite H. change (Zdigits2 10) with 4 in B.
    cbn [SFabs]. unfold SFltb. cbn [SFcompare].
    replace (e ?= -56) with Gt; [reflexivity|].
    symmetry. apply Z.compare_gt_iff. lia.
Qed.

Lemma abs_opp (x : number) : abs (SFopp x) = abs x.
Proof. destruct x; reflexivity. Qed.

Lemma digit_space (c : ascii) : isDigit c = true -> space1 c = false.
Proof.
  unfold isDigit, space1, byte. intro H. apply andb_prop in H as [H1 H2].
  apply Nat.leb_le in H1. apply Nat.leb_le in H2.
  destruct (Nat.leb_spec (nat_of_ascii c) 13); [lia|].
  rewrite andb_false_r.
  destruct (Nat.eqb_spec (nat_of_ascii c) 32); [lia | reflexivity].
Qed.

Lemma digit_sign (c : ascii) :
  isDigit c = true -> Ascii.eqb c "-" = false /\ Ascii.eqb c "+" = false.
Proof.
  intro H. split.
  - destruct (Ascii.eqb_spec c "-") as [->|]; [discriminate H | reflexivity].
  - destruct (Ascii.eqb_spec c "+") as [->|]; [discriminate H | reflexivity].
Qed.

(** What [parseFloat] reads from the text of [n] tenths and a percent
    sign. *)
Lemma parseFloat_tenths (n : Z) :
  0 <= n ->
  parseFloat (pointed n 1 ++ "%") = roundDecimal n (-1) /\
  parseFloat ("-" ++ pointed n 1 ++ "%") = SFopp (roundDecimal n (-1)).
Proof.
  intro Hn. pose proof (unsignedLiteral_pointed n Hn) as U.
  pose proof (pointed_head n 1) as Hh. unfold parseFloat. split.
  - destruct (pointed n 1) as [|c rest] eqn:E; [discriminate Hh|].
    cbn [headDigit] in Hh. change (String c rest ++ "%")
      with (String c (rest ++ "%")) in *.
    rewrite trimStart_ascii
      by (apply digit_ascii || apply digit_space; exact Hh).
    destruct (digit_sign c Hh) as [-> ->]. now rewrite U.
  - change ("-" ++ pointed n 1 ++ "%")
      with (String "-" (pointed n 1 ++ "%")).
    rewrite trimStart_ascii by reflexivity.
    change (Ascii.eqb "-" "-") with true. cbv iota. now rewrite U.
Qed.

Lemma roundScaled_nonneg (m : positive) (e : Z) (f : nat) :
  0 <= roundScaled m e f.
Proof.
  unfold roundScaled.
  assert (0 < 10 ^ Z.of_nat f) by (apply Z.pow_pos_nonneg; lia).
  destruct (0 <=? e) eqn:E.
  - apply Z.leb_le in E.
    assert (0 < 2 ^ e) by (apply Z.pow_pos_nonneg; lia). nia.
  - apply Z.leb_gt in E.
    apply Z.div_pos; [|apply Z.pow_pos_nonneg; lia].
    assert (0 < 2 ^ (- e)) by (apply Z.pow_pos_nonneg; lia). nia.
Qed.

Lemma includes_app_l (t a b : string) :
  includes t a = true -> includes t (a ++ b) = true.
Proof.
  assert (P : forall t a, String.prefix t a = true ->
                          String.prefix t (a ++ b) = true).
  { clear. induction t as [|c t IH]; intros a H.
    - destruct (a ++ b); reflexivity.
    - destruct a as [|c' a]; [discriminate H|].
      cbn [append String.prefix] in *.
      destruct (ascii_dec c c'); [now apply IH | discriminate H]. }
  induction a as [|c a IH]; intro H.
  - cbn [includes] in H. rewrite orb_false_r in H.
    pose proof (P t EmptyString H) as H'. cbn [append] in *.
    destruct b; cbn [includes]; rewrite H'; reflexivity.
  - cbn [includes] in H. apply orb_prop in H as [H|H].
    + change (String c a ++ b) with (String c (a ++ b)).
      cbn [includes].
      change (String c (a ++ b)) with (String c a ++ b).
      rewrite (P _ _ H). reflexivity.
    + change (String c a ++ b) with (String c (a ++ b)).
      cbn [includes]. rewrite (IH H). apply orb_true_r.
Qed.

(** The exponent notation shows in the text. *)
Lemma exponential_marker (x : number) (X : Z) :
  includes "e+" (exponential x X) = true.
Proof.
  unfold exponential. destruct (shortest _ _ _ _ _) as [s n].
  apply includes_app_r.
  destruct (digits (n - 1)); reflexivity.
Qed.

End VertexFacts.

(** *** Percentages in exponent notation *)

Module ExpFacts.

Import NumFacts StrFacts Parse ParseFacts RoundFacts VertexFacts.

(** *** The length of a decimal text *)

Lemma decimalFrom_lower (s : string) (acc : Z) :
  0 <= acc -> acc * 10 ^ Z.of_nat (String.length s) <= decimalFrom s acc.
Proof.
  revert acc. induction s as [|c s IH]; intros acc H.
  - cbn [String.length decimalFrom]. change (10 ^ Z.of_nat 0) with 1. lia.
  - cbn [String.length decimalFrom].
    rewrite Nat2Z.inj_succ, Z.pow_succ_r by lia.
    assert (V : 0 <= Z.of_nat (byte c - 48)) by lia.
    specialize (IH (10 * acc + Z.of_nat (byte c - 48)) ltac:(lia)).
    assert (0 < 10 ^ Z.of_nat (String.length s))
      by (apply Z.pow_pos_nonneg; lia).
    nia.
Qed.

Lemma decimalFrom_upper (s : string) (acc : Z) :
  0 <= acc -> allChars isDigit s = true ->
  decimalFrom s acc < (acc + 1) * 10 ^ Z.of_nat (String.length s).
Proof.
  revert acc. induction s as [|c s IH]; intros acc H Hs.
  - cbn [String.length decimalFrom]. change (10 ^ Z.of_nat 0) with 1. lia.
  - cbn [allChars] in Hs. apply andb_prop in Hs as [Hc Hs].
    cbn [String.length decimalFrom].
    rewrite Nat2Z.inj_succ, Z.pow_succ_r by lia.
    assert (V : 0 <= Z.of_nat (byte c - 48) <= 9).
    { unfold isDigit in Hc. apply andb_prop in Hc as [H1 H2].
      apply Nat.leb_le in H1. apply Nat.leb_le in H2. unfold byte. lia. }
    specialize (IH (10 * acc + Z.of_nat (byte c - 48)) ltac:(lia) Hs).
    assert (0 < 10 ^ Z.of_nat (String.length s))
      by (apply Z.pow_pos_nonneg; lia).
    nia.
Qed.

(** A number has fewer digits than a larger power of ten. *)
Lemma digits_length_lower (n : Z) (k : nat) :
  10 ^ Z.of_nat k <= n -> (k < String.length (digits n))%nat.
Proof.
  intro H.
  assert (Hn : 0 <= n).
  { assert (0 < 10 ^ Z.of_nat k) by (apply Z.pow_pos_nonneg; lia). lia. }
  pose proof (decimalFrom_upper (digits n) 0 ltac:(lia) (digits_all n)) as U.
  fold (decimal (digits n)) in U. rewrite decimal_digits in U by exact Hn.
  destruct (Nat.lt_ge_cases k (String.length (digits n))) as [L|L];
    [exact L|].
  assert (10 ^ Z.of_nat (String.length (digits n)) <= 10 ^ Z.of_nat k)
    by (apply Z.pow_le_mono_r; lia).
  lia.
Qed.

Lemma uint_leading (d : Decimal.uint) :
  d <> Decimal.Nil -> (forall d', d <> Decimal.D0 d') ->
  exists c rest,
    NilEmpty.string_of_uint d = String c rest /\
    1 <= Z.of_nat (byte c - 48).
Proof.
  intros N0 Nz.
  destruct d; try (now elim N0); try (now elim (Nz d));
    cbn [NilEmpty.string_of_uint]; do 2 eexists;
    (split; [reflexivity|]); vm_compute; discriminate.
Qed.

(** A positive number is at least the power of ten of its last digit
    position. *)
Lemma digits_length_upper (n : Z) :
  1 <= n -> 10 ^ (Z.of_nat (String.length (digits n)) - 1) <= n.
Proof.
  intro Hn. pose proof (decimal_digits n ltac:(lia)) as V.
  unfold digits in *.
  set (d := N.to_uint (Z.to_N n)) in *.
  assert (Hu : Decimal.unorm d = d).
  { unfold d. rewrite <- DecimalN.Unsigned.to_of.
    now rewrite DecimalN.Unsigned.of_to. }
  assert (Hz : Decimal.nzhead d <> Decimal.Nil).
  { intro E. apply DecimalFacts.unorm_0 in E. rewrite Hu in E.
    assert (Z0 : N.of_uint d = 0%N) by (rewrite E; reflexivity).
    unfold d in Z0. rewrite DecimalN.Unsigned.of_to in Z0. lia. }
  assert (Hh : Decimal.nzhead d = d).
  { rewrite <- Hu at 2. symmetry. now apply DecimalFacts.unorm_nzhead. }
  destruct (uint_leading d) as (c & rest & E & L).
  - intro E. rewrite E in Hz. now elim Hz.
  - intros d' E. apply (DecimalFacts.nzhead_nonzero d d'). now rewrite Hh.
  - rewrite E in *. unfold decimal in V. cbn [decimalFrom String.length] in *.
    pose proof (decimalFrom_lower rest (10 * 0 + Z.of_nat (byte c - 48))
                  ltac:(lia)) as Lo.
    rewrite V in Lo.
    replace (Z.of_nat (S (String.length rest)) - 1)
      with (Z.of_nat (String.length rest)) by lia.
    assert (0 < 10 ^ Z.of_nat (String.length rest))
      by (apply Z.pow_pos_nonneg; lia).
    nia.
Qed.


(** *** The digits of the exponent notation *)

Lemma candidate_pos (x : number) (X d k : Z) (r : Z * Z) :
  0 <= X -> 1 <= k -> candidate x X d k = Some r ->
  1 <= fst r /\ (snd r = d \/ snd r = d + 1).
Proof.
  intros HX Hk. unfold candidate.
  set (scale := 10 ^ (d - k)).
  set (lo := X / scale).
  assert (Hlo : 0 <= lo).
  { unfold lo. destruct (Z.eq_dec scale 0) as [->|N].
    - now rewrite Z.div_0_r.
    - apply Z.div_pos; [exact HX|].
      assert (0 <= scale) by (apply Z.pow_nonneg; lia). lia. }
  assert (Hn : 1 <= fst (if lo + 1 =? 10 ^ k then (1, d + 1) else (lo + 1, d))
               /\ (snd (if lo + 1 =? 10 ^ k then (1, d + 1) else (lo + 1, d))
                   = d \/
                   snd (if lo + 1 =? 10 ^ k then (1, d + 1) else (lo + 1, d))
                   = d + 1)).
  { destruct (lo + 1 =? 10 ^ k); cbn [fst snd]; lia. }
  destruct ((10 ^ (k - 1) <=? lo) && same (ofZ (lo * scale)) x) eqn:OkLo.
  - apply andb_prop in OkLo as [L _]. apply Z.leb_le in L.
    assert (P : 1 <= lo).
    { assert (0 < 10 ^ (k - 1)) by (apply Z.pow_pos_nonneg; lia). lia. }
    destruct (same (ofZ ((lo + 1) * scale)) x).
    + destruct (_ <? _); [|destruct (_ <? _); [|destruct (Z.even lo)]];
        intro E; injection E as <-; cbn [fst snd]; try exact Hn; lia.
    + intro E. injection E as <-. cbn [fst snd]. lia.
  - destruct (same (ofZ ((lo + 1) * scale)) x); [|discriminate].
    intro E. injection E as <-. exact Hn.
Qed.

Lemma shortest_pos (x : number) (X d : Z) (fuel : nat) :
  0 <= X -> 1 <= X / 10 ^ (d - 17) ->
  forall k, 1 <= k ->
    1 <= fst (shortest x X d k fuel) /\
    (snd (shortest x X d k fuel) = d \/
     snd (shortest x X d k fuel) = d + 1).
Proof.
  intros HX Hf. induction fuel as [|fuel IH]; intros k Hk.
  - cbn [shortest fst snd]. lia.
  - cbn [shortest]. destruct (candidate x X d k) as [r|] eqn:E.
    + now apply (candidate_pos x X d k).
    + apply IH. lia.
Qed.

(** The digits and the exponent of a number of at least 10^21. *)
Lemma shortest_large (x : number) (X : Z) :
  10 ^ 21 <= X ->
  1 <= fst (shortest x X (decimalLength X) 1 17) /\
  22 <= snd (shortest x X (decimalLength X) 1 17).
Proof.
  intro HX. unfold decimalLength.
  pose proof (digits_length_lower X 21 HX) as L.
  pose proof (digits_length_upper X ltac:(lia)) as U.
  set (d := Z.of_nat (String.length (digits X))) in *.
  assert (Hd : 22 <= d) by lia.
  destruct (shortest_pos x X d 17 ltac:(lia)) with (k := 1) as [P Q];
    try lia.
  apply Z.div_le_lower_bound; [apply Z.pow_pos_nonneg; lia|].
  assert (10 ^ (d - 17) <= 10 ^ (d - 1)) by (apply Z.pow_le_mono_r; lia).
  lia.
Qed.

Lemma atLeast1e21_integerPart (m : positive) (e : Z) :
  atLeast1e21 m e = true -> 10 ^ 21 <= integerPart m e.
Proof.
  unfold atLeast1e21, integerPart. destruct (0 <=? e) eqn:E; intro H.
  - now apply Z.leb_le in H.
  - apply Z.leb_le in H. apply Z.leb_gt in E.
    apply Z.div_le_lower_bound; [apply Z.pow_pos_nonneg; lia|]. lia.
Qed.

(** *** The magnitude of what is read back *)

Lemma digits_mono (a b : Z) : 0 < a -> a <= b -> Zdigits2 a <= Zdigits2 b.
Proof.
  intros Ha Hab. destruct a as [|p|p]; try lia.
  destruct b as [|q|q]; try lia. cbn [Zdigits2].
  rewrite !digits2_log2. pose proof (Z.log2_le_mono _ _ Hab). lia.
Qed.

Lemma above_tenth (s : bool) (m : positive) (e : Z) :
  -55 <= e -> ltb (abs (S754_finite s m e)) tenth = false.
Proof.
  intro H. rewrite tenth_value. unfold ltb, abs.
  cbn [SFabs]. unfold SFltb. cbn [SFcompare].
  replace (e ?= -56) with Gt; [reflexivity|].
  symmetry. apply Z.compare_gt_iff. lia.
Qed.

(** The Number value of a positive integer is finite with an exponent of
    at least -52, or overflows. *)
Lemma ofZ_exponent (z : Z) :
  1 <= z ->
  ofZ z = S754_infinity false \/
  exists m e, ofZ z = S754_finite false m e /\ -52 <= e.
Proof.
  intro Hz. destruct z as [|p|p]; try lia.
  assert (Hp : prec = 53) by reflexivity.
  assert (Hm : emin prec emax = -1074) by reflexivity.
  unfold ofZ. cbn [binary_normalize]. unfold binary_round.
  change (Z.pos (digits2_pos p)) with (Zdigits2 (Z.pos p)).
  set (dp := Zdigits2 (Z.pos p)).
  assert (D1 : 1 <= dp) by (unfold dp; cbn [Zdigits2]; lia).
  assert (F : fexp prec emax (dp + 0) = dp - 53) by (unfold fexp; lia).
  rewrite F.
  destruct (Z.le_gt_cases (dp - 53) 0) as [L|L].
  - pose proof (shl_align_fst p 0 (dp - 53) L) as A.
    assert (B : snd (shl_align p 0 (dp - 53)) = dp - 53).
    { unfold shl_align. destruct (dp - 53 - 0) eqn:E; cbn [snd]; lia. }
    destruct (shl_align p 0 (dp - 53)) as [mz ez]. cbn [fst snd] in A, B.
    subst ez.
    assert (Dz : Zdigits2 (Z.pos mz) = 53).
    { cbn [Zdigits2]. rewrite digits2_log2, A, Z.log2_mul_pow2 by lia.
      unfold dp. cbn [Zdigits2]. rewrite digits2_log2. lia. }
    destruct (round_aux_normal false (Z.pos mz) (dp - 53) loc_Exact)
      as [H|(m & e & H & Bd)]; try lia.
    + now left.
    + right. exists m, e. split; [exact H | lia].
  - assert (B : shl_align p 0 (dp - 53) = (p, 0)).
    { unfold shl_align. destruct (dp - 53 - 0) eqn:E; try reflexivity. lia. }
    rewrite B.
    destruct (round_aux_normal false (Z.pos p) 0 loc_Exact)
      as [H|(m & e & H & Bd)]; try (fold dp; lia).
    + now left.
    + right. exists m, e. split; [exact H|]. fold dp in Bd. lia.
Qed.

(** A decimal number of at least 1 reads as at least 0.1. *)
Lemma roundDecimal_large (M E : Z) :
  1 <= M -> (E < 0 -> 10 ^ (- E) <= M) ->
  ltb (abs (roundDecimal M E)) tenth = false.
Proof.
  intros HM HE. unfold roundDecimal.
  replace (M =? 0) with false by (symmetry; apply Z.eqb_neq; lia).
  destruct (0 <=? E) eqn:Es.
  - apply Z.leb_le in Es.
    assert (P : 1 <= M * 10 ^ E).
    { assert (0 < 10 ^ E) by (apply Z.pow_pos_nonneg; lia). nia. }
    destruct (ofZ_exponent _ P) as [->|(m & e & -> & B)]; [reflexivity|].
    apply above_tenth. lia.
  - apply Z.leb_gt in Es. specialize (HE Es).
    assert (T : 0 < 10 ^ (- E)) by (apply Z.pow_pos_nonneg; lia).
    pose proof (digits_mono _ _ T HE) as Dm.
    destruct (div_exponent (Z.to_pos M) (Z.to_pos (10 ^ (- E))))
      as [H|(m & e & H & B)]; rewrite ?Z2Pos.id by lia; try lia.
    + rewrite H. reflexivity.
    + rewrite H. apply above_tenth. rewrite !Z2Pos.id in B by lia. lia.
Qed.


(** *** Reading back the exponent notation *)

Lemma prefix_nil (s : string) : String.prefix EmptyString s = true.
Proof. destruct s; reflexivity. Qed.

(** What [parseFloat] reads from the digits [s], a point after the first
    of them, and the exponent [n - 1]. *)
Lemma unsignedLiteral_exponential (x : number) (X : Z) :
  let s := fst (shortest x X (decimalLength X) 1 17) in
  let n := snd (shortest x X (decimalLength X) 1 17) in
  1 <= s -> 1 <= n ->
  unsignedLiteral (exponential x X ++ "%") =
  Some (roundDecimal s (n - Z.of_nat (String.length (digits s)))).
Proof.
  intros s n Hs Hn. unfold exponential. fold s n.
  destruct (shortest x X (decimalLength X) 1 17) as [s' n'].
  cbn [fst snd] in s, n. subst s n.
  pose proof (decimal_digits s' ltac:(lia)) as V.
  pose proof (digits_all s') as A. pose proof (digits_head s') as Hh.
  pose proof (decimal_digits (n' - 1) ltac:(lia)) as VE.
  pose proof (digits_all (n' - 1)) as AE.
  pose proof (digits_head (n' - 1)) as HE.
  set (ds := digits s') in *. set (dg := digits (n' - 1)) in *.
  assert (EP : exponentPart (String "e" (String "+" (dg ++ "%"))) = n' - 1).
  { cbn [exponentPart]. change (Ascii.eqb "e" "e") with true.
    change (Ascii.eqb "+" "+") with true. cbn [orb].
    rewrite (digitsOf_app dg "%") by (assumption || reflexivity).
    destruct dg as [|c0 r0]; [discriminate HE|].
    cbn [isEmpty]. rewrite VE. lia. }
  unfold unsignedLiteral.
  destruct ds as [|c rest] eqn:Eds; [discriminate Hh|].
  cbn [headDigit] in Hh. cbn [allChars] in A.
  apply andb_prop in A as [_ A].
  assert (NI : forall t, String.prefix "Infinity" (String c t) = false).
  { intro t. cbn [String.prefix].
    destruct (ascii_dec "I" c) as [<-|]; [discriminate Hh|reflexivity]. }
  destruct rest as [|c2 rest2].
  - (* one digit *)
    cbn [append]. rewrite NI. cbn [digitsOf]. rewrite Hh.
    change (isDigit "e") with false. cbv beta iota.
    change (Ascii.eqb "e" ".") with false.
    cbn [andb isEmpty String.length Z.of_nat append].
    rewrite EP. f_equal. f_equal; [exact V | lia].
  - (* several digits *)
    cbn [append]. rewrite NI. cbn [digitsOf]. rewrite Hh.
    change (isDigit ".") with false. cbv beta iota.
    change (Ascii.eqb "." ".") with true. cbn [isEmpty negb orb andb].
    rewrite append_assoc. cbn [append].
    change (String c2 (rest2 ++ String "e" (String "+" (dg ++ "%"))))
      with (String c2 rest2 ++ String "e" (String "+" (dg ++ "%"))).
    rewrite (digitsOf_app (String c2 rest2)) by (assumption || reflexivity).
    cbn [append].
    rewrite EP. f_equal. f_equal; [exact V|]. cbn [String.length]. lia.
Qed.

(** What [parseFloat] reads from a text in exponent notation and a
    percent sign. *)
Lemma parseFloat_exponential (x : number) (X : Z) :
  let s := fst (shortest x X (decimalLength X) 1 17) in
  let n := snd (shortest x X (decimalLength X) 1 17) in
  1 <= s -> 1 <= n ->
  parseFloat (exponential x X ++ "%") =
    roundDecimal s (n - Z.of_nat (String.length (digits s))) /\
  parseFloat ("-" ++ exponential x X ++ "%") =
    SFopp (roundDecimal s (n - Z.of_nat (String.length (digits s)))).
Proof.
  intros s n Hs Hn.
  pose proof (unsignedLiteral_exponential x X Hs Hn) as U.
  fold s n in U.
  pose proof (exponential_head x X) as Hh. unfold parseFloat. split.
  - destruct (exponential x X) as [|c rest] eqn:E; [discriminate Hh|].
    cbn [headDigit] in Hh.
    change (String c rest ++ "%") with (String c (rest ++ "%")) in *.
    rewrite trimStart_ascii
      by (apply digit_ascii || apply digit_space; exact Hh).
    destruct (digit_sign c Hh) as [-> ->]. now rewrite U.
  - change ("-" ++ exponential x X ++ "%")
      with (String "-" (exponential x X ++ "%")).
    rewrite trimStart_ascii by reflexivity.
    change (Ascii.eqb "-" "-") with true. cbv iota. now rewrite U.
Qed.

(** A number of at least 10^21 reads back as at least 0.1. *)
Lemma exponential_large (x : number) (X : Z) :
  10 ^ 21 <= X ->
  ltb (abs (parseFloat (exponential x X ++ "%"))) tenth = false /\
  ltb (abs (parseFloat ("-" ++ exponential x X ++ "%"))) tenth = false.
Proof.
  intro HX. destruct (shortest_large x X HX) as [Hs Hn].
  destruct (parseFloat_exponential x X Hs ltac:(lia)) as [-> ->].
  rewrite abs_opp.
  set (s := fst (shortest x X (decimalLength X) 1 17)) in *.
  set (n := snd (shortest x X (decimalLength X) 1 17)) in *.
  assert (L : ltb (abs (roundDecimal s
                          (n - Z.of_nat (String.length (digits s)))))
                tenth = false).
  { apply roundDecimal_large; [exact Hs|]. intro E.
    pose proof (digits_length_upper s Hs) as U.
    assert (10 ^ (- (n - Z.of_nat (String.length (digits s)))) <=
            10 ^ (Z.of_nat (String.length (digits s)) - 1))
      by (apply Z.pow_le_mono_r; lia).
    lia. }
  now split.
Qed.

(** The vertex percentage reads as less than 0.1 in magnitude exactly
    when it is ["0.0%"] or ["-0.0%"]. *)
Lemma percentText_small (diff before : number) :
  ltb (abs (parseFloat (Shape.percentText diff before))) tenth =
  String.eqb (Shape.percentText diff before) "0.0%" ||
  String.eqb (Shape.percentText diff before) "-0.0%".
Proof.
  unfold Shape.percentText. destruct (gtb before zero); [|reflexivity].
  set (x := mul (div diff before) hundred).
  destruct x as [s|s| |s m e]; try reflexivity.
  - destruct s; reflexivity.
  - cbn [toFixed]. destruct (atLeast1e21 m e) eqn:Big.
    + pose proof (atLeast1e21_integerPart m e Big) as HX.
      destruct (exponential_large (S754_finite false m e)
                  (integerPart m e) HX) as [L1 L2].
      set (t := exponential (S754_finite false m e) (integerPart m e)) in *.
      assert (M : forall sign, includes "e+" ((sign ++ t) ++ "%") = true).
      { intro sign. apply includes_app_l, includes_app_r.
        apply exponential_marker. }
      assert (N : forall sign z,
                 includes "e+" z = false ->
                 String.eqb ((sign ++ t) ++ "%") z = false).
      { intros sign z Hz. apply String.eqb_neq. intro E.
        rewrite <- E, M in Hz. discriminate Hz. }
      rewrite !N by reflexivity.
      destruct s.
      * change (("-" ++ t) ++ "%") with ("-" ++ t ++ "%"). exact L2.
      * change ((EmptyString ++ t) ++ "%") with (t ++ "%"). exact L1.
    + pose proof (roundScaled_nonneg m e 1) as Hn.
      set (n := roundScaled m e 1) in *.
      destruct (parseFloat_tenths n Hn) as [P1 P2].
      pose proof (tenths_threshold n Hn) as T.
      destruct s.
      * change (("-" ++ pointed n 1) ++ "%")
          with ("-" ++ pointed n 1 ++ "%").
        rewrite P2, abs_opp, T.
        destruct (Z.eqb_spec n 0) as [->|N0]; [reflexivity|].
        symmetry. apply orb_false_iff. split; [reflexivity|].
        apply String.eqb_neq. intro E.
        rewrite E in P2.
        assert (C : ltb (abs (parseFloat "-0.0%")) tenth = true)
          by reflexivity.
        rewrite P2, abs_opp, T in C. discriminate C.
      * change ((EmptyString ++ pointed n 1) ++ "%")
          with (pointed n 1 ++ "%").
        rewrite P1, T.
        destruct (Z.eqb_spec n 0) as [->|N0]; [reflexivity|].
        symmetry. apply orb_false_iff. split.
        -- apply String.eqb_neq. intro E.
           rewrite E in P1.
           assert (C : ltb (abs (parseFloat "0.0%")) tenth = true)
             by reflexivity.
           rewrite P1, T in C. discriminate C.
        -- pose proof (pointed_head n 1) as Hh.
           destruct (pointed n 1) as [|c rest]; [discriminate Hh|].
           cbn [headDigit] in Hh.
           apply String.eqb_neq. intro E. injection E as E _.
           subst c. discriminate Hh.
Qed.

End ExpFacts.

(** X18. In the printed report of two well-formed inspection reports,
    with [parseFloat] reading the percentage back, the vertex line shows
    ["0% 变化"] in gray exactly when the percentage is ["0.0%"] or
    ["-0.0%"]; otherwise it shows the percentage, in yellow as an increase
    when the difference is positive and in green as a decrease when it is
    not.  When the vertex metric before is not positive the line is
    ["0% 变化"], whatever the metric after. *)
Theorem printComparisonReport_vertices (paint : string -> string -> string)
  (before after : value) (os : list (string * value)) :
  wfInspect before = true -> wfInspect after = true ->
  exists r lines,
    analyzeComparison before after (VObj os) = Ok r /\
    printComparisonReport paint Parse.parseFloat r = Ok lines /\
    nth_error lines 1 =
    Some ("顶点数：" ++
          (if String.eqb (v_percent (vertices r)) "0.0%" ||
              String.eqb (v_percent (vertices r)) "-0.0%"
           then paint "gray" "0% 变化"
           else if gtb (v_diff (vertices r)) zero
           then paint "yellow" (v_percent (vertices r) ++ " 增加")
           else paint "green" (v_percent (vertices r) ++ " 减少"))) /\
    (gtb (vertexMetric before) zero = false ->
     nth_error lines 1 = Some ("顶点数：" ++ paint "gray" "0% 变化")).
Proof.
  intros Hb Ha.
  destruct (ReportFacts.printComparisonReport_wf paint Parse.parseFloat
              before after Hb Ha os)
    as (r & Hr & _ & _ & _ & _ & _ & Hp).
  exists r. eexists. split; [exact Hr|]. split; [exact Hp|].
  destruct (EvalFacts.analyzeComparison_wf before after Hb Ha os)
    as (r' & Hr' & Hv & _).
  rewrite Hr in Hr'. injection Hr' as <-.
  rewrite (EvalFacts.analyzeVertices_wf before after Hb Ha) in Hv.
  injection Hv as Hv. rewrite <- Hv.
  cbn [v_percent v_diff nth_error List.app]. unfold vertexChange.
  cbn [v_percent v_diff]. split.
  - rewrite ExpFacts.percentText_small. reflexivity.
  - intro Hz. rewrite (SignFacts.percentText_zero_before _ _ Hz).
    reflexivity.
Qed.

(** The theorem on a mesh that grows from ten thousand vertices to ten
    thousand and one, with styles written as tags: the percentage rounds
    to ["0.0%"]. *)
Lemma printComparisonReport_vertices_witness :
  exists r lines,
    analyzeComparison tenThousand tenThousandOne (VObj []) = Ok r /\
    printComparisonReport (fun style text => "<" ++ style ++ ">" ++ text)
      Parse.parseFloat r = Ok lines /\
    gtb (v_diff (vertices r)) zero = true /\
    nth_error lines 1 = Some "顶点数：<gray>0% 变化".
Proof.
  destruct (printComparisonReport_vertices
              (fun style text => "<" ++ style ++ ">" ++ text)
              tenThousand tenThousandOne [] eq_refl eq_refl)
    as (r & lines & Hr & Hl & H1 & _).
  exists r, lines. split; [exact Hr|]. split; [exact Hl|].
  assert (Hr' : analyzeComparison tenThousand tenThousandOne (VObj [])
                = Ok r) by exact Hr.
  vm_compute in Hr'. injection Hr' as Hr'.
  split; [rewrite <- Hr'; reflexivity|].
  rewrite H1, <- Hr'. reflexivity.
Defined.
